(** * Kompanion prototype: message bus and device protocol state machine

    A shallow embedding of [src/prototype.py] (classes [InProcessBus],
    [MockMQTTClient], [Hardware] and [CompanionDevice]) and the theorems
    that settle the properties stated about it.

    Conventions of the embedding:
    - a Python [str] and a Python [bytes] are both a [string] (a sequence
      of 8-bit characters);
    - a Python [float] is a [spec_float] at binary64 precision, with the
      operations of [SpecFloat];
    - an object is a record, and the objects of one process live in one
      [World]; a method is a function from worlds to worlds;
    - what a call makes observable (bus log, subscriber calls, device log,
      indicator and dispense notifications) is returned as a tree of
      [Event]s. *)

From Stdlib Require Import ZArith QArith Lqa Ascii String.
From Stdlib Require Import SpecFloat.
From stdpp Require Import base list strings.

Open Scope string_scope.
Open Scope list_scope.

(** ** Strings *)

(** [str.split(sep)] for a one-character separator: every occurrence of
    the separator ends a segment, so the result is never empty and the
    empty string splits into one empty segment. *)
Fixpoint split (sep : ascii) (s : string) : list string :=
  match s with
  | EmptyString => [EmptyString]
  | String c rest =>
      if Ascii.eqb c sep then EmptyString :: split sep rest
      else match split sep rest with
           | [] => [String c EmptyString]
           | seg :: segs => String c seg :: segs
           end
  end.

(** ** InProcessBus._match *)

(** [all(p == "+" or p == t for p, t in zip(pp, tp))] *)
Definition segments_match (pp tp : list string) : bool :=
  forallb (fun '(p, t) => String.eqb p "+" || String.eqb p t) (combine pp tp).

Definition _match (pattern topic : string) : bool :=
  let pp := split "/" pattern in
  let tp := split "/" topic in
  if negb (Nat.eqb (length pp) (length tp)) then false
  else segments_match pp tp.

(** ** Floats

    Python floats are IEEE binary64 numbers: [spec_float] with 53 bits of
    precision and exponents below 1024.  The arithmetic and the comparisons
    are the correctly rounded ones of [SpecFloat]. *)

Definition float := spec_float.
Definition prec : Z := 53.
Definition emax : Z := 1024.
Definition float_of_Z (n : Z) : float := binary_normalize prec emax n 0 false.
Definition fadd := SFadd prec emax.
Definition fsub := SFsub prec emax.
Definition fdiv := SFdiv prec emax.
Definition fleb : float -> float -> bool := SFleb.
Definition fltb : float -> float -> bool := SFltb.

(** [bool(x)] of a float: [x != 0.0], so that a NaN is true. *)
Definition truthy (x : float) : bool := negb (SFeqb x (S754_zero false)).

(** The float nearest to [m * 10^e]: the value of the decimal literal with
    digits [m] and decimal exponent [e]. *)
Definition float_of_decimal (neg : bool) (m : Z) (e : Z) : float :=
  match m with
  | Zpos p =>
      if (0 <=? e)%Z then binary_normalize prec emax (if neg then - (m * 10 ^ e) else m * 10 ^ e)%Z 0 false
      else match (10 ^ (- e))%Z with
           | Zpos q => fdiv (S754_finite neg p 0) (S754_finite false q 0)
           | _ => S754_nan
           end
  | _ => S754_zero neg
  end.

(** *** Reading and writing floats as text

    [float(payload.decode())], [str(x).encode()] and [format(x, ".nf")] are
    builtins of the language, not code of the program: the device code takes
    them through the class [FloatText].  [decimal_text] below is the instance
    used to run the model on concrete payloads: it reads ASCII decimal
    literals (optional sign, digits with an optional point, optional
    exponent, inf, infinity and nan, surrounding white space) with correct
    rounding, and writes the shortest digits that read back, in the style of
    [repr]. *)

Definition digit_of (c : ascii) : option Z :=
  let n := nat_of_ascii c in
  if (48 <=? n)%nat && (n <=? 57)%nat then Some (Z.of_nat (n - 48)) else None.

(** The longest prefix of decimal digits: its value after [acc], the number
    of digits read, and the rest. *)
Fixpoint read_digits (s : string) (acc : Z) (count : nat) : Z * nat * string :=
  match s with
  | String c rest =>
      match digit_of c with
      | Some d => read_digits rest (10 * acc + d)%Z (S count)
      | None => (acc, count, s)
      end
  | EmptyString => (acc, count, s)
  end.

Definition read_sign (s : string) : bool * string :=
  match s with
  | String "-" rest => (true, rest)
  | String "+" rest => (false, rest)
  | _ => (false, s)
  end.

Definition is_space (c : ascii) : bool :=
  let n := nat_of_ascii c in ((9 <=? n)%nat && (n <=? 13)%nat) || (n =? 32)%nat.

Fixpoint lstrip (s : string) : string :=
  match s with
  | String c rest => if is_space c then lstrip rest else s
  | EmptyString => s
  end.

Definition lower (c : ascii) : ascii :=
  let n := nat_of_ascii c in
  if (65 <=? n)%nat && (n <=? 90)%nat then ascii_of_nat (n + 32) else c.

Fixpoint lowercase (s : string) : string :=
  match s with
  | String c rest => String (lower c) (lowercase rest)
  | EmptyString => EmptyString
  end.

Definition read_exponent (s : string) : option Z :=
  match s with
  | EmptyString => Some 0%Z
  | String c rest =>
      if Ascii.eqb (lower c) "e" then
        let '(neg, rest) := read_sign rest in
        match read_digits rest 0 0 with
        | (_, O, _) => None
        | (n, _, EmptyString) => Some (if neg then (- n)%Z else n)
        | _ => None
        end
      else None
  end.

Definition decimal_float_of_bytes (payload : string) : option float :=
  let '(neg, body) := read_sign (lstrip payload) in
  let body := String.rev (lstrip (String.rev body)) in
  let word := lowercase body in
  if String.eqb word "inf" || String.eqb word "infinity" then Some (S754_infinity neg)
  else if String.eqb word "nan" then Some S754_nan
  else
    let '(ipart, icount, rest) := read_digits body 0 0 in
    let '(mant, fcount, rest) :=
      match rest with
      | String "." rest' => read_digits rest' ipart 0
      | _ => (ipart, O, rest)
      end in
    match (icount + fcount)%nat with
    | O => None
    | _ => match read_exponent rest with
           | Some e => Some (float_of_decimal neg mant (e - Z.of_nat fcount))
           | None => None
           end
    end.

Definition digit_char (d : Z) : ascii := ascii_of_nat (48 + Z.to_nat d).

Fixpoint digits_of (fuel : nat) (n : Z) (acc : string) : string :=
  match fuel with
  | O => acc
  | S fuel' =>
      if (n <? 10)%Z then String (digit_char n) acc
      else digits_of fuel' (n / 10)%Z (String (digit_char (n mod 10)) acc)
  end.

Definition string_of_Z (n : Z) : string :=
  if (n <? 0)%Z then String "-" (digits_of (Z.to_nat (Z.log2 (- n)) + 1) (- n)%Z EmptyString)
  else digits_of (Z.to_nat (Z.log2 n) + 1) n EmptyString.

Fixpoint zeros (n : nat) : string :=
  match n with O => EmptyString | S n' => String "0" (zeros n') end.

Fixpoint strip_zeros (fuel : nat) (d : Z) : Z :=
  match fuel with
  | O => d
  | S fuel' => if (0 <? d)%Z && (d mod 10 =? 0)%Z then strip_zeros fuel' (d / 10)%Z else d
  end.

(** For [num/den > 0]: the least [k], from the given one on, with
    [num/den < 10^k]. *)
Fixpoint decimal_point (fuel : nat) (k : Z) (num den : Z) : Z :=
  match fuel with
  | O => k
  | S fuel' =>
      if (if (0 <=? k)%Z then num <? den * 10 ^ k else num * 10 ^ (- k) <? den)%Z then k
      else decimal_point fuel' (k + 1)%Z num den
  end.

(** The exact value [m * 2^e] of a positive finite float, as a fraction. *)
Definition fraction_of (m : positive) (e : Z) : Z * Z :=
  if (0 <=? e)%Z then (Zpos m * 2 ^ e, 1)%Z else (Zpos m, 2 ^ (- e))%Z.

(** The shortest digits that read back as the float [S754_finite false m e]:
    [n] significant digits are tried for [n = 1, 2, ...]; the result
    [(d, s)] stands for [d * 10^(-s)]. *)
Fixpoint shortest_digits (fuel : nat) (n : Z) (m : positive) (e : Z) (k : Z) : Z * Z :=
  let '(num, den) := fraction_of m e in
  let s := (n - k)%Z in
  let '(snum, sden) := if (0 <=? s)%Z then (num * 10 ^ s, den)%Z else (num, den * 10 ^ (- s))%Z in
  let lo := (snum / sden)%Z in
  let hi := (lo + 1)%Z in
  let ok d := match float_of_decimal false d (- s) with
              | S754_finite false m' e' => Pos.eqb m m' && (e =? e')%Z
              | _ => false
              end in
  let twice_rem := (2 * (snum - lo * sden))%Z in
  let nearest_lo := (twice_rem <? sden)%Z || ((twice_rem =? sden)%Z && Z.even lo) in
  match fuel with
  | O => (if nearest_lo then lo else hi, s)
  | S fuel' =>
      match ok lo, ok hi with
      | true, true => (if nearest_lo then lo else hi, s)
      | true, false => (lo, s)
      | false, true => (hi, s)
      | false, false => shortest_digits fuel' (n + 1)%Z m e k
      end
  end.

Definition insert_point (ds : string) (k : Z) : string :=
  let n := Z.of_nat (String.length ds) in
  if (k <=? 0)%Z then "0." +:+ zeros (Z.to_nat (- k)) +:+ ds
  else if (n <=? k)%Z then ds +:+ zeros (Z.to_nat (k - n)) +:+ ".0"
  else substring 0 (Z.to_nat k) ds +:+ "." +:+ substring (Z.to_nat k) (Z.to_nat (n - k)) ds.

Definition scientific (ds : string) (k : Z) : string :=
  let x := (k - 1)%Z in
  let mant := match ds with
              | String d EmptyString => ds
              | String d rest => String d (String "." rest)
              | EmptyString => ds
              end in
  let xs := string_of_Z (Z.abs x) in
  mant +:+ "e" +:+ (if (x <? 0)%Z then "-" else "+") +:+ (if (Z.abs x <? 10)%Z then "0" else EmptyString) +:+ xs.

Definition decimal_bytes_of_float (x : float) : string :=
  match x with
  | S754_nan => "nan"
  | S754_infinity s => if s then "-inf" else "inf"
  | S754_zero s => if s then "-0.0" else "0.0"
  | S754_finite s m e =>
      let '(num, den) := fraction_of m e in
      let k := decimal_point 700 (-330) num den in
      let '(d, s10) := shortest_digits 17 1 m e k in
      let ds := string_of_Z (strip_zeros 20 d) in
      let k := (Z.of_nat (String.length (string_of_Z d)) - s10)%Z in
      (if s then "-" else EmptyString) +:+
      (if (k <=? -4)%Z || (16 <? k)%Z then scientific ds k else insert_point ds k)
  end.

Definition decimal_format_f (n : nat) (x : float) : string :=
  match x with
  | S754_nan => "nan"
  | S754_infinity s => if s then "-inf" else "inf"
  | S754_zero s => (if s then "-0" else "0") +:+ (match n with O => EmptyString | _ => "." +:+ zeros n end)
  | S754_finite s m e =>
      let '(num, den) := fraction_of m e in
      let snum := (num * 10 ^ Z.of_nat n)%Z in
      let lo := (snum / den)%Z in
      let twice_rem := (2 * (snum - lo * den))%Z in
      let q := if (twice_rem <? den)%Z || ((twice_rem =? den)%Z && Z.even lo) then lo else (lo + 1)%Z in
      let ds := string_of_Z q in
      let ds := zeros (S n - String.length ds) +:+ ds in
      let len := String.length ds in
      (if s then "-" else EmptyString) +:+ substring 0 (len - n) ds +:+
      (match n with O => EmptyString | _ => "." +:+ substring (len - n) n ds end)
  end.

Class FloatText := {
  (** [float(payload.decode())]; [None] when it raises ([UnicodeDecodeError]
      and the error of [float] are both a [ValueError]) *)
  float_of_bytes : string -> option float;
  (** [str(x).encode()] *)
  bytes_of_float : float -> string;
  (** [format(x, ".nf")] *)
  format_f : nat -> float -> string
}.

Definition decimal_text : FloatText :=
  {| float_of_bytes := decimal_float_of_bytes;
     bytes_of_float := decimal_bytes_of_float;
     format_f := decimal_format_f |}.

(** ** Constants *)

Definition PH_SAFE_LOW : float := float_of_Z 4.
Definition PH_SAFE_HIGH : float := float_of_Z 8.
Definition PRESENCE_TIMEOUT : float := float_of_Z 10.

(** [TOPIC_X.format(id=id)] *)
Definition TOPIC_PRESENCE (id : string) : string := "kompanion/" +:+ id +:+ "/presence".
Definition TOPIC_PRESENCE_BINARY (id : string) : string := "kompanion/" +:+ id +:+ "/presence_binary".
Definition TOPIC_HEALTH (id : string) : string := "kompanion/" +:+ id +:+ "/health".
Definition TOPIC_FEED (id : string) : string := "kompanion/" +:+ id +:+ "/feed".

(** The two [time.sleep] arguments: the pause of the sensor loop and the
    pause of the [_finish] thread of the feed sequence. *)
Definition POLL_INTERVAL : Q := 2.
Definition RECOVERY_WINDOW : Q := 5 # 2.

(** ** Observable events

    What a call does to the outside is returned as a list of events, in
    program order.  A publish and a subscriber call carry the events that
    happened inside them, so the list is a call tree. *)

(** How a subscriber callback ends: it returns, or it raises an
    [Exception], of which [exc] is the text. *)
Inductive outcome :=
| Returned
| Raised (exc : string).

#[warnings="-register-all"]
Inductive Event :=
| EvBusLog (topic payload : string)      (* _log_cb(f"[BUS] {topic}  {payload!r}", "bus") *)
| EvPrint (text : string)                (* print(text) *)
| EvPublish (topic payload : string) (inner : list Event)   (* InProcessBus.publish *)
| EvCall (cb : nat) (inner : list Event) (result : outcome) (* cb(_Msg(topic, payload)) *)
| EvDeviceLog (dev : nat) (text tag : string)               (* device.log_cb(text, tag) *)
| EvHwLog (dev : nat) (text : string)    (* hw.log_cb(text, "hw") *)
| EvLed (dev : nat) (state : string)     (* hw.on_led_change(state) *)
| EvDispense (dev : nat).                (* hw.on_dispense() *)

(** ** Objects *)

Record _Msg := mkMsg { topic : string; payload : string }.

(** A hook attribute ([on_led_change], [on_dispense], [log_cb], [_btn_cb],
    [_log_cb]) is a boolean: whether a callable is installed.  What the
    installed callable does is the event. *)
Record Hardware := mkHardware {
  _presence : bool;
  _ph : float;
  _btn_cb : bool;
  led_state : string;
  on_led_change : bool;
  on_dispense : bool;
  hw_log_cb : bool
}.

(** A device with its [MockMQTTClient], whose [on_connect] and [on_message]
    the constructor binds to the device. *)
Record CompanionDevice := mkDevice {
  id : string;
  friend_id : string;
  hw : Hardware;
  present : bool;
  friend_present : bool;
  friend_unhealthy : bool;
  friend_last_presence_ts : float;
  friend_binary_seen : bool;
  log_cb : bool;
  _recovering : bool
}.

(** A subscriber callback is named by a number; the callback of a device's
    client ([client._dispatch]) is the index of the device in the world. *)
Record InProcessBus := mkBus {
  _subs : list (string * nat);
  _log_cb : bool
}.

(** The threads the devices start, each asleep for some more time. *)
Inductive Thread :=
| SensorLoop (dev : nat)
| FinishThread (dev : nat).

Record World := mkWorld {
  bus : InProcessBus;
  devices : list CompanionDevice;
  time_time : float;                 (* what time.time() returns *)
  sleeping : list (Thread * Q)
}.

Definition set_led_state (v : string) (h : Hardware) : Hardware :=
  mkHardware (_presence h) (_ph h) (_btn_cb h) v (on_led_change h) (on_dispense h) (hw_log_cb h).
Definition set__ph (v : float) (h : Hardware) : Hardware :=
  mkHardware (_presence h) v (_btn_cb h) (led_state h) (on_led_change h) (on_dispense h) (hw_log_cb h).
Definition set__presence (v : bool) (h : Hardware) : Hardware :=
  mkHardware v (_ph h) (_btn_cb h) (led_state h) (on_led_change h) (on_dispense h) (hw_log_cb h).
Definition set__btn_cb (v : bool) (h : Hardware) : Hardware :=
  mkHardware (_presence h) (_ph h) v (led_state h) (on_led_change h) (on_dispense h) (hw_log_cb h).

Definition set_hw (v : Hardware) (d : CompanionDevice) : CompanionDevice :=
  mkDevice (id d) (friend_id d) v (present d) (friend_present d) (friend_unhealthy d)
    (friend_last_presence_ts d) (friend_binary_seen d) (log_cb d) (_recovering d).
Definition set_present (v : bool) (d : CompanionDevice) : CompanionDevice :=
  mkDevice (id d) (friend_id d) (hw d) v (friend_present d) (friend_unhealthy d)
    (friend_last_presence_ts d) (friend_binary_seen d) (log_cb d) (_recovering d).
Definition set_friend_present (v : bool) (d : CompanionDevice) : CompanionDevice :=
  mkDevice (id d) (friend_id d) (hw d) (present d) v (friend_unhealthy d)
    (friend_last_presence_ts d) (friend_binary_seen d) (log_cb d) (_recovering d).
Definition set_friend_unhealthy (v : bool) (d : CompanionDevice) : CompanionDevice :=
  mkDevice (id d) (friend_id d) (hw d) (present d) (friend_present d) v
    (friend_last_presence_ts d) (friend_binary_seen d) (log_cb d) (_recovering d).
Definition set_friend_last_presence_ts (v : float) (d : CompanionDevice) : CompanionDevice :=
  mkDevice (id d) (friend_id d) (hw d) (present d) (friend_present d) (friend_unhealthy d)
    v (friend_binary_seen d) (log_cb d) (_recovering d).
Definition set_friend_binary_seen (v : bool) (d : CompanionDevice) : CompanionDevice :=
  mkDevice (id d) (friend_id d) (hw d) (present d) (friend_present d) (friend_unhealthy d)
    (friend_last_presence_ts d) v (log_cb d) (_recovering d).
Definition set__recovering (v : bool) (d : CompanionDevice) : CompanionDevice :=
  mkDevice (id d) (friend_id d) (hw d) (present d) (friend_present d) (friend_unhealthy d)
    (friend_last_presence_ts d) (friend_binary_seen d) (log_cb d) v.

Definition set__subs (v : list (string * nat)) (w : World) : World :=
  mkWorld (mkBus v (_log_cb (bus w))) (devices w) (time_time w) (sleeping w).
Definition set_devices (v : list CompanionDevice) (w : World) : World :=
  mkWorld (bus w) v (time_time w) (sleeping w).
Definition set_time_time (v : float) (w : World) : World :=
  mkWorld (bus w) (devices w) v (sleeping w).
Definition set_sleeping (v : list (Thread * Q)) (w : World) : World :=
  mkWorld (bus w) (devices w) (time_time w) v.

(** ** Methods as state transformers

    A method over a state [S] returns its result, the new state and the
    events it caused; [None] stands for a call that does not return (the
    recursion of the bus ran out of fuel) or that names an object that does
    not exist. *)

Definition M (S A : Type) : Type := S -> option (A * S * list Event).

Definition ret {S A} (a : A) : M S A := fun s => Some (a, s, []).

Definition bind {S A B} (m : M S A) (k : A -> M S B) : M S B :=
  fun s =>
    match m s with
    | Some (a, s1, ev1) =>
        match k a s1 with
        | Some (b, s2, ev2) => Some (b, s2, ev1 ++ ev2)
        | None => None
        end
    | None => None
    end.

Notation "'let!' x ':=' m 'in' k" := (bind m (fun x => k))
  (at level 10, x name, m at level 200, k at level 200).
Notation "m >> k" := (bind m (fun _ => k))
  (at level 90, right associativity).

Definition get {S} : M S S := fun s => Some (s, s, []).
Definition modify {S} (f : S -> S) : M S unit := fun s => Some (tt, f s, []).
Definition emit {S} (e : Event) : M S unit := fun s => Some (tt, s, [e]).
Definition when {S} (b : bool) (m : M S unit) : M S unit := if b then m else ret tt.

(** The events of [m] become the children of one event. *)
Definition scope {S A} (node : list Event -> A -> Event) (m : M S A) : M S A :=
  fun s =>
    match m s with
    | Some (a, s1, inner) => Some (a, s1, [node inner a])
    | None => None
    end.

(** A method of [self.hw] called from a method of the device, and a method
    of the device with handle [i] called from the world. *)
Definition on_hw {A} (m : M Hardware A) : M CompanionDevice A :=
  fun d =>
    match m (hw d) with
    | Some (a, h, ev) => Some (a, set_hw h d, ev)
    | None => None
    end.

Definition on_device {A} (i : nat) (m : M CompanionDevice A) : M World A :=
  fun w =>
    match devices w !! i with
    | Some d =>
        match m d with
        | Some (a, d', ev) => Some (a, set_devices (<[i := d']> (devices w)) w, ev)
        | None => None
        end
    | None => None
    end.

(** ** InProcessBus *)

Definition callbacks : Type := nat -> _Msg -> M World outcome.

Definition InProcessBus_subscribe (pattern : string) (cb : nat) : M World unit :=
  modify (fun w => set__subs (_subs (bus w) ++ [(pattern, cb)]) w).

(** The [for] loop of [publish] over the subscriptions matched beforehand:
    each callback is called under [try]; an exception is printed and the
    loop goes on. *)
Fixpoint deliver (run : callbacks) (msg : _Msg) (matched : list (string * nat)) : M World unit :=
  match matched with
  | [] => ret tt
  | (_, cb) :: rest =>
      let! result := scope (EvCall cb) (run cb msg) in
      match result with
      | Returned => ret tt
      | Raised exc => emit (EvPrint ("[BUS ERROR] subscriber raised: " +:+ exc))
      end >>
      deliver run msg rest
  end.

(** [publish(topic, payload, **_)]: the keyword arguments [qos] and [retain]
    are accepted and dropped. *)
Definition InProcessBus_publish (run : callbacks) (topic payload : string)
    (qos : nat) (retain : bool) : M World unit :=
  scope (fun inner _ => EvPublish topic payload inner)
    (let! w := get in
     when (_log_cb (bus w)) (emit (EvBusLog topic payload)) >>
     let matched := List.filter (fun '(p, _) => _match p topic) (_subs (bus w)) in
     deliver run (mkMsg topic payload) matched).

(** ** Hardware *)

Definition Hardware__fire_led (i : nat) (state : string) : M Hardware unit :=
  let! h := get in when (on_led_change h) (emit (EvLed i state)).

Definition Hardware__log (i : nat) (msg : string) : M Hardware unit :=
  let! h := get in when (hw_log_cb h) (emit (EvHwLog i msg)).

Definition Hardware_set_led_amber (i : nat) : M Hardware unit :=
  modify (set_led_state "amber") >>
  Hardware__fire_led i "amber" >>
  Hardware__log i "LED → amber (presence sync)".

Definition Hardware_set_led_red (i : nat) : M Hardware unit :=
  modify (set_led_state "red") >>
  Hardware__fire_led i "red" >>
  Hardware__log i "LED → red (SCOBY SOS)".

Definition Hardware_clear_led (i : nat) : M Hardware unit :=
  modify (set_led_state "off") >>
  Hardware__fire_led i "off" >>
  Hardware__log i "LED → off".

Definition Hardware_wait_for_tap : M Hardware unit :=
  modify (set__btn_cb true).

(** ** CompanionDevice: the methods that touch the device only *)

Definition CompanionDevice__log (i : nat) (msg : string) : M CompanionDevice unit :=
  let! self := get in
  when (log_cb self)
    (emit (EvDeviceLog i ("[Device " +:+ id self +:+ "] " +:+ msg)
             (if String.eqb (id self) "A" then "a" else "b"))).

(** [_update_led], given the reading [now] of [time.time()]. *)
Definition CompanionDevice__update_led (i : nat) (now : float) : M CompanionDevice unit :=
  let! self := get in
  when (negb (friend_binary_seen self) && truthy (friend_last_presence_ts self))
    (modify (set_friend_present
               (fltb (fsub now (friend_last_presence_ts self)) PRESENCE_TIMEOUT))) >>
  let! self := get in
  if friend_unhealthy self then on_hw (Hardware_set_led_red i)
  else if present self && friend_present self then on_hw (Hardware_set_led_amber i)
  else on_hw (Hardware_clear_led i).

(** The body of [_finish] after its [time.sleep(2.5)]. *)
Definition CompanionDevice__finish (i : nat) : M CompanionDevice unit :=
  modify (set__recovering false) >>
  CompanionDevice__log i "dispenser sequence complete".

(** ** CompanionDevice: the methods that reach the bus *)

(** [time.time()] *)
Definition clock : M World float := fun w => Some (time_time w, w, []).

(** [threading.Thread(target=...).start()], for a thread that has [sleep]
    seconds to wait before it acts. *)
Definition spawn (t : Thread) (sleep : Q) : M World unit :=
  modify (fun w => set_sleeping (sleeping w ++ [(t, sleep)]) w).

Section Device.

Context {text : FloatText}.

(** [InProcessBus.publish] of the bus of this process, with the callbacks
    that are subscribed on it: what [self.client._bus.publish] runs. *)
Variable bus_publish : string -> string -> nat -> bool -> M World unit.

(** [publish(self, topic, payload, qos, retain)] *)
Definition MockMQTTClient_publish (topic payload : string) (qos : nat) (retain : bool) : M World unit :=
  bus_publish topic payload qos retain.

Definition MockMQTTClient_subscribe (i : nat) (topic_pattern : string) : M World unit :=
  InProcessBus_subscribe topic_pattern i.

Definition CompanionDevice__publish (topic payload : string) : M World unit :=
  MockMQTTClient_publish topic payload 1 true.

(** [self._update_led()] called on device [i]. *)
Definition update_led (i : nat) : M World unit :=
  let! now := clock in on_device i (CompanionDevice__update_led i now).

Definition CompanionDevice__on_connect (i : nat) : M World unit :=
  on_device i (CompanionDevice__log i "connected to broker") >>
  MockMQTTClient_subscribe i "kompanion/+/+".

(** [connect]: [on_connect] is set by the constructor of the device. *)
Definition MockMQTTClient_connect (i : nat) : M World unit :=
  CompanionDevice__on_connect i.

Definition CompanionDevice__on_feed_received (i : nat) : M World unit :=
  let recovered_ph := fdiv (fadd PH_SAFE_LOW PH_SAFE_HIGH) (float_of_Z 2) in
  let! self := on_device i get in
  on_device i
    (modify (fun d => set_hw (set__ph recovered_ph (hw d)) d) >>
     modify (set__recovering true) >>
     CompanionDevice__log i
       ("dispensing sugar — SCOBY pH resetting to " +:+ format_f 1 recovered_ph)) >>
  CompanionDevice__publish (TOPIC_HEALTH (id self)) (bytes_of_float recovered_ph) >>
  update_led i >>
  on_device i (let! d := get in when (on_dispense (hw d)) (emit (EvDispense i))) >>
  spawn (FinishThread i) RECOVERY_WINDOW.

(** The branch of [_on_message] for each kind.  The result tells whether
    the method goes on to its last statement ([true]) or has returned
    ([false]). *)
Definition CompanionDevice__on_message_kind (i : nat) (peer kind payload : string) : M World bool :=
  if String.eqb kind "presence" then
    let ts := match float_of_bytes payload with
              | Some ts => ts
              | None => S754_zero false
              end in
    on_device i (modify (set_friend_last_presence_ts ts)) >>
    ret true
  else if String.eqb kind "presence_binary" then
    on_device i
      (modify (set_friend_present (String.eqb payload "1")) >>
       modify (set_friend_binary_seen true) >>
       let! self := get in
       CompanionDevice__log i
         ("friend " +:+ (if friend_present self then "present" else "away"))) >>
    ret true
  else if String.eqb kind "health" then
    match float_of_bytes payload with
    | None => ret false
    | Some ph =>
        on_device i
          (let! self := get in
           let was_unhealthy := friend_unhealthy self in
           modify (set_friend_unhealthy (negb (fleb PH_SAFE_LOW ph && fleb ph PH_SAFE_HIGH))) >>
           let! self := get in
           if friend_unhealthy self && negb was_unhealthy then
             CompanionDevice__log i
               ("FRIEND SOS — SCOBY pH " +:+ format_f 2 ph +:+ " out of range!")
           else if negb (friend_unhealthy self) && was_unhealthy then
             CompanionDevice__log i
               ("Friend SCOBY recovered (pH " +:+ format_f 2 ph +:+ ")")
           else ret tt) >>
        ret true
    end
  else if String.eqb kind "feed" then
    on_device i
      (CompanionDevice__log i
         ("feed command received from " +:+ peer +:+ " — dispensing sugar")) >>
    CompanionDevice__on_feed_received i >>
    ret true
  else ret true.

Definition CompanionDevice__on_message (i : nat) (msg : _Msg) : M World unit :=
  match split "/" (topic msg) with
  | [_; peer; kind] =>
      let! self := on_device i get in
      if String.eqb peer (id self) then ret tt
      else
        let! go_on := CompanionDevice__on_message_kind i peer kind (payload msg) in
        if go_on then update_led i else ret tt
  | _ => ret tt
  end.

(** [_dispatch]: [on_message] is set by the constructor of the device.
    The handler raises nothing: its two conversions are under [try]. *)
Definition MockMQTTClient__dispatch (i : nat) (msg : _Msg) : M World outcome :=
  CompanionDevice__on_message i msg >> ret Returned.

(** One turn of the [while True] loop of [_sensor_loop], up to its
    [time.sleep(2)]. *)
Definition CompanionDevice__sensor_loop_body (i : nat) : M World unit :=
  let! self := on_device i get in
  let prev := present self in
  on_device i (modify (fun d => set_present (_presence (hw d)) d)) >>
  let! self := on_device i get in
  (if negb (Bool.eqb (present self) prev) then
     let! now := clock in
     let ts_payload := if present self then bytes_of_float now else "0" in
     let bin_payload := if present self then "1" else "0" in
     CompanionDevice__publish (TOPIC_PRESENCE (id self)) ts_payload >>
     CompanionDevice__publish (TOPIC_PRESENCE_BINARY (id self)) bin_payload
   else ret tt) >>
  let! self := on_device i get in
  (if negb (_recovering self) then
     let ph := _ph (hw self) in
     CompanionDevice__publish (TOPIC_HEALTH (id self)) (bytes_of_float ph)
   else ret tt) >>
  update_led i.

Definition CompanionDevice__on_button (i : nat) : M World unit :=
  let! self := on_device i get in
  if friend_unhealthy self then
    on_device i (CompanionDevice__log i ("tapping — sending feed to " +:+ friend_id self)) >>
    CompanionDevice__publish (TOPIC_FEED (friend_id self)) EmptyString
  else ret tt.

Definition Hardware_trigger_tap (i : nat) : M World unit :=
  let! self := on_device i get in
  if _btn_cb (hw self) then CompanionDevice__on_button i else ret tt.

Definition CompanionDevice_start (i : nat) : M World unit :=
  MockMQTTClient_connect i >>
  spawn (SensorLoop i) 0 >>
  on_device i (on_hw Hardware_wait_for_tap).

(** The two controls of [DevicePanel] that reach the device.  The panel's
    [_pres_var] mirrors [hw._presence]: both start false and are set only
    by the toggle. *)
Definition DevicePanel__toggle_presence (i : nat) : M World unit :=
  let! self := on_device i get in
  let new := negb (_presence (hw self)) in
  on_device i
    (modify (fun d => set_hw (set__presence new (hw d)) d) >>
     modify (set_present new)) >>
  let! now := clock in
  let ts := if new then bytes_of_float now else "0" in
  let bin := if new then "1" else "0" in
  CompanionDevice__publish (TOPIC_PRESENCE (id self)) ts >>
  CompanionDevice__publish (TOPIC_PRESENCE_BINARY (id self)) bin.

(** [_apply_ph], with the value [ph] of the slider. *)
Definition DevicePanel__apply_ph (i : nat) (ph : float) : M World unit :=
  let! self := on_device i get in
  on_device i (modify (fun d => set_hw (set__ph ph (hw d)) d)) >>
  CompanionDevice__publish (TOPIC_HEALTH (id self)) (bytes_of_float ph).

End Device.

(** The bus of the process, with the device clients as its callbacks.  A
    callback may publish in its turn; [fuel] bounds the depth of publishes
    inside publishes. *)
Fixpoint bus_publish {text : FloatText} (fuel : nat) (topic payload : string)
    (qos : nat) (retain : bool) : M World unit :=
  match fuel with
  | O => fun _ => None
  | S fuel' =>
      InProcessBus_publish (MockMQTTClient__dispatch (bus_publish fuel'))
        topic payload qos retain
  end.

(** [Hardware()] and [CompanionDevice(device_id, friend_id, hw, client)] *)
Definition Hardware_init : Hardware :=
  mkHardware false (float_of_Z 7) false "off" false false false.

Definition CompanionDevice_init (device_id friend_id : string) (hw : Hardware) : CompanionDevice :=
  mkDevice device_id friend_id hw false false false (S754_zero false) false false false.

(** ** Threads and time

    The code runs in threads that sleep: the sensor loop of each device
    between two turns, and one [_finish] thread for each feed sequence.
    A run of the process is a list of actions; a thread can act when the
    time it asked to sleep has passed.

    An action is one call run from its first statement to its last: a
    list of actions is a schedule in which the calls do not overlap.  The
    process has more schedules than these, since its threads share the
    devices without a lock; runs are used here to exhibit schedules, not
    to speak of all of them.  A schedule that switches threads inside a
    turn of the sensor loop is written with the two parts of the turn,
    [CompanionDevice__sensor_loop_read] and
    [CompanionDevice__sensor_loop_publish] below. *)

Inductive Action :=
| Elapse (dt : Q) (now : float)    (* dt seconds pass; time.time() then returns now *)
| RunSensorLoop (i : nat)          (* one turn of the sensor loop of device i *)
| RunFinish (i : nat)              (* a _finish thread of device i wakes up and ends *)
| Tap (i : nat)                    (* hw.trigger_tap() on device i *)
| TogglePresence (i : nat)         (* the presence button of panel i *)
| ApplyPh (i : nat) (ph : float).  (* the slider of panel i, settled on ph *)

Definition Thread_eqb (a b : Thread) : bool :=
  match a, b with
  | SensorLoop i, SensorLoop j => Nat.eqb i j
  | FinishThread i, FinishThread j => Nat.eqb i j
  | _, _ => false
  end.

(** Take out the first entry of thread [t] whose sleep is over. *)
Fixpoint wake_up (t : Thread) (asleep : list (Thread * Q)) : option (list (Thread * Q)) :=
  match asleep with
  | [] => None
  | (t', r) :: rest =>
      if Thread_eqb t t' && Qle_bool r 0 then Some rest
      else option_map (cons (t', r)) (wake_up t rest)
  end.

Definition awake (t : Thread) : M World unit :=
  fun w =>
    match wake_up t (sleeping w) with
    | Some asleep => Some (tt, set_sleeping asleep w, [])
    | None => None
    end.

Definition elapse (dt : Q) (now : float) : M World unit :=
  fun w =>
    if Qle_bool 0 dt
    then Some (tt, set_time_time now
                     (set_sleeping (List.map (fun tr => (tr.1, tr.2 - dt)%Q) (sleeping w)) w), [])
    else None.

Definition step {text : FloatText} (fuel : nat) (a : Action) : M World unit :=
  match a with
  | Elapse dt now => elapse dt now
  | RunSensorLoop i =>
      awake (SensorLoop i) >>
      CompanionDevice__sensor_loop_body (bus_publish fuel) i >>
      spawn (SensorLoop i) POLL_INTERVAL
  | RunFinish i =>
      awake (FinishThread i) >>
      on_device i (CompanionDevice__finish i)
  | Tap i => Hardware_trigger_tap (bus_publish fuel) i
  | TogglePresence i => DevicePanel__toggle_presence (bus_publish fuel) i
  | ApplyPh i ph => DevicePanel__apply_ph (bus_publish fuel) i ph
  end.

Fixpoint run {text : FloatText} (fuel : nat) (acts : list Action) : M World unit :=
  match acts with
  | [] => ret tt
  | a :: rest => step fuel a >> run fuel rest
  end.

(** [KompanionApp._build]: one bus with its log sink, devices A and B with
    every hook installed, both started. *)
Definition KompanionApp_hardware : Hardware :=
  mkHardware false (float_of_Z 7) false "off" true true true.

Definition KompanionApp_device (device_id friend_id : string) : CompanionDevice :=
  mkDevice device_id friend_id KompanionApp_hardware
    false false false (S754_zero false) false true false.

Definition KompanionApp__build (now : float) : option World :=
  let w := mkWorld (mkBus [] true)
             [KompanionApp_device "A" "B"; KompanionApp_device "B" "A"] now [] in
  match (CompanionDevice_start 0 >> CompanionDevice_start 1) w with
  | Some (_, w', _) => Some w'
  | None => None
  end.

(** ** More of the bus and of the panel *)

(** [set_log(cb)] *)
Definition InProcessBus_set_log : M World unit :=
  modify (fun w => mkWorld (mkBus (_subs (bus w)) true) (devices w) (time_time w) (sleeping w)).

(** [sep.join(segs)] *)
Fixpoint join (sep : ascii) (segs : list string) : string :=
  match segs with
  | [] => EmptyString
  | [seg] => seg
  | seg :: rest => seg +:+ String sep (join sep rest)
  end.

Definition C_HEALTHY : string := "#10b981".
Definition C_SICK : string := "#f97316".

(** [_refresh_ph_label(ph)]: the text and the colour the label is given. *)
Definition DevicePanel__refresh_ph_label {text : FloatText} (ph : float) : string * string :=
  if fltb ph PH_SAFE_LOW then
    ("pH " +:+ format_f 2 ph +:+ "  — TOO ACIDIC  ↓", C_SICK)
  else if fltb PH_SAFE_HIGH ph then
    ("pH " +:+ format_f 2 ph +:+ "  — TOO ALKALINE ↑", C_SICK)
  else
    ("pH " +:+ format_f 2 ph +:+ "  — HEALTHY", C_HEALTHY).


(** ** A turn of the sensor loop, in two parts

    The loop runs on a thread of its own ([start] makes it a daemon
    thread), the button and the panel run on the thread of the interface,
    and no lock guards the device.  Another thread can therefore act
    between two statements of a turn.  The turn is cut here between the
    statement that reads the pH into the local [ph], once the test of
    [_recovering] has let the turn through, and the statement that
    publishes [ph]. *)

(** The turn from [prev = self.present] to [ph = self.hw.read_ph()]: the
    result is the local [ph], or nothing when the device is recovering. *)
Definition CompanionDevice__sensor_loop_read {text : FloatText}
    (bus_publish : string -> string -> nat -> bool -> M World unit) (i : nat)
    : M World (option float) :=
  let! self := on_device i get in
  let prev := present self in
  on_device i (modify (fun d => set_present (_presence (hw d)) d)) >>
  let! self := on_device i get in
  (if negb (Bool.eqb (present self) prev) then
     let! now := clock in
     let ts_payload := if present self then bytes_of_float now else "0" in
     let bin_payload := if present self then "1" else "0" in
     CompanionDevice__publish bus_publish (TOPIC_PRESENCE (id self)) ts_payload >>
     CompanionDevice__publish bus_publish (TOPIC_PRESENCE_BINARY (id self)) bin_payload
   else ret tt) >>
  let! self := on_device i get in
  if negb (_recovering self) then ret (Some (_ph (hw self))) else ret None.

(** The rest of the turn: [self._publish(TOPIC_HEALTH..., str(ph).encode())]
    with the local [ph] of the first part, when there is one, and
    [self._update_led()]. *)
Definition CompanionDevice__sensor_loop_publish {text : FloatText}
    (bus_publish : string -> string -> nat -> bool -> M World unit) (i : nat)
    (ph : option float) : M World unit :=
  match ph with
  | Some ph =>
      let! self := on_device i get in
      CompanionDevice__publish bus_publish (TOPIC_HEALTH (id self)) (bytes_of_float ph)
  | None => ret tt
  end >>
  update_led i.

(** * Vocabulary of the statements *)

(** The subscriptions a publish on [topic] selects. *)
Definition matching (topic : string) (subs : list (string * nat)) : list (string * nat) :=
  List.filter (fun '(p, _) => _match p topic) subs.

(** What the bus itself does around one subscriber call: the call, and
    the printed line when the call raised. *)
Definition call_events (cb : nat) (r : list Event * outcome) : list Event :=
  EvCall cb (fst r) (snd r) ::
  match snd r with
  | Returned => []
  | Raised exc => [EvPrint ("[BUS ERROR] subscriber raised: " +:+ exc)]
  end.

Definition bus_log_events (w : World) (topic payload : string) : list Event :=
  if _log_cb (bus w) then [EvBusLog topic payload] else [].

(** The callbacks a list of events shows as called, in order, and the
    lines it shows as printed. *)
Definition calls (evs : list Event) : list nat :=
  omap (fun e => match e with EvCall cb _ _ => Some cb | _ => None end) evs.

Definition raised (results : list (list Event * outcome)) : list string :=
  omap (fun r => match snd r with Raised exc => Some exc | Returned => None end) results.

Definition printed (evs : list Event) : list string :=
  omap (fun e => match e with EvPrint text => Some text | _ => None end) evs.

(** A callback table for the examples: callback 1 raises, the others
    return; none touches the world. *)
Definition example_run : callbacks :=
  fun cb _ w => Some (if Nat.eqb cb 1 then Raised "boom" else Returned, w, []).

Definition example_bus_world : World :=
  mkWorld (mkBus [("kompanion/+/+", 0); ("kompanion/A/health", 1);
                  ("kompanion/B/health", 2); ("+/A/+", 3)] false)
    [] (S754_zero false) [].

(** The indicator as a function of the three flags, in the order of
    precedence of [_update_led]: alert, synced, idle. *)
Definition indicator (friend_unhealthy present friend_present : bool) : string :=
  if friend_unhealthy then "red"
  else if present && friend_present then "amber"
  else "off".

(** The first statement of [_update_led]: presence by timestamp, while no
    [presence_binary] message was ever seen. *)
Definition fallback_presence (now : float) (d : CompanionDevice) : CompanionDevice :=
  if negb (friend_binary_seen d) && truthy (friend_last_presence_ts d)
  then set_friend_present (fltb (fsub now (friend_last_presence_ts d)) PRESENCE_TIMEOUT) d
  else d.

Definition show_indicator (d : CompanionDevice) : CompanionDevice :=
  set_hw (set_led_state
            (indicator (friend_unhealthy d) (present d) (friend_present d)) (hw d)) d.

Definition led_text (state : string) : string :=
  if String.eqb state "red" then "LED → red (SCOBY SOS)"
  else if String.eqb state "amber" then "LED → amber (presence sync)"
  else "LED → off".

Definition led_notifications (i : nat) (d : CompanionDevice) : list Event :=
  let state := indicator (friend_unhealthy d) (present d) (friend_present d) in
  (if on_led_change (hw d) then [EvLed i state] else []) ++
  (if hw_log_cb (hw d) then [EvHwLog i (led_text state)] else []).

Definition led_after (now : float) (d : CompanionDevice) : CompanionDevice :=
  show_indicator (fallback_presence now d).

Definition log_events (i : nat) (d : CompanionDevice) (msg : string) : list Event :=
  if log_cb d
  then [EvDeviceLog i ("[Device " +:+ id d +:+ "] " +:+ msg)
          (if String.eqb (id d) "A" then "a" else "b")]
  else [].

Definition upd (i : nat) (d : CompanionDevice) (w : World) : World :=
  set_devices (<[i := d]> (devices w)) w.

(** A message the handler drops before it looks at the kind: the topic
    has not three segments, or its middle segment is the device's own
    id. *)
Definition ignored (d : CompanionDevice) (msg : _Msg) : Prop :=
  match split "/" (topic msg) with
  | [_; peer; _] => peer = id d
  | _ => True
  end.

Definition presence_ts {text : FloatText} (payload : string) : float :=
  match float_of_bytes payload with
  | Some ts => ts
  | None => S754_zero false
  end.

Definition out_of_range (ph : float) : bool :=
  negb (fleb PH_SAFE_LOW ph && fleb ph PH_SAFE_HIGH).

Definition health_log (i : nat) (d : CompanionDevice) {text : FloatText} (ph : float) : list Event :=
  if out_of_range ph && negb (friend_unhealthy d) then
    log_events i d ("FRIEND SOS — SCOBY pH " +:+ format_f 2 ph +:+ " out of range!")
  else if negb (out_of_range ph) && friend_unhealthy d then
    log_events i d ("Friend SCOBY recovered (pH " +:+ format_f 2 ph +:+ ")")
  else [].

(** Every publish in a tree of events, outermost first: topic and
    payload. *)
Fixpoint published_by (e : Event) : list (string * string) :=
  match e with
  | EvPublish t p inner => (t, p) :: flat_map published_by inner
  | EvCall _ inner _ => flat_map published_by inner
  | _ => []
  end.

Definition published (evs : list Event) : list (string * string) :=
  flat_map published_by evs.

(** The last segment of a topic: its kind. *)
Definition kind_of (t : string) : option string := last (split "/" t).

(** Every subscription names a device of the world. *)
Definition subscribers_exist (w : World) : Prop :=
  Forall (fun s => s.2 < length (devices w)) (_subs (bus w)).

(** What the delivery of a message that is not a feed command can do to a
    device: nothing when the message carries the device's own id, and it
    never touches the identity, the sensors and the recovery flag. *)
Definition leaf_dev (msg : _Msg) (d d' : CompanionDevice) : Prop :=
  id d' = id d /\ friend_id d' = friend_id d /\
  _recovering d' = _recovering d /\
  _ph (hw d') = _ph (hw d) /\ _presence (hw d') = _presence (hw d) /\
  (kind_of (topic msg) <> Some "health" -> friend_unhealthy d' = friend_unhealthy d) /\
  (ignored d msg -> d' = d).

(** A message the handler returns from without a change: an ignored one,
    or a health message whose payload is not a float. *)
Definition dropped {text : FloatText} (d : CompanionDevice) (msg : _Msg) : Prop :=
  ignored d msg \/
  (kind_of (topic msg) = Some "health" /\ float_of_bytes (payload msg) = None).

Definition leaf_world (msg : _Msg) (w w' : World) : Prop :=
  bus w' = bus w /\ time_time w' = time_time w /\ sleeping w' = sleeping w /\
  Forall2 (leaf_dev msg) (devices w) (devices w').

(** The topic of kind [k] under the id [x]. *)
Definition topic_of (x k : string) : string := "kompanion/" +:+ x +:+ String "/" k.

(** An effect on a device that leaves its identity, its sensors and its
    recovery flag alone. *)
Definition quiet_dev (d d' : CompanionDevice) : Prop :=
  id d' = id d /\ friend_id d' = friend_id d /\
  _recovering d' = _recovering d /\
  _ph (hw d') = _ph (hw d) /\ _presence (hw d') = _presence (hw d).

Definition quiet_world (w w' : World) : Prop :=
  bus w' = bus w /\ time_time w' = time_time w /\ sleeping w' = sleeping w /\
  Forall2 quiet_dev (devices w) (devices w').

(** The publishes the devices rely on: a publish of a kind that is not
    feed returns, is one publish, and acts on the world as the delivery of
    its message to the subscribers. *)
Definition publishes_leaves (pub : string -> string -> nat -> bool -> M World unit) : Prop :=
  forall t p qos retain w,
    kind_of t <> Some "feed" ->
    subscribers_exist w ->
    exists w' inner,
      pub t p qos retain w = Some (tt, w', [EvPublish t p inner]) /\
      leaf_world (mkMsg t p) w w' /\ published inner = [].

Definition recovered_ph : float := fdiv (fadd PH_SAFE_LOW PH_SAFE_HIGH) (float_of_Z 2).

(** The device when the sequence reaches its publish. *)
Definition dispensing (d : CompanionDevice) : CompanionDevice :=
  set__recovering true (set_hw (set__ph recovered_ph (hw d)) d).

Definition dispense_events (i : nat) (d : CompanionDevice) : list Event :=
  if on_dispense (hw d) then [EvDispense i] else [].

Definition spawned (t : Thread) (sleep : Q) (w : World) : World :=
  set_sleeping (sleeping w ++ [(t, sleep)]) w.

(** What the delivery of any message can do to a device and to the world:
    identities stay, a recovery flag that is set stays set, and the only
    threads started are [_finish] threads asleep for the recovery
    window. *)
Definition dev_evolves (d d' : CompanionDevice) : Prop :=
  id d' = id d /\ friend_id d' = friend_id d /\
  (_recovering d = true -> _recovering d' = true).

Definition finish_threads (added : list (Thread * Q)) : Prop :=
  Forall (fun tr => exists j, tr = (FinishThread j, RECOVERY_WINDOW)) added.

Definition evolves (w w' : World) : Prop :=
  bus w' = bus w /\ time_time w' = time_time w /\
  Forall2 dev_evolves (devices w) (devices w') /\
  exists added, sleeping w' = sleeping w ++ added /\ finish_threads added.

Definition health_topic (tp : string * string) : Prop := kind_of tp.1 = Some "health".

Definition polled (d : CompanionDevice) : CompanionDevice :=
  set_present (_presence (hw d)) d.

Definition example_time : float := float_of_Z 1000.

(** Devices A and B as [KompanionApp._build] leaves them. *)
Definition device_A : CompanionDevice :=
  mkDevice "A" "B" (set__btn_cb true KompanionApp_hardware)
    false false false (S754_zero false) false true false.

Definition device_B : CompanionDevice :=
  mkDevice "B" "A" (set__btn_cb true KompanionApp_hardware)
    false false false (S754_zero false) false true false.

Definition app_bus : InProcessBus :=
  mkBus [("kompanion/+/+", 0); ("kompanion/+/+", 1)] true.

Definition app_world : World :=
  mkWorld app_bus [device_A; device_B] example_time
    [(SensorLoop 0, 0%Q); (SensorLoop 1, 0%Q)].

(** Device B, present, beside a peer of the older kind that reports its
    presence by timestamp only: the peer reported at time 995, and B shows
    the amber indicator since. *)
Definition device_B_legacy_peer : CompanionDevice :=
  mkDevice "B" "A"
    (mkHardware true (float_of_Z 7) true "amber" true true true)
    true true false (float_of_Z 995) false true false.

Definition legacy_world (now : float) : World :=
  mkWorld app_bus [device_A; device_B_legacy_peer] now
    [(SensorLoop 0, 0%Q); (SensorLoop 1, 0%Q)].

(** Device A once it has seen an unhealthy pH of its friend. *)
Definition device_A_alerted : CompanionDevice :=
  set_hw (set_led_state "red" (hw device_A)) (set_friend_unhealthy true device_A).

Definition alerted_world : World :=
  mkWorld app_bus [device_A_alerted; device_B] example_time
    [(SensorLoop 0, 0%Q); (SensorLoop 1, 0%Q)].

(** [n] recomputations of the indicator in a row, at the given times. *)
Fixpoint recomputations (i : nat) (nows : list float) : M CompanionDevice unit :=
  match nows with
  | [] => ret tt
  | now :: rest => CompanionDevice__update_led i now >> recomputations i rest
  end.

Definition feed_message (tp : string * string) : bool :=
  bool_decide (kind_of tp.1 = Some "feed").

Definition shows_indicator (d : CompanionDevice) : Prop :=
  led_state (hw d) = indicator (friend_unhealthy d) (present d) (friend_present d).

(** The devices that dispensed, in a tree of events. *)
Fixpoint dispensed_by (e : Event) : list nat :=
  match e with
  | EvDispense i => [i]
  | EvPublish _ _ inner => flat_map dispensed_by inner
  | EvCall _ inner _ => flat_map dispensed_by inner
  | _ => []
  end.

Definition dispensed (evs : list Event) : list nat := flat_map dispensed_by evs.

(** The lines a list of events shows as logged by the devices. *)
Definition device_logs (evs : list Event) : list string :=
  omap (fun e => match e with EvDeviceLog _ text _ => Some text | _ => None end) evs.

(** A device that sees its friend unhealthy and was not started. *)
Definition unstarted_world : World :=
  mkWorld (mkBus [] true) [set_friend_unhealthy true (KompanionApp_device "A" "B")]
    example_time [].

(** Every device that shows its indicator in [w] shows it in [w'], the
    device [skip] perhaps excepted. *)
Definition keeps_but (skip : option nat) (w w' : World) : Prop :=
  length (devices w') = length (devices w) /\
  forall j d d', skip <> Some j -> devices w !! j = Some d -> devices w' !! j = Some d' ->
    shows_indicator d -> shows_indicator d'.

Definition keeps_indicators {A} (skip : option nat) (m : M World A) : Prop :=
  forall w a w' ev, m w = Some (a, w', ev) -> keeps_but skip w w'.

(** Device [i] shows its indicator when [m] returns. *)
Definition restores_indicator {A} (i : nat) (m : M World A) : Prop :=
  forall w a w' ev, m w = Some (a, w', ev) ->
    forall d', devices w' !! i = Some d' -> shows_indicator d'.

(** * Theorems *)

Lemma split_nonempty sep s : split sep s ≠ [].
Proof.
  destruct s as [|c rest]; simpl; [done|].
  destruct (Ascii.eqb c sep); [done|].
  by destruct (split sep rest).
Qed.

Lemma segments_match_true (pp tp : list string) :
  length pp = length tp →
  segments_match pp tp = true ↔
  ∀ i p t, pp !! i = Some p → tp !! i = Some t → p = "+" ∨ p = t.
Proof.
  unfold segments_match.
  revert tp; induction pp as [|p pp IH]; intros [|t tp] Hlen; simpl in *; try lia.
  - split; [|done]. intros _ i p t Hp; by rewrite lookup_nil in Hp.
  - rewrite andb_true_iff, IH by lia. split.
    + intros [Hhd Htl] [|i] p' t' Hp Ht; simpl in *.
      * simplify_eq. apply orb_true_iff in Hhd as [H|H]; apply String.eqb_eq in H; auto.
      * eauto.
    + intros H; split.
      * destruct (H 0 p t eq_refl eq_refl) as [->| ->].
        -- done.
        -- rewrite String.eqb_refl. apply orb_true_r.
      * intros i p' t' Hp Ht. exact (H (S i) p' t' Hp Ht).
Qed.

(** C4: segments of unequal number never match; with equal numbers the
    matcher answers true exactly when every pattern segment is the
    wildcard [+] or is the topic segment at the same position. *)
Theorem match_segmentwise (pattern topic : string) :
  let pp := split "/" pattern in
  let tp := split "/" topic in
  (length pp ≠ length tp → _match pattern topic = false) ∧
  (length pp = length tp →
     (_match pattern topic = true ↔
      ∀ i p t, pp !! i = Some p → tp !! i = Some t → p = "+" ∨ p = t)) ∧
  _match "kompanion/+/health" "kompanion/A/health" = true ∧
  _match "kompanion/+/health" "kompanion/A/health/extra" = false.
Proof.
  cbv zeta. unfold _match. split; [|split; [|split; reflexivity]].
  - intros Hne. by destruct (Nat.eqb_spec (length (split "/" pattern)) (length (split "/" topic))).
  - intros Hlen. rewrite Hlen, Nat.eqb_refl. simpl. by apply segments_match_true.
Qed.

(** ** The monad *)

Lemma bind_Some {S A B} (m : M S A) (k : A -> M S B) s a s1 ev1 :
  m s = Some (a, s1, ev1) ->
  bind m k s = match k a s1 with
               | Some (b, s2, ev2) => Some (b, s2, ev1 ++ ev2)
               | None => None
               end.
Proof. unfold bind. by intros ->. Qed.

Lemma bind_inv {S A B} (m : M S A) (k : A -> M S B) s b s2 ev :
  bind m k s = Some (b, s2, ev) ->
  exists a s1 ev1 ev2,
    m s = Some (a, s1, ev1) /\ k a s1 = Some (b, s2, ev2) /\ ev = ev1 ++ ev2.
Proof.
  unfold bind. destruct (m s) as [[[a s1] ev1]|]; [|done].
  destruct (k a s1) as [[[b' s2'] ev2]|] eqn:Hk; [|done].
  intros [= -> -> <-]. by exists a, s1, ev1, ev2.
Qed.

Lemma then_ret {S A B} (m : M S A) (b : B) s a s1 ev :
  m s = Some (a, s1, ev) -> (m >> ret b) s = Some (b, s1, ev).
Proof. intros H. rewrite (bind_Some _ _ _ _ _ _ H). unfold ret. by rewrite app_nil_r. Qed.

Lemma on_device_Some {A} i (m : M CompanionDevice A) w d a d' ev :
  devices w !! i = Some d ->
  m d = Some (a, d', ev) ->
  on_device i m w = Some (a, set_devices (<[i := d']> (devices w)) w, ev).
Proof. unfold on_device. by intros -> ->. Qed.

Lemma set_devices_same w : set_devices (devices w) w = w.
Proof. by destruct w. Qed.

Lemma on_device_get i w d :
  devices w !! i = Some d -> on_device i get w = Some (d, w, []).
Proof.
  intros H. rewrite (on_device_Some i get w d d d []) by done.
  by rewrite list_insert_id, set_devices_same.
Qed.

(** ** The bus *)

Section Bus.

Variable run : callbacks.

(** Every callback returns or raises: none runs for ever. *)
Hypothesis run_total : forall cb msg w, is_Some (run cb msg w).

Lemma deliver_calls msg matched w :
  exists w' results,
    deliver run msg matched w = Some (tt, w', concat (zip_with call_events matched.*2 results)) /\
    Forall2 (fun cb r => exists w1 w2, run cb msg w1 = Some (snd r, w2, fst r))
      matched.*2 results.
Proof.
  revert w. induction matched as [|[p cb] rest IH]; intros w.
  - exists w, []. by split; [|constructor].
  - destruct (run_total cb msg w) as [[[res w1] inner] Hrun].
    destruct (IH (match res with Returned => w1 | Raised _ => w1 end)) as (w2 & results & Hrest & Hall).
    exists w2, ((inner, res) :: results). split.
    + simpl. unfold bind at 1, scope. rewrite Hrun.
      destruct res as [|exc]; simpl.
      * unfold bind at 1, ret. rewrite Hrest. done.
      * unfold bind at 1, emit. rewrite Hrest. done.
    + constructor; [|done]. by exists w, w1.
Qed.

Lemma publish_calls topic payload qos retain w :
  exists w' results,
    InProcessBus_publish run topic payload qos retain w =
      Some (tt, w', [EvPublish topic payload
                       (bus_log_events w topic payload ++
                        concat (zip_with call_events (matching topic (_subs (bus w))).*2 results))]) /\
    Forall2 (fun cb r => exists w1 w2, run cb (mkMsg topic payload) w1 = Some (snd r, w2, fst r))
      (matching topic (_subs (bus w))).*2 results.
Proof.
  destruct (deliver_calls (mkMsg topic payload) (matching topic (_subs (bus w))) w)
    as (w' & results & Hd & Hall).
  exists w', results. split; [|done].
  unfold InProcessBus_publish, scope, bus_log_events.
  unfold bind at 1, get. unfold bind at 1.
  fold (matching topic (_subs (bus w))).
  destruct (_log_cb (bus w)); simpl; unfold ret, emit; by rewrite Hd.
Qed.

End Bus.

Lemma deliver_inert (run : callbacks) :
  (forall cb msg w0, exists o ev, run cb msg w0 = Some (o, w0, ev)) ->
  forall msg matched w, exists ev, deliver run msg matched w = Some (tt, w, ev).
Proof.
  intros Hinert msg matched w. induction matched as [|[p cb] rest [ev IH]].
  - by exists [].
  - destruct (Hinert cb msg w) as (o & inner & Hrun). simpl.
    unfold bind at 1, scope. rewrite Hrun.
    destruct o as [|exc]; unfold bind at 1, ret, emit; rewrite IH; by eexists.
Qed.

Lemma calls_call_events cbs results :
  length cbs = length results ->
  calls (concat (zip_with call_events cbs results)) = cbs /\
  printed (concat (zip_with call_events cbs results)) =
    (fun exc => "[BUS ERROR] subscriber raised: " +:+ exc) <$> raised results.
Proof.
  revert results. induction cbs as [|cb cbs IH]; intros [|[inner res] results] Hlen;
    simpl in Hlen; try done.
  destruct (IH results) as [IH1 IH2]; [lia|].
  change (zip_with call_events (cb :: cbs) ((inner, res) :: results))
    with (call_events cb (inner, res) :: zip_with call_events cbs results).
  rewrite concat_cons. unfold calls, printed in *.
  rewrite !omap_app, IH1, IH2.
  by destruct res.
Qed.

(** C8: a publish calls every subscription whose pattern matches the
    topic, once each and in registration order, before it returns; a call
    that raises is followed by the printed error line and the remaining
    subscriptions are still called; the publish itself returns normally,
    also when nothing matches, in which case no callback is called. *)
Theorem publish_isolates_handlers (run : callbacks) (topic payload : string)
    (qos : nat) (retain : bool) (w : World) :
  (forall cb msg w, is_Some (run cb msg w)) ->
  let cbs := (matching topic (_subs (bus w))).*2 in
  exists w' results inner,
    InProcessBus_publish run topic payload qos retain w
      = Some (tt, w', [EvPublish topic payload inner]) /\
    inner = bus_log_events w topic payload ++ concat (zip_with call_events cbs results) /\
    Forall2 (fun cb r => exists w1 w2, run cb (mkMsg topic payload) w1 = Some (snd r, w2, fst r))
      cbs results /\
    calls inner = cbs /\
    printed inner = (fun exc => "[BUS ERROR] subscriber raised: " +:+ exc) <$> raised results /\
    (cbs = [] -> w' = w /\ inner = bus_log_events w topic payload).
Proof.
  intros Htotal cbs.
  destruct (publish_calls run Htotal topic payload qos retain w) as (w' & results & Hpub & Hall).
  fold cbs in Hpub, Hall.
  exists w', results, (bus_log_events w topic payload ++ concat (zip_with call_events cbs results)).
  destruct (calls_call_events cbs results) as [Hcalls Hprints].
  { by eapply Forall2_length. }
  assert (Hlog : calls (bus_log_events w topic payload) = [] /\
                 printed (bus_log_events w topic payload) = []).
  { unfold bus_log_events. by destruct (_log_cb (bus w)). }
  destruct Hlog as [Hlog1 Hlog2].
  split_and!; try done.
  - unfold calls in *. by rewrite omap_app, Hlog1, Hcalls.
  - unfold printed in *. by rewrite omap_app, Hlog2, Hprints.
  - intros Hnil. rewrite Hnil in Hpub |- *. simpl. rewrite app_nil_r. split; [|done].
    revert Hpub. unfold InProcessBus_publish, scope, bind, get.
    fold (matching topic (_subs (bus w))).
    destruct (matching topic (_subs (bus w))) as [|[p cb] rest]; [|done].
    simpl. destruct (_log_cb (bus w)); simpl; by intros [= <-].
Qed.

Lemma publish_isolates_handlers_witness :
  (forall cb msg w, is_Some (example_run cb msg w)) /\
  exists w' results inner,
    InProcessBus_publish example_run "kompanion/A/health" "3.0" 1 true example_bus_world
      = Some (tt, w', [EvPublish "kompanion/A/health" "3.0" inner]) /\
    inner = concat (zip_with call_events [0; 1; 3] results) /\
    calls inner = [0; 1; 3] /\
    printed inner = (fun exc => "[BUS ERROR] subscriber raised: " +:+ exc) <$> raised results.
Proof.
  assert (Htotal : forall cb msg w, is_Some (example_run cb msg w)) by (intros; by eexists).
  split; [exact Htotal|].
  destruct (publish_isolates_handlers example_run "kompanion/A/health" "3.0" 1 true
              example_bus_world Htotal)
    as (w' & results & inner & H1 & H2 & _ & H3 & H4 & _).
  exists w', results, inner. repeat split; assumption.
Defined.

(** C9: a publish reaches the subscriptions that are registered when it is
    made and match, whatever [qos] and [retain] are; a subscription added
    afterwards is only recorded: [subscribe] calls no callback and hands
    over no earlier payload. *)
Theorem no_retained_replay (run : callbacks) (topic payload : string)
    (qos : nat) (retain : bool) (w : World) (pattern : string) (cb : nat) :
  (forall cb msg w, is_Some (run cb msg w)) ->
  exists w1 inner,
    InProcessBus_publish run topic payload qos retain w
      = Some (tt, w1, [EvPublish topic payload inner]) /\
    calls inner = (matching topic (_subs (bus w))).*2 /\
    (forall qos' retain',
       InProcessBus_publish run topic payload qos' retain' w
       = InProcessBus_publish run topic payload qos retain w) /\
    InProcessBus_subscribe pattern cb w1
      = Some (tt, set__subs (_subs (bus w1) ++ [(pattern, cb)]) w1, []) /\
    (InProcessBus_publish run topic payload qos retain >> InProcessBus_subscribe pattern cb) w
      = Some (tt, set__subs (_subs (bus w1) ++ [(pattern, cb)]) w1,
              [EvPublish topic payload inner]) /\
    ((forall cb msg w0, exists o ev, run cb msg w0 = Some (o, w0, ev)) -> w1 = w).
Proof.
  intros Htotal.
  destruct (publish_calls run Htotal topic payload qos retain w) as (w1 & results & Hpub & Hall).
  eexists w1, _. split; [exact Hpub|].
  destruct (calls_call_events (matching topic (_subs (bus w))).*2 results) as [Hcalls _].
  { by eapply Forall2_length. }
  split_and!; try done.
  - unfold calls in *. rewrite omap_app, Hcalls.
    unfold bus_log_events. by destruct (_log_cb (bus w)).
  - erewrite bind_Some by exact Hpub. done.
  - intros Hinert.
    destruct (deliver_inert run Hinert (mkMsg topic payload)
                (matching topic (_subs (bus w))) w) as (ev & Hd).
    revert Hpub. unfold InProcessBus_publish, scope, bind at 1, get. unfold bind at 1.
    fold (matching topic (_subs (bus w))).
    destruct (_log_cb (bus w)); simpl; unfold ret, emit; rewrite Hd; by intros [= <-].
Qed.

Lemma no_retained_replay_witness :
  (forall cb msg w, is_Some (example_run cb msg w)) /\
  exists w1 inner,
    InProcessBus_publish example_run "kompanion/A/health" "3.0" 1 true example_bus_world
      = Some (tt, w1, [EvPublish "kompanion/A/health" "3.0" inner]) /\
    calls inner = [0; 1; 3] /\
    (InProcessBus_publish example_run "kompanion/A/health" "3.0" 1 true
       >> InProcessBus_subscribe "kompanion/A/health" 4) example_bus_world
      = Some (tt, set__subs (_subs (bus w1) ++ [("kompanion/A/health", 4)]) w1,
              [EvPublish "kompanion/A/health" "3.0" inner]).
Proof.
  assert (Htotal : forall cb msg w, is_Some (example_run cb msg w)) by (intros; by eexists).
  split; [exact Htotal|].
  destruct (no_retained_replay example_run "kompanion/A/health" "3.0" 1 true
              example_bus_world "kompanion/A/health" 4 Htotal)
    as (w1 & inner & H1 & H2 & _ & _ & H3 & _).
  exists w1, inner. repeat split; assumption.
Defined.

(** ** The device on its own *)

Lemma log_run i msg d :
  CompanionDevice__log i msg d = Some (tt, d, log_events i d msg).
Proof.
  unfold CompanionDevice__log, log_events, bind, get, when, emit, ret.
  by destruct (log_cb d).
Qed.

Lemma update_led_run i now d :
  CompanionDevice__update_led i now d
  = Some (tt, led_after now d, led_notifications i (fallback_presence now d)).
Proof.
  destruct d as [did dfid [hp hph hbtn hled holc hod hlog] p fp fu ts bs lcb rec].
  unfold CompanionDevice__update_led, led_after, fallback_presence, led_notifications,
    show_indicator, indicator.
  unfold Hardware_set_led_red, Hardware_set_led_amber, Hardware_clear_led,
    Hardware__fire_led, Hardware__log, on_hw, bind, get, when, modify, emit, ret.
  simpl.
  destruct (negb bs && truthy ts); simpl.
  - destruct fu, p, (fltb (fsub now ts) PRESENCE_TIMEOUT), holc, hlog; reflexivity.
  - destruct fu, p, fp, holc, hlog; reflexivity.
Qed.

(** ** The devices in the world *)

Lemma upd_same i d w : devices w !! i = Some d -> upd i d w = w.
Proof. intros H. unfold upd. by rewrite list_insert_id, set_devices_same. Qed.

Lemma upd_upd i d1 d2 w : upd i d2 (upd i d1 w) = upd i d2 w.
Proof. unfold upd, set_devices. simpl. by rewrite list_insert_insert_eq. Qed.

Lemma lookup_upd_eq i d d0 w :
  devices w !! i = Some d0 -> devices (upd i d w) !! i = Some d.
Proof.
  intros H. unfold upd. simpl. apply list_lookup_insert_eq. by eapply lookup_lt_Some.
Qed.

Lemma lookup_upd_ne i j d w : i <> j -> devices (upd i d w) !! j = devices w !! j.
Proof. intros H. unfold upd. simpl. by apply list_lookup_insert_ne. Qed.

Lemma on_device_run {A} i (m : M CompanionDevice A) w d a d' ev :
  devices w !! i = Some d ->
  m d = Some (a, d', ev) ->
  on_device i m w = Some (a, upd i d' w, ev).
Proof. apply on_device_Some. Qed.

Lemma update_led_world i w d :
  devices w !! i = Some d ->
  update_led i w
  = Some (tt, upd i (led_after (time_time w) d) w,
          led_notifications i (fallback_presence (time_time w) d)).
Proof.
  intros H. unfold update_led. unfold bind, clock.
  by rewrite (on_device_run i _ w d _ _ _ H (update_led_run i (time_time w) d)).
Qed.

(** ** Inbound messages *)

Section Inbound.

Context {text : FloatText}.
Variable pub : string -> string -> nat -> bool -> M World unit.

Lemma on_message_ignored i msg w d :
  devices w !! i = Some d ->
  ignored d msg ->
  CompanionDevice__on_message pub i msg w = Some (tt, w, []).
Proof.
  intros Hd. unfold ignored, CompanionDevice__on_message.
  destruct (split "/" (topic msg)) as [|a [|peer [|kind [|]]]]; try done.
  intros ->. rewrite (bind_Some _ _ _ _ _ _ (on_device_get i w d Hd)).
  by rewrite String.eqb_refl.
Qed.

Lemma on_message_handled i msg w d a peer kind :
  devices w !! i = Some d ->
  split "/" (topic msg) = [a; peer; kind] ->
  peer <> id d ->
  CompanionDevice__on_message pub i msg w
  = (let! go_on := CompanionDevice__on_message_kind pub i peer kind (payload msg) in
     if go_on then update_led i else ret tt) w.
Proof.
  intros Hd Hsplit Hpeer. unfold CompanionDevice__on_message. rewrite Hsplit.
  rewrite (bind_Some _ _ _ _ _ _ (on_device_get i w d Hd)).
  apply String.eqb_neq in Hpeer. rewrite Hpeer.
  by destruct (bind _ _ w) as [[[[] w'] ev]|]; rewrite ?app_nil_l.
Qed.

Lemma kind_presence i peer pl w d :
  devices w !! i = Some d ->
  CompanionDevice__on_message_kind pub i peer "presence" pl w
  = Some (true, upd i (set_friend_last_presence_ts (presence_ts pl) d) w, []).
Proof.
  intros Hd. unfold CompanionDevice__on_message_kind. simpl.
  erewrite bind_Some by (eapply on_device_run; [exact Hd|reflexivity]).
  reflexivity.
Qed.

Lemma kind_presence_binary i peer pl w d :
  devices w !! i = Some d ->
  let d1 := set_friend_binary_seen true (set_friend_present (String.eqb pl "1") d) in
  CompanionDevice__on_message_kind pub i peer "presence_binary" pl w
  = Some (true, upd i d1 w,
          log_events i d1 ("friend " +:+ (if String.eqb pl "1" then "present" else "away"))).
Proof.
  intros Hd d1. unfold CompanionDevice__on_message_kind. simpl.
  apply then_ret with (a := tt).
  eapply on_device_run; [exact Hd|].
  unfold bind at 1, modify. unfold bind at 1. unfold bind at 1, get.
  rewrite log_run. reflexivity.
Qed.

Lemma kind_health_unparsed i peer pl w :
  float_of_bytes pl = None ->
  CompanionDevice__on_message_kind pub i peer "health" pl w = Some (false, w, []).
Proof. intros H. unfold CompanionDevice__on_message_kind. simpl. by rewrite H. Qed.

Lemma kind_health i peer pl ph w d :
  devices w !! i = Some d ->
  float_of_bytes pl = Some ph ->
  CompanionDevice__on_message_kind pub i peer "health" pl w
  = Some (true, upd i (set_friend_unhealthy (out_of_range ph) d) w, health_log i d ph).
Proof.
  intros Hd Hph. unfold CompanionDevice__on_message_kind. simpl. rewrite Hph.
  apply then_ret with (a := tt).
  eapply on_device_run; [exact Hd|].
  unfold health_log, out_of_range.
  unfold bind at 1, get. unfold bind at 1, modify. unfold bind at 1, get. simpl.
  destruct (negb (fleb PH_SAFE_LOW ph && fleb ph PH_SAFE_HIGH)), (friend_unhealthy d); simpl;
    rewrite ?log_run; simpl; unfold log_events; simpl; rewrite ?app_nil_r; reflexivity.
Qed.

Lemma kind_other i peer kind pl w :
  kind <> "presence" -> kind <> "presence_binary" -> kind <> "health" -> kind <> "feed" ->
  CompanionDevice__on_message_kind pub i peer kind pl w = Some (true, w, []).
Proof.
  intros H1 H2 H3 H4. unfold CompanionDevice__on_message_kind.
  apply String.eqb_neq in H1, H2, H3, H4. by rewrite H1, H2, H3, H4.
Qed.

End Inbound.

(** ** Publishes inside publishes *)

Lemma published_app evs1 evs2 : published (evs1 ++ evs2) = published evs1 ++ published evs2.
Proof. unfold published. by rewrite flat_map_app. Qed.

Lemma published_log i d msg : published (log_events i d msg) = [].
Proof. unfold log_events. by destruct (log_cb d). Qed.

Lemma published_led i d : published (led_notifications i d) = [].
Proof.
  unfold led_notifications.
  by destruct (on_led_change (hw d)), (hw_log_cb (hw d)).
Qed.

Lemma published_health_log {text : FloatText} i d ph : published (health_log i d ph) = [].
Proof.
  unfold health_log.
  destruct (out_of_range ph && negb (friend_unhealthy d)); [apply published_log|].
  destruct (negb (out_of_range ph) && friend_unhealthy d); [apply published_log|done].
Qed.

Lemma leaf_dev_refl msg d : leaf_dev msg d d.
Proof. by unfold leaf_dev. Qed.

Lemma leaf_dev_trans msg d1 d2 d3 :
  leaf_dev msg d1 d2 -> leaf_dev msg d2 d3 -> leaf_dev msg d1 d3.
Proof.
  unfold leaf_dev, ignored.
  intros (Hid & Hf & Hr & Hph & Hp & Hfu & Hsame) (Hid' & Hf' & Hr' & Hph' & Hp' & Hfu' & Hsame').
  split_and!; try congruence.
  { intros Hk. rewrite Hfu' by done. by apply Hfu. }
  intros Hign. rewrite Hsame' ; [by apply Hsame|].
  rewrite (Hsame Hign). done.
Qed.

Lemma Forall2_compose {A} (R : A -> A -> Prop) l1 l2 l3 :
  (forall a b c, R a b -> R b c -> R a c) ->
  Forall2 R l1 l2 -> Forall2 R l2 l3 -> Forall2 R l1 l3.
Proof.
  intros Htrans H12. revert l3.
  induction H12 as [|a b l1 l2 Hab _ IH]; intros l3 H23; inversion H23; subst.
  - constructor.
  - constructor; eauto.
Qed.

Lemma leaf_world_refl msg w : leaf_world msg w w.
Proof.
  unfold leaf_world. split_and!; try done.
  apply Forall2_same_length_lookup. split; [done|].
  intros j d d' H1 H2. simplify_eq. apply leaf_dev_refl.
Qed.

Lemma leaf_world_trans msg w1 w2 w3 :
  leaf_world msg w1 w2 -> leaf_world msg w2 w3 -> leaf_world msg w1 w3.
Proof.
  unfold leaf_world. intros (? & ? & ? & H12) (? & ? & ? & H23).
  split_and!; try congruence.
  eapply Forall2_compose; [|exact H12|exact H23].
  intros ???. apply leaf_dev_trans.
Qed.

Lemma leaf_world_upd msg i d d' w :
  devices w !! i = Some d -> leaf_dev msg d d' -> leaf_world msg w (upd i d' w).
Proof.
  intros Hd Hrel. unfold leaf_world, upd. simpl. split_and!; try done.
  apply Forall2_same_length_lookup. split; [by rewrite length_insert|].
  intros j dj dj' H1 H2. destruct (decide (i = j)) as [<-|Hne].
  - rewrite list_lookup_insert_eq in H2 by (by eapply lookup_lt_Some). by simplify_eq.
  - rewrite list_lookup_insert_ne in H2 by done. simplify_eq. apply leaf_dev_refl.
Qed.

Lemma leaf_world_length msg w w' :
  leaf_world msg w w' -> length (devices w') = length (devices w).
Proof. intros (_ & _ & _ & H). symmetry. by eapply Forall2_length. Qed.

Lemma kind_of_three a peer kind t : split "/" t = [a; peer; kind] -> kind_of t = Some kind.
Proof. unfold kind_of. by intros ->. Qed.

Section Leaf.

Context {text : FloatText}.
Variable pub : string -> string -> nat -> bool -> M World unit.

(** A message whose kind is not feed is handled without a publish, and
    changes the handling device only. *)
Lemma on_message_leaf i msg w d :
  devices w !! i = Some d ->
  kind_of (topic msg) <> Some "feed" ->
  exists d' ev,
    CompanionDevice__on_message pub i msg w = Some (tt, upd i d' w, ev) /\
    leaf_dev msg d d' /\ published ev = [] /\
    ((dropped d msg /\ d' = d /\ ev = []) \/
     (~ dropped d msg /\ exists d1, d' = led_after (time_time w) d1)).
Proof.
  intros Hd Hkind.
  destruct (split "/" (topic msg)) as [|a [|peer [|kind [|]]]] eqn:Hsplit;
    try (assert (Hign : ignored d msg) by (unfold ignored; by rewrite Hsplit);
         exists d, []; rewrite (upd_same i d w Hd); split_and!;
         [by apply on_message_ignored with d
         |apply leaf_dev_refl|done|left; split_and!; [by left|done..]]).
  destruct (decide (peer = id d)) as [Heq|Hne].
  { assert (Hign : ignored d msg) by (unfold ignored; by rewrite Hsplit).
    exists d, []. rewrite (upd_same i d w Hd).
    split_and!; [|apply leaf_dev_refl|done|left; split_and!; [by left|done..]].
    by apply on_message_ignored with d. }
  pose proof (kind_of_three _ _ _ _ Hsplit) as Hkind_of.
  assert (Hnot : ~ ignored d msg) by (unfold ignored; by rewrite Hsplit).
  assert (Hfeed : kind <> "feed").
  { intros ->. apply Hkind. unfold kind_of. by rewrite Hsplit. }
  rewrite (on_message_handled pub i msg w d a peer kind Hd Hsplit Hne).
  assert (Hled : forall d1 evs,
    CompanionDevice__on_message_kind pub i peer kind (payload msg) w
      = Some (true, upd i d1 w, evs) ->
    id d1 = id d -> friend_id d1 = friend_id d -> _recovering d1 = _recovering d ->
    _ph (hw d1) = _ph (hw d) -> _presence (hw d1) = _presence (hw d) ->
    (kind <> "health" -> friend_unhealthy d1 = friend_unhealthy d) ->
    (kind = "health" -> float_of_bytes (payload msg) <> None) ->
    published evs = [] ->
    exists d' ev,
      (let! go_on := CompanionDevice__on_message_kind pub i peer kind (payload msg) in
       if go_on then update_led i else ret tt) w = Some (tt, upd i d' w, ev) /\
      leaf_dev msg d d' /\ published ev = [] /\
      ((dropped d msg /\ d' = d /\ ev = []) \/
       (~ dropped d msg /\ exists d1, d' = led_after (time_time w) d1))).
  { intros d1 evs Hrun Hid Hfid Hrec Hph Hpres Hfu Hparse Hevs.
    exists (led_after (time_time w) d1), (evs ++ led_notifications i (fallback_presence (time_time w) d1)).
    split_and!.
    - rewrite (bind_Some _ _ _ _ _ _ Hrun).
      rewrite (update_led_world i (upd i d1 w) d1) by (by eapply lookup_upd_eq).
      by rewrite upd_upd.
    - unfold leaf_dev, led_after, show_indicator, fallback_presence.
      rewrite Hkind_of.
      destruct (negb _ && _); simpl; split_and!; try done.
      all: intros Hk; apply Hfu; congruence.
    - by rewrite published_app, Hevs, published_led.
    - right. split; [|by exists d1].
      intros [Hign|[Hk Hnone]]; [done|].
      rewrite Hkind_of in Hk. simplify_eq. by apply Hparse. }
  destruct (decide (kind = "presence")) as [->|H1].
  { eapply Hled; [by apply kind_presence|done..]. }
  destruct (decide (kind = "presence_binary")) as [->|H2].
  { eapply Hled; [by apply kind_presence_binary|try done..]. apply published_log. }
  destruct (decide (kind = "health")) as [->|H3].
  { destruct (float_of_bytes (payload msg)) as [ph|] eqn:Hph.
    - eapply Hled; [by apply kind_health|try done..]. apply published_health_log.
    - exists d, []. rewrite (upd_same i d w Hd).
      split_and!; [|apply leaf_dev_refl|done|left; split_and!; [by right|done..]].
      by rewrite (bind_Some _ _ _ _ _ _ (kind_health_unparsed pub i peer _ w Hph)). }
  eapply (Hled d []); [|done..].
  rewrite (upd_same i d w Hd). by apply kind_other.
Qed.

End Leaf.

Section LeafPublish.

Context {text : FloatText}.
Variable pub : string -> string -> nat -> bool -> M World unit.

Lemma deliver_leaf msg matched w :
  kind_of (topic msg) <> Some "feed" ->
  Forall (fun s => s.2 < length (devices w)) matched ->
  exists w' ev,
    deliver (MockMQTTClient__dispatch pub) msg matched w = Some (tt, w', ev) /\
    leaf_world msg w w' /\ published ev = [].
Proof.
  intros Hkind. revert w. induction matched as [|[p cb] rest IH]; intros w Hall.
  - exists w, []. split_and!; [done|apply leaf_world_refl|done].
  - apply Forall_cons in Hall as [Hcb Hrest]. simpl in Hcb.
    destruct (lookup_lt_is_Some_2 _ _ Hcb) as [d Hd].
    destruct (on_message_leaf pub cb msg w d Hd Hkind) as (d' & ev & Hrun & Hrel & Hpub & _).
    assert (Hlen : length (devices (upd cb d' w)) = length (devices w)).
    { unfold upd. simpl. by rewrite length_insert. }
    destruct (IH (upd cb d' w)) as (w' & ev' & Hrest' & Hrel' & Hpub').
    { by rewrite Hlen. }
    exists w', (EvCall cb ev Returned :: ev'). split_and!.
    + simpl. unfold MockMQTTClient__dispatch in *.
      assert (Hcall : scope (EvCall cb) (CompanionDevice__on_message pub cb msg >> ret Returned) w
                      = Some (Returned, upd cb d' w, [EvCall cb ev Returned])).
      { unfold scope. by rewrite (then_ret _ Returned _ _ _ _ Hrun). }
      rewrite (bind_Some _ _ _ _ _ _ Hcall).
      rewrite (bind_Some _ _ _ tt (upd cb d' w) [] eq_refl).
      by rewrite Hrest'.
    + eapply leaf_world_trans; [|exact Hrel']. by apply leaf_world_upd with d.
    + change (published (EvCall cb ev Returned :: ev')) with (published ev ++ published ev').
      by rewrite Hpub, Hpub'.
Qed.

Lemma matching_subscribers_exist t w :
  subscribers_exist w ->
  Forall (fun s => s.2 < length (devices w)) (matching t (_subs (bus w))).
Proof.
  unfold subscribers_exist, matching. rewrite !Forall_forall.
  intros H s Hs. apply list_elem_of_In, filter_In in Hs as [Hs _].
  by apply H, list_elem_of_In.
Qed.

Lemma publish_leaf t p qos retain w :
  kind_of t <> Some "feed" ->
  subscribers_exist w ->
  exists w' inner,
    InProcessBus_publish (MockMQTTClient__dispatch pub) t p qos retain w
      = Some (tt, w', [EvPublish t p inner]) /\
    leaf_world (mkMsg t p) w w' /\ published inner = [].
Proof.
  intros Hkind Hwf.
  destruct (deliver_leaf (mkMsg t p) (matching t (_subs (bus w))) w Hkind
              (matching_subscribers_exist t w Hwf)) as (w' & ev & Hrun & Hrel & Hpub).
  exists w', (bus_log_events w t p ++ ev). split_and!; [|done|].
  - unfold InProcessBus_publish, scope, bus_log_events.
    unfold bind at 1, get. unfold bind at 1.
    fold (matching t (_subs (bus w))).
    destruct (_log_cb (bus w)); simpl; unfold ret, emit; by rewrite Hrun.
  - rewrite published_app, Hpub. unfold bus_log_events. by destruct (_log_cb (bus w)).
Qed.

End LeafPublish.

Lemma subscribers_exist_leaf msg w w' :
  leaf_world msg w w' -> subscribers_exist w -> subscribers_exist w'.
Proof.
  intros Hrel. pose proof (leaf_world_length _ _ _ Hrel) as Hlen.
  destruct Hrel as (Hbus & _). unfold subscribers_exist. by rewrite Hbus, Hlen.
Qed.

(** With fuel for one publish, a publish of a kind that is not feed
    returns. *)
Lemma bus_publish_leaf {text : FloatText} fuel t p qos retain w :
  kind_of t <> Some "feed" ->
  subscribers_exist w ->
  exists w' inner,
    bus_publish (S fuel) t p qos retain w = Some (tt, w', [EvPublish t p inner]) /\
    leaf_world (mkMsg t p) w w' /\ published inner = [].
Proof. intros. simpl. by apply publish_leaf. Qed.

(** ** Topics *)

Lemma split_app_sep sep s t :
  split sep (s +:+ String sep t) = split sep s ++ split sep t.
Proof.
  induction s as [|c s IH]; simpl.
  - by rewrite Ascii.eqb_refl.
  - destruct (Ascii.eqb c sep); [by rewrite IH|].
    rewrite IH. pose proof (split_nonempty sep s). destruct (split sep s); [congruence|done].
Qed.

Lemma split_single sep x s : split sep x = [s] -> s = x.
Proof.
  revert s. induction x as [|c x IH]; intros s; simpl.
  - by intros [= <-].
  - destruct (Ascii.eqb c sep).
    + pose proof (split_nonempty sep x). destruct (split sep x); [congruence|by intros [=]].
    + destruct (split sep x) as [|seg [|]] eqn:Hx;
        [by destruct (split_nonempty sep x)| |by intros [=]].
      intros [= <-]. by rewrite (IH seg).
Qed.

Lemma split_topic_of x k :
  split "/" (topic_of x k) = "kompanion" :: split "/" x ++ split "/" k.
Proof.
  unfold topic_of.
  change ("kompanion/" +:+ x +:+ String "/" k)
    with ("kompanion" +:+ String "/" (x +:+ String "/" k)).
  by rewrite !split_app_sep.
Qed.

Lemma kind_of_topic_of x k : split "/" k = [k] -> kind_of (topic_of x k) = Some k.
Proof.
  intros Hk. unfold kind_of. rewrite split_topic_of, Hk.
  by rewrite app_comm_cons, last_snoc.
Qed.

Lemma topic_of_own_id d k p :
  split "/" k = [k] -> ignored d (mkMsg (topic_of (id d) k) p).
Proof.
  intros Hk. unfold ignored. cbn [topic]. rewrite split_topic_of, Hk.
  destruct (split "/" (id d)) as [|s [|]] eqn:Hid; simpl; try done.
  - by apply split_single in Hid.
  - by destruct l.
Qed.

(** ** What a publish can do to the world *)

Lemma quiet_world_refl w : quiet_world w w.
Proof.
  unfold quiet_world. split_and!; try done.
  apply Forall2_same_length_lookup. split; [done|].
  intros j d d' H1 H2. simplify_eq. by unfold quiet_dev.
Qed.

Lemma quiet_world_trans w1 w2 w3 :
  quiet_world w1 w2 -> quiet_world w2 w3 -> quiet_world w1 w3.
Proof.
  unfold quiet_world. intros (? & ? & ? & H12) (? & ? & ? & H23).
  split_and!; try congruence.
  eapply Forall2_compose; [|exact H12|exact H23].
  unfold quiet_dev. intros a b c ??. destruct_and!. split_and!; congruence.
Qed.

Lemma leaf_world_quiet msg w w' : leaf_world msg w w' -> quiet_world w w'.
Proof.
  unfold leaf_world, quiet_world. intros (? & ? & ? & H). split_and!; try done.
  eapply Forall2_impl; [exact H|]. intros d d' (? & ? & ? & ? & ? & _). by unfold quiet_dev.
Qed.

Lemma leaf_world_own msg w w' i d :
  leaf_world msg w w' -> devices w !! i = Some d -> ignored d msg ->
  devices w' !! i = Some d.
Proof.
  intros (_ & _ & _ & H) Hd Hign.
  destruct (Forall2_lookup_l _ _ _ _ _ H Hd) as (d' & Hd' & Hrel).
  destruct Hrel as (_ & _ & _ & _ & _ & _ & Hsame). by rewrite (Hsame Hign) in Hd'.
Qed.

Lemma quiet_world_upd i d d' w :
  devices w !! i = Some d -> quiet_dev d d' -> quiet_world w (upd i d' w).
Proof.
  intros Hd Hrel. unfold quiet_world, upd. simpl. split_and!; try done.
  apply Forall2_same_length_lookup. split; [by rewrite length_insert|].
  intros j dj dj' H1 H2. destruct (decide (i = j)) as [<-|Hne].
  - rewrite list_lookup_insert_eq in H2 by (by eapply lookup_lt_Some). by simplify_eq.
  - rewrite list_lookup_insert_ne in H2 by done. simplify_eq. by unfold quiet_dev.
Qed.

Lemma subscribers_exist_upd i d w :
  subscribers_exist w -> subscribers_exist (upd i d w).
Proof. unfold subscribers_exist, upd. simpl. by rewrite length_insert. Qed.

Lemma bus_publish_leaves {text : FloatText} fuel : publishes_leaves (bus_publish (S fuel)).
Proof. intros t p qos retain w. apply bus_publish_leaf. Qed.

Section Own.

Context {text : FloatText}.
Variable pub : string -> string -> nat -> bool -> M World unit.
Hypothesis pub_leaves : publishes_leaves pub.

(** A device publishing under its own id, on a kind that is not feed: the
    other devices may react, the device itself is left as it is. *)
Lemma own_publish i d k p w :
  devices w !! i = Some d ->
  subscribers_exist w ->
  split "/" k = [k] -> k <> "feed" ->
  exists w' inner,
    CompanionDevice__publish pub (topic_of (id d) k) p w
      = Some (tt, w', [EvPublish (topic_of (id d) k) p inner]) /\
    quiet_world w w' /\ devices w' !! i = Some d /\ subscribers_exist w' /\
    published inner = [].
Proof.
  intros Hd Hwf Hk Hfeed.
  destruct (pub_leaves (topic_of (id d) k) p 1 true w) as (w' & inner & Hrun & Hrel & Hpub);
    [|done|].
  { rewrite kind_of_topic_of by done. congruence. }
  exists w', inner. split_and!; try done.
  - by eapply leaf_world_quiet.
  - eapply leaf_world_own; [done..|]. by apply topic_of_own_id.
  - by eapply subscribers_exist_leaf.
Qed.

End Own.

(** ** The feed-received sequence *)

Section Feed.

Context {text : FloatText}.
Variable pub : string -> string -> nat -> bool -> M World unit.
Hypothesis pub_leaves : publishes_leaves pub.

Lemma feed_received_run i d w :
  devices w !! i = Some d ->
  subscribers_exist w ->
  let payload := bytes_of_float recovered_ph in
  let now := time_time w in
  exists w1 inner,
    CompanionDevice__publish pub (TOPIC_HEALTH (id d)) payload (upd i (dispensing d) w)
      = Some (tt, w1, [EvPublish (TOPIC_HEALTH (id d)) payload inner]) /\
    quiet_world (upd i (dispensing d) w) w1 /\
    devices w1 !! i = Some (dispensing d) /\
    subscribers_exist w1 /\
    published inner = [] /\
    CompanionDevice__on_feed_received pub i w
      = Some (tt,
              spawned (FinishThread i) RECOVERY_WINDOW
                (upd i (led_after now (dispensing d)) w1),
              log_events i (dispensing d)
                ("dispensing sugar — SCOBY pH resetting to " +:+ format_f 1 recovered_ph)
              ++ [EvPublish (TOPIC_HEALTH (id d)) payload inner]
              ++ led_notifications i (fallback_presence now (dispensing d))
              ++ dispense_events i (led_after now (dispensing d))).
Proof.
  intros Hd Hwf payload now.
  assert (Hd1 : devices (upd i (dispensing d) w) !! i = Some (dispensing d))
    by (by eapply lookup_upd_eq).
  destruct (own_publish pub pub_leaves i (dispensing d) "health" payload
              (upd i (dispensing d) w) Hd1 (subscribers_exist_upd _ _ _ Hwf) eq_refl)
    as (w1 & inner & Hrun & Hquiet & Hown & Hwf1 & Hpub); [done|].
  change (topic_of (id (dispensing d)) "health") with (TOPIC_HEALTH (id d)) in Hrun.
  assert (Hnow : time_time w1 = now) by (by destruct Hquiet as (_ & -> & _)).
  exists w1, inner. split_and!; try done.
  unfold CompanionDevice__on_feed_received. fold recovered_ph. fold payload.
  rewrite (bind_Some _ _ _ _ _ _ (on_device_get i w d Hd)).
  erewrite bind_Some; cycle 1.
  { eapply on_device_run; [exact Hd|].
    unfold bind at 1, modify. unfold bind at 1.
    rewrite log_run. reflexivity. }
  fold (dispensing d). simpl app.
  rewrite (bind_Some _ _ _ _ _ _ Hrun).
  rewrite (bind_Some _ _ _ _ _ _ (update_led_world i w1 _ Hown)). rewrite Hnow.
  erewrite bind_Some; cycle 1.
  { eapply on_device_run; [by eapply lookup_upd_eq|].
    unfold bind, get, when. instantiate (1 := dispense_events i (led_after now (dispensing d))).
    instantiate (1 := led_after now (dispensing d)). instantiate (1 := tt).
    unfold dispense_events, emit, ret. by destruct (on_dispense _). }
  rewrite upd_upd. unfold spawn, modify, spawned. simpl.
  by rewrite !app_nil_r.
Qed.

End Feed.

(** ** Any publish *)

Lemma evolves_refl w : evolves w w.
Proof.
  unfold evolves. split_and!; try done.
  - apply Forall2_same_length_lookup. split; [done|].
    intros j d d' H1 H2. simplify_eq. by unfold dev_evolves.
  - exists []. split; [by rewrite app_nil_r|constructor].
Qed.

Lemma evolves_trans w1 w2 w3 : evolves w1 w2 -> evolves w2 w3 -> evolves w1 w3.
Proof.
  unfold evolves. intros (? & ? & H12 & a12 & Hs12 & Hf12) (? & ? & H23 & a23 & Hs23 & Hf23).
  split_and!; try congruence.
  - eapply Forall2_compose; [|exact H12|exact H23].
    unfold dev_evolves. intros a b c ??. destruct_and!. split_and!; try congruence. auto.
  - exists (a12 ++ a23). split.
    + by rewrite Hs23, Hs12, app_assoc.
    + by apply Forall_app.
Qed.

Lemma quiet_world_evolves w w' : quiet_world w w' -> evolves w w'.
Proof.
  unfold quiet_world, evolves. intros (? & ? & Hs & H). split_and!; try done.
  - eapply Forall2_impl; [exact H|]. unfold quiet_dev, dev_evolves. intros d d' ?.
    destruct_and!. split_and!; congruence.
  - exists []. split; [by rewrite app_nil_r|constructor].
Qed.

Lemma evolves_upd i d d' w :
  devices w !! i = Some d -> dev_evolves d d' -> evolves w (upd i d' w).
Proof.
  intros Hd Hrel. unfold evolves, upd. simpl. split_and!; try done.
  - apply Forall2_same_length_lookup. split; [by rewrite length_insert|].
    intros j dj dj' H1 H2. destruct (decide (i = j)) as [<-|Hne].
    + rewrite list_lookup_insert_eq in H2 by (by eapply lookup_lt_Some). by simplify_eq.
    + rewrite list_lookup_insert_ne in H2 by done. simplify_eq. by unfold dev_evolves.
  - exists []. split; [by rewrite app_nil_r|constructor].
Qed.

Lemma evolves_spawned j w :
  evolves w (spawned (FinishThread j) RECOVERY_WINDOW w).
Proof.
  unfold evolves, spawned. simpl. split_and!; try done.
  - apply Forall2_same_length_lookup. split; [done|].
    intros k d d' H1 H2. simplify_eq. by unfold dev_evolves.
  - eexists. split; [done|]. apply Forall_singleton. by exists j.
Qed.

Lemma evolves_length w w' : evolves w w' -> length (devices w') = length (devices w).
Proof. intros (_ & _ & H & _). symmetry. by eapply Forall2_length. Qed.

Lemma subscribers_exist_evolves w w' :
  evolves w w' -> subscribers_exist w -> subscribers_exist w'.
Proof.
  intros Hrel. pose proof (evolves_length _ _ Hrel) as Hlen.
  destruct Hrel as (Hbus & _). unfold subscribers_exist. by rewrite Hbus, Hlen.
Qed.

Lemma upd_spawned i d t q w : upd i d (spawned t q w) = spawned t q (upd i d w).
Proof. reflexivity. Qed.

Lemma published_publish t p inner :
  published [EvPublish t p inner] = (t, p) :: published inner.
Proof. unfold published. simpl. by rewrite app_nil_r. Qed.

Section Feed2.

Context {text : FloatText}.
Variable pub : string -> string -> nat -> bool -> M World unit.
Hypothesis pub_leaves : publishes_leaves pub.

(** A feed command from another id: the device runs its feed-received
    sequence and recomputes the indicator once more. *)
Lemma on_message_feed_run i d w a peer msg :
  devices w !! i = Some d ->
  subscribers_exist w ->
  split "/" (topic msg) = [a; peer; "feed"] ->
  peer <> id d ->
  let now := time_time w in
  let d' := led_after now (led_after now (dispensing d)) in
  exists w1 inner ev1 ev2,
    quiet_world (upd i (dispensing d) w) w1 /\
    devices w1 !! i = Some (dispensing d) /\
    published inner = [] /\ published ev1 = [] /\ published ev2 = [] /\
    CompanionDevice__on_message pub i msg w
      = Some (tt, spawned (FinishThread i) RECOVERY_WINDOW (upd i d' w1),
              ev1 ++ [EvPublish (TOPIC_HEALTH (id d)) (bytes_of_float recovered_ph) inner] ++ ev2).
Proof.
  intros Hd Hwf Hsplit Hpeer now d'.
  assert (Hlog : on_device i
            (CompanionDevice__log i ("feed command received from " +:+ peer +:+ " — dispensing sugar")) w
          = Some (tt, w, log_events i d ("feed command received from " +:+ peer +:+ " — dispensing sugar"))).
  { erewrite on_device_run; [|exact Hd|apply log_run]. by rewrite (upd_same i d w Hd). }
  destruct (feed_received_run pub pub_leaves i d w Hd Hwf)
    as (w1 & inner & _ & Hquiet & Hown & Hwf1 & Hpub & Hrun).
  fold now in Hrun.
  set (w2 := spawned (FinishThread i) RECOVERY_WINDOW (upd i (led_after now (dispensing d)) w1)) in *.
  assert (Hd2 : devices w2 !! i = Some (led_after now (dispensing d))).
  { subst w2. unfold spawned. simpl. apply list_lookup_insert_eq. by eapply lookup_lt_Some. }
  assert (Hnow : time_time w2 = now).
  { subst w2. simpl. by destruct Hquiet as (_ & -> & _). }
  exists w1, inner,
    (log_events i d ("feed command received from " +:+ peer +:+ " — dispensing sugar") ++
     log_events i (dispensing d)
       ("dispensing sugar — SCOBY pH resetting to " +:+ format_f 1 recovered_ph)),
    (led_notifications i (fallback_presence now (dispensing d)) ++
     dispense_events i (led_after now (dispensing d)) ++
     led_notifications i (fallback_presence now (led_after now (dispensing d)))).
  split_and!; [done|done|done| | |].
  - by rewrite published_app, !published_log.
  - rewrite !published_app, !published_led.
    unfold dispense_events. by destruct (on_dispense _).
  - rewrite (on_message_handled pub i msg w d a peer "feed" Hd Hsplit Hpeer).
    erewrite bind_Some; cycle 1.
    { unfold CompanionDevice__on_message_kind. simpl.
      rewrite (bind_Some _ _ _ _ _ _ Hlog).
      rewrite (then_ret _ true _ _ _ _ Hrun). reflexivity. }
    cbv beta iota. rewrite (update_led_world i w2 _ Hd2), Hnow.
    subst w2. rewrite upd_spawned, upd_upd. fold d'.
    by rewrite <- !app_assoc.
Qed.

Lemma led_after_twice_evolves d now :
  dev_evolves d (led_after now (led_after now d)).
Proof.
  unfold dev_evolves, led_after, show_indicator, fallback_presence.
  repeat (destruct (negb _ && _); simpl); by split_and!.
Qed.

Lemma on_message_any i d w msg :
  devices w !! i = Some d ->
  subscribers_exist w ->
  exists w' ev,
    CompanionDevice__on_message pub i msg w = Some (tt, w', ev) /\
    evolves w w' /\ Forall health_topic (published ev).
Proof.
  intros Hd Hwf.
  destruct (decide (kind_of (topic msg) = Some "feed")) as [Hfeed|Hleaf].
  2:{ destruct (on_message_leaf pub i msg w d Hd Hleaf) as (d' & ev & Hrun & Hrel & Hpub & _).
      exists (upd i d' w), ev. split_and!; [done| |by rewrite Hpub].
      apply quiet_world_evolves, quiet_world_upd with d; [done|].
      destruct Hrel as (? & ? & ? & ? & ? & _). by unfold quiet_dev. }
  destruct (split "/" (topic msg)) as [|a [|peer [|kind [|]]]] eqn:Hsplit;
    try (exists w, []; split_and!;
         [apply on_message_ignored with d; [done|]; unfold ignored; by rewrite Hsplit
         |apply evolves_refl|done]).
  destruct (decide (peer = id d)) as [Heq|Hne].
  { exists w, []. split_and!; [|apply evolves_refl|done].
    apply on_message_ignored with d; [done|]. unfold ignored. by rewrite Hsplit. }
  assert (kind = "feed") as ->.
  { rewrite (kind_of_three _ _ _ _ Hsplit) in Hfeed. by simplify_eq. }
  destruct (on_message_feed_run i d w a peer msg Hd Hwf Hsplit Hne)
    as (w1 & inner & ev1 & ev2 & Hquiet & Hown & Hp & Hp1 & Hp2 & Hrun).
  eexists _, _. split_and!; [exact Hrun| |].
  - eapply evolves_trans; [|apply evolves_spawned].
    eapply evolves_trans; [|eapply evolves_upd; [exact Hown|]].
    + eapply evolves_trans; [|by apply quiet_world_evolves].
      eapply evolves_upd; [exact Hd|].
      unfold dev_evolves, dispensing. by split_and!.
    + apply led_after_twice_evolves.
  - rewrite !published_app, Hp1, Hp2, published_publish, Hp. simpl.
    apply Forall_singleton. unfold health_topic. simpl.
    change (TOPIC_HEALTH (id d)) with (topic_of (id d) "health").
    by apply kind_of_topic_of.
Qed.

End Feed2.

Section AnyPublish.

Context {text : FloatText}.
Variable pub : string -> string -> nat -> bool -> M World unit.
Hypothesis pub_leaves : publishes_leaves pub.

Lemma deliver_any msg matched w :
  subscribers_exist w ->
  Forall (fun s => s.2 < length (devices w)) matched ->
  exists w' ev,
    deliver (MockMQTTClient__dispatch pub) msg matched w = Some (tt, w', ev) /\
    evolves w w' /\ Forall health_topic (published ev).
Proof.
  revert w. induction matched as [|[p cb] rest IH]; intros w Hwf Hall.
  - exists w, []. split_and!; [done|apply evolves_refl|done].
  - apply Forall_cons in Hall as [Hcb Hrest]. simpl in Hcb.
    destruct (lookup_lt_is_Some_2 _ _ Hcb) as [d Hd].
    destruct (on_message_any pub pub_leaves cb d w msg Hd Hwf) as (w1 & ev & Hrun & Hrel & Hpub).
    destruct (IH w1) as (w' & ev' & Hrest' & Hrel' & Hpub').
    { by eapply subscribers_exist_evolves. }
    { by rewrite (evolves_length _ _ Hrel). }
    exists w', (EvCall cb ev Returned :: ev'). split_and!.
    + simpl. unfold MockMQTTClient__dispatch in *.
      assert (Hcall : scope (EvCall cb) (CompanionDevice__on_message pub cb msg >> ret Returned) w
                      = Some (Returned, w1, [EvCall cb ev Returned])).
      { unfold scope. by rewrite (then_ret _ Returned _ _ _ _ Hrun). }
      rewrite (bind_Some _ _ _ _ _ _ Hcall).
      rewrite (bind_Some _ _ _ tt w1 [] eq_refl).
      by rewrite Hrest'.
    + by eapply evolves_trans.
    + change (published (EvCall cb ev Returned :: ev')) with (published ev ++ published ev').
      by apply Forall_app.
Qed.

Lemma publish_any t p qos retain w :
  subscribers_exist w ->
  exists w' inner,
    InProcessBus_publish (MockMQTTClient__dispatch pub) t p qos retain w
      = Some (tt, w', [EvPublish t p inner]) /\
    evolves w w' /\ Forall health_topic (published inner).
Proof.
  intros Hwf.
  destruct (deliver_any (mkMsg t p) (matching t (_subs (bus w))) w Hwf
              (matching_subscribers_exist t w Hwf)) as (w' & ev & Hrun & Hrel & Hpub).
  exists w', (bus_log_events w t p ++ ev). split_and!; [|done|].
  - unfold InProcessBus_publish, scope, bus_log_events.
    unfold bind at 1, get. unfold bind at 1.
    fold (matching t (_subs (bus w))).
    destruct (_log_cb (bus w)); simpl; unfold ret, emit; by rewrite Hrun.
  - rewrite published_app. apply Forall_app. split; [|done].
    unfold bus_log_events. by destruct (_log_cb (bus w)).
Qed.

End AnyPublish.

(** With fuel for a publish inside a publish, every publish returns. *)
Lemma bus_publish_any {text : FloatText} fuel t p qos retain w :
  subscribers_exist w ->
  exists w' inner,
    bus_publish (S (S fuel)) t p qos retain w = Some (tt, w', [EvPublish t p inner]) /\
    evolves w w' /\ Forall health_topic (published inner).
Proof.
  intros Hwf. change (bus_publish (S (S fuel)) t p qos retain w)
    with (InProcessBus_publish (MockMQTTClient__dispatch (bus_publish (S fuel))) t p qos retain w).
  apply publish_any; [apply bus_publish_leaves|done].
Qed.

(** ** The sensor loop, the button and the panel *)

Section Surface.

Context {text : FloatText}.
Variable pub : string -> string -> nat -> bool -> M World unit.
Hypothesis pub_leaves : publishes_leaves pub.

Lemma own_publish_twice i d k1 p1 k2 p2 w :
  devices w !! i = Some d ->
  subscribers_exist w ->
  split "/" k1 = [k1] -> k1 <> "feed" -> split "/" k2 = [k2] -> k2 <> "feed" ->
  exists w' inner1 inner2,
    (CompanionDevice__publish pub (topic_of (id d) k1) p1 >>
     CompanionDevice__publish pub (topic_of (id d) k2) p2) w
      = Some (tt, w', [EvPublish (topic_of (id d) k1) p1 inner1;
                       EvPublish (topic_of (id d) k2) p2 inner2]) /\
    quiet_world w w' /\ devices w' !! i = Some d /\ subscribers_exist w' /\
    published inner1 = [] /\ published inner2 = [].
Proof.
  intros Hd Hwf Hk1 Hf1 Hk2 Hf2.
  destruct (own_publish pub pub_leaves i d k1 p1 w Hd Hwf Hk1 Hf1)
    as (w1 & inner1 & Hrun1 & Hq1 & Hd1 & Hwf1 & Hp1).
  destruct (own_publish pub pub_leaves i d k2 p2 w1 Hd1 Hwf1 Hk2 Hf2)
    as (w2 & inner2 & Hrun2 & Hq2 & Hd2 & Hwf2 & Hp2).
  exists w2, inner1, inner2. split_and!; try done.
  - rewrite (bind_Some _ _ _ _ _ _ Hrun1). by rewrite Hrun2.
  - by eapply quiet_world_trans.
Qed.

(** One turn of the sensor loop: the local presence is read; when it has
    changed, the two presence messages go out; unless the device is
    recovering, the health message goes out; the indicator is
    recomputed. *)
Lemma sensor_loop_body_run i d w :
  devices w !! i = Some d ->
  subscribers_exist w ->
  let now := time_time w in
  let d0 := polled d in
  exists w1 ev,
    quiet_world (upd i d0 w) w1 /\ devices w1 !! i = Some d0 /\ subscribers_exist w1 /\
    CompanionDevice__sensor_loop_body pub i w
      = Some (tt, upd i (led_after now d0) w1,
              ev ++ led_notifications i (fallback_presence now d0)) /\
    published ev =
      (if negb (Bool.eqb (present d0) (present d))
       then [(TOPIC_PRESENCE (id d), if present d0 then bytes_of_float now else "0");
             (TOPIC_PRESENCE_BINARY (id d), if present d0 then "1" else "0")]
       else []) ++
      (if negb (_recovering d) then [(TOPIC_HEALTH (id d), bytes_of_float (_ph (hw d)))]
       else []).
Proof.
  intros Hd Hwf now d0.
  assert (Hd0 : devices (upd i d0 w) !! i = Some d0) by (by eapply lookup_upd_eq).
  assert (Hwf0 : subscribers_exist (upd i d0 w)) by (by apply subscribers_exist_upd).
  assert (Hpoll : on_device i (modify (fun d => set_present (_presence (hw d)) d)) w
                  = Some (tt, upd i d0 w, [])).
  { by eapply on_device_run. }
  (* the presence messages *)
  assert (Hpres : exists w1 ev1,
    quiet_world (upd i d0 w) w1 /\ devices w1 !! i = Some d0 /\ subscribers_exist w1 /\
    (if negb (Bool.eqb (present d0) (present d))
     then let! now := clock in
          let ts_payload := if present d0 then bytes_of_float now else "0" in
          let bin_payload := if present d0 then "1" else "0" in
          CompanionDevice__publish pub (TOPIC_PRESENCE (id d0)) ts_payload >>
          CompanionDevice__publish pub (TOPIC_PRESENCE_BINARY (id d0)) bin_payload
     else ret tt) (upd i d0 w) = Some (tt, w1, ev1) /\
    published ev1 =
      (if negb (Bool.eqb (present d0) (present d))
       then [(TOPIC_PRESENCE (id d), if present d0 then bytes_of_float now else "0");
             (TOPIC_PRESENCE_BINARY (id d), if present d0 then "1" else "0")]
       else [])).
  { destruct (negb (Bool.eqb (present d0) (present d))).
    - destruct (own_publish_twice i d0 "presence"
                  (if present d0 then bytes_of_float now else "0")
                  "presence_binary" (if present d0 then "1" else "0")
                  (upd i d0 w) Hd0 Hwf0 eq_refl)
        as (w1 & inner1 & inner2 & Hrun & Hq & Hd1 & Hwf1 & Hp1 & Hp2); try done.
      exists w1, [EvPublish (TOPIC_PRESENCE (id d)) (if present d0 then bytes_of_float now else "0") inner1;
                  EvPublish (TOPIC_PRESENCE_BINARY (id d)) (if present d0 then "1" else "0") inner2].
      split_and!; try done.
      + unfold bind at 1, clock. simpl time_time. fold now.
        change (TOPIC_PRESENCE (id d0)) with (topic_of (id d0) "presence").
        change (TOPIC_PRESENCE_BINARY (id d0)) with (topic_of (id d0) "presence_binary").
        by rewrite Hrun.
      + change [?a; ?b] with ([a] ++ [b]).
        by rewrite published_app, !published_publish, Hp1, Hp2.
    - exists (upd i d0 w), []. split_and!; try done. apply quiet_world_refl. }
  destruct Hpres as (w1 & ev1 & Hq1 & Hd1 & Hwf1 & Hrun1 & Hp1).
  (* the health message *)
  assert (Hhealth : exists w2 ev2,
    quiet_world w1 w2 /\ devices w2 !! i = Some d0 /\ subscribers_exist w2 /\
    (if negb (_recovering d0)
     then CompanionDevice__publish pub (TOPIC_HEALTH (id d0)) (bytes_of_float (_ph (hw d0)))
     else ret tt) w1 = Some (tt, w2, ev2) /\
    published ev2 =
      (if negb (_recovering d) then [(TOPIC_HEALTH (id d), bytes_of_float (_ph (hw d)))]
       else [])).
  { change (_recovering d0) with (_recovering d).
    destruct (negb (_recovering d)).
    - destruct (own_publish pub pub_leaves i d0 "health" (bytes_of_float (_ph (hw d0))) w1
                  Hd1 Hwf1 eq_refl) as (w2 & inner & Hrun & Hq & Hd2 & Hwf2 & Hp); [done|].
      exists w2, [EvPublish (TOPIC_HEALTH (id d)) (bytes_of_float (_ph (hw d))) inner].
      split_and!; try done. by rewrite published_publish, Hp.
    - exists w1, []. split_and!; try done. apply quiet_world_refl. }
  destruct Hhealth as (w2 & ev2 & Hq2 & Hd2 & Hwf2 & Hrun2 & Hp2).
  assert (Hnow : time_time w2 = now).
  { destruct Hq2 as (_ & -> & _). by destruct Hq1 as (_ & -> & _). }
  exists w2, (ev1 ++ ev2). split_and!; try done.
  - by eapply quiet_world_trans.
  - unfold CompanionDevice__sensor_loop_body.
    rewrite (bind_Some _ _ _ _ _ _ (on_device_get i w d Hd)).
    rewrite (bind_Some _ _ _ _ _ _ Hpoll).
    rewrite (bind_Some _ _ _ _ _ _ (on_device_get i _ d0 Hd0)).
    rewrite (bind_Some _ _ _ _ _ _ Hrun1).
    rewrite (bind_Some _ _ _ _ _ _ (on_device_get i _ d0 Hd1)).
    rewrite (bind_Some _ _ _ _ _ _ Hrun2).
    rewrite (update_led_world i w2 d0 Hd2), Hnow. simpl.
    by rewrite <- app_assoc.
  - by rewrite published_app, Hp1, Hp2.
Qed.

End Surface.

Section Button.

Context {text : FloatText}.

Lemma on_button_healthy pub i d w :
  devices w !! i = Some d ->
  friend_unhealthy d = false ->
  CompanionDevice__on_button pub i w = Some (tt, w, []).
Proof.
  intros Hd Hfu. unfold CompanionDevice__on_button.
  rewrite (bind_Some _ _ _ _ _ _ (on_device_get i w d Hd)). by rewrite Hfu.
Qed.

Lemma on_button_unhealthy fuel i d w :
  devices w !! i = Some d ->
  subscribers_exist w ->
  friend_unhealthy d = true ->
  exists w' inner,
    CompanionDevice__on_button (bus_publish (S (S fuel))) i w
      = Some (tt, w',
              log_events i d ("tapping — sending feed to " +:+ friend_id d) ++
              [EvPublish (TOPIC_FEED (friend_id d)) EmptyString inner]) /\
    evolves w w' /\ Forall health_topic (published inner).
Proof.
  intros Hd Hwf Hfu.
  destruct (bus_publish_any fuel (TOPIC_FEED (friend_id d)) EmptyString 1 true w Hwf)
    as (w' & inner & Hrun & Hrel & Hpub).
  exists w', inner. split_and!; try done.
  unfold CompanionDevice__on_button.
  rewrite (bind_Some _ _ _ _ _ _ (on_device_get i w d Hd)). rewrite Hfu.
  erewrite bind_Some; cycle 1.
  { erewrite on_device_run; [|exact Hd|apply log_run]. by rewrite (upd_same i d w Hd). }
  unfold CompanionDevice__publish, MockMQTTClient_publish. by rewrite Hrun.
Qed.

Lemma trigger_tap_run fuel i d w :
  devices w !! i = Some d ->
  subscribers_exist w ->
  exists w' ev,
    Hardware_trigger_tap (bus_publish (S (S fuel))) i w = Some (tt, w', ev) /\
    evolves w w'.
Proof.
  intros Hd Hwf. unfold Hardware_trigger_tap.
  rewrite (bind_Some _ _ _ _ _ _ (on_device_get i w d Hd)).
  destruct (_btn_cb (hw d)).
  - destruct (friend_unhealthy d) eqn:Hfu.
    + destruct (on_button_unhealthy fuel i d w Hd Hwf Hfu) as (w' & inner & Hrun & Hrel & _).
      rewrite Hrun. eexists _, _. split; [reflexivity|done].
    + rewrite (on_button_healthy _ i d w Hd Hfu). eexists _, _.
      split; [reflexivity|apply evolves_refl].
  - eexists _, _. split; [reflexivity|apply evolves_refl].
Qed.

Variable pub : string -> string -> nat -> bool -> M World unit.
Hypothesis pub_leaves : publishes_leaves pub.

Lemma toggle_presence_run i d w :
  devices w !! i = Some d ->
  subscribers_exist w ->
  exists w' ev,
    DevicePanel__toggle_presence pub i w = Some (tt, w', ev) /\
    evolves w w' /\
    devices w' !! i
      = Some (set_present (negb (_presence (hw d)))
                (set_hw (set__presence (negb (_presence (hw d))) (hw d)) d)).
Proof.
  intros Hd Hwf.
  set (new := negb (_presence (hw d))).
  set (d1 := set_present new (set_hw (set__presence new (hw d)) d)).
  assert (Hd1 : devices (upd i d1 w) !! i = Some d1) by (by eapply lookup_upd_eq).
  destruct (own_publish_twice pub pub_leaves i d1 "presence"
              (if new then bytes_of_float (time_time w) else "0")
              "presence_binary" (if new then "1" else "0")
              (upd i d1 w) Hd1 (subscribers_exist_upd _ _ _ Hwf) eq_refl)
    as (w1 & inner1 & inner2 & Hrun & Hq & Hd1' & Hwf1 & Hp1 & Hp2); try done.
  eexists w1, _. split_and!; [|  |done].
  - unfold DevicePanel__toggle_presence.
    rewrite (bind_Some _ _ _ _ _ _ (on_device_get i w d Hd)). fold new.
    erewrite bind_Some; cycle 1.
    { eapply on_device_run; [exact Hd|]. reflexivity. }
    unfold bind at 1, clock. simpl time_time.
    change (set_present new (set_hw (set__presence new (hw d)) d)) with d1.
    change (TOPIC_PRESENCE (id d)) with (topic_of (id d1) "presence").
    change (TOPIC_PRESENCE_BINARY (id d)) with (topic_of (id d1) "presence_binary").
    rewrite Hrun. reflexivity.
  - eapply evolves_trans; [|by apply quiet_world_evolves].
    eapply evolves_upd; [exact Hd|]. by unfold dev_evolves.
Qed.

Lemma apply_ph_run i d ph w :
  devices w !! i = Some d ->
  subscribers_exist w ->
  exists w' ev,
    DevicePanel__apply_ph pub i ph w = Some (tt, w', ev) /\
    evolves w w' /\
    devices w' !! i = Some (set_hw (set__ph ph (hw d)) d).
Proof.
  intros Hd Hwf.
  set (d1 := set_hw (set__ph ph (hw d)) d).
  assert (Hd1 : devices (upd i d1 w) !! i = Some d1) by (by eapply lookup_upd_eq).
  destruct (own_publish pub pub_leaves i d1 "health" (bytes_of_float ph)
              (upd i d1 w) Hd1 (subscribers_exist_upd _ _ _ Hwf) eq_refl)
    as (w1 & inner & Hrun & Hq & Hd1' & Hwf1 & Hp); [done|].
  eexists w1, _. split_and!; [| |done].
  - unfold DevicePanel__apply_ph.
    rewrite (bind_Some _ _ _ _ _ _ (on_device_get i w d Hd)).
    erewrite bind_Some; cycle 1.
    { eapply on_device_run; [exact Hd|]. reflexivity. }
    change (set_hw (set__ph ph (hw d)) d) with d1.
    change (TOPIC_HEALTH (id d)) with (topic_of (id d1) "health").
    rewrite Hrun. reflexivity.
  - eapply evolves_trans; [|by apply quiet_world_evolves].
    eapply evolves_upd; [exact Hd|]. by unfold dev_evolves.
Qed.

End Button.

(** ** The device after a message and after a turn of its loop *)

Lemma led_after_fields now d :
  id (led_after now d) = id d /\
  friend_unhealthy (led_after now d) = friend_unhealthy d /\
  present (led_after now d) = present d /\
  friend_last_presence_ts (led_after now d) = friend_last_presence_ts d /\
  friend_binary_seen (led_after now d) = friend_binary_seen d /\
  _recovering (led_after now d) = _recovering d /\
  _ph (hw (led_after now d)) = _ph (hw d) /\
  friend_present (led_after now d) = friend_present (fallback_presence now d) /\
  led_state (hw (led_after now d))
    = indicator (friend_unhealthy (led_after now d)) (present (led_after now d))
        (friend_present (led_after now d)).
Proof.
  unfold led_after, show_indicator, fallback_presence.
  destruct (negb _ && _); simpl; by split_and!.
Qed.

Section Own2.

Context {text : FloatText}.
Variable pub : string -> string -> nat -> bool -> M World unit.
Hypothesis pub_leaves : publishes_leaves pub.

Lemma on_message_own i d w msg :
  devices w !! i = Some d ->
  subscribers_exist w ->
  exists w' ev d',
    CompanionDevice__on_message pub i msg w = Some (tt, w', ev) /\
    devices w' !! i = Some d' /\
    (kind_of (topic msg) <> Some "health" -> friend_unhealthy d' = friend_unhealthy d) /\
    ((dropped d msg /\ w' = w /\ ev = []) \/
     (~ dropped d msg /\ exists d1, d' = led_after (time_time w) d1)).
Proof.
  intros Hd Hwf.
  destruct (decide (kind_of (topic msg) = Some "feed")) as [Hfeed|Hleaf].
  2:{ destruct (on_message_leaf pub i msg w d Hd Hleaf)
        as (d' & ev & Hrun & Hrel & Hpub & Hcase).
      exists (upd i d' w), ev, d'. split_and!; [done|by eapply lookup_upd_eq| |].
      - by destruct Hrel as (_ & _ & _ & _ & _ & Hfu & _).
      - destruct Hcase as [(Hdrop & -> & ->)|Hre]; [left|by right].
        by rewrite (upd_same i d w Hd). }
  destruct (split "/" (topic msg)) as [|a [|peer [|kind [|]]]] eqn:Hsplit;
    try (assert (Hign : ignored d msg) by (unfold ignored; by rewrite Hsplit);
         exists w, [], d; split_and!;
         [by apply on_message_ignored with d|done|done|left; split_and!; [by left|done..]]).
  destruct (decide (peer = id d)) as [Heq|Hne].
  { assert (Hign : ignored d msg) by (unfold ignored; by rewrite Hsplit).
    exists w, [], d. split_and!; [|done|done|left; split_and!; [by left|done..]].
    by apply on_message_ignored with d. }
  assert (kind = "feed") as ->.
  { rewrite (kind_of_three _ _ _ _ Hsplit) in Hfeed. by simplify_eq. }
  destruct (on_message_feed_run pub pub_leaves i d w a peer msg Hd Hwf Hsplit Hne)
    as (w1 & inner & ev1 & ev2 & Hquiet & Hown & Hp & Hp1 & Hp2 & Hrun).
  eexists _, _, _. split_and!; [exact Hrun| | |].
  - unfold spawned. simpl. apply list_lookup_insert_eq. by eapply lookup_lt_Some.
  - intros _.
    destruct (led_after_fields (time_time w) (led_after (time_time w) (dispensing d)))
      as (_ & -> & _).
    by destruct (led_after_fields (time_time w) (dispensing d)) as (_ & -> & _).
  - right. split; [|by eexists].
    intros [Hign|[Hk _]].
    + unfold ignored in Hign. by rewrite Hsplit in Hign.
    + congruence.
Qed.

Lemma on_message_health i d w a peer msg ph :
  devices w !! i = Some d ->
  split "/" (topic msg) = [a; peer; "health"] ->
  peer <> id d ->
  float_of_bytes (payload msg) = Some ph ->
  CompanionDevice__on_message pub i msg w
  = Some (tt, upd i (led_after (time_time w) (set_friend_unhealthy (out_of_range ph) d)) w,
          health_log i d ph ++
          led_notifications i
            (fallback_presence (time_time w) (set_friend_unhealthy (out_of_range ph) d))).
Proof.
  intros Hd Hsplit Hpeer Hph.
  rewrite (on_message_handled pub i msg w d a peer "health" Hd Hsplit Hpeer).
  rewrite (bind_Some _ _ _ _ _ _ (kind_health pub i peer _ ph w d Hd Hph)).
  rewrite (update_led_world i _ (set_friend_unhealthy (out_of_range ph) d))
    by (by eapply lookup_upd_eq).
  by rewrite upd_upd.
Qed.

Lemma on_message_health_unparsed i d w a peer msg :
  devices w !! i = Some d ->
  split "/" (topic msg) = [a; peer; "health"] ->
  peer <> id d ->
  float_of_bytes (payload msg) = None ->
  CompanionDevice__on_message pub i msg w = Some (tt, w, []).
Proof.
  intros Hd Hsplit Hpeer Hph.
  rewrite (on_message_handled pub i msg w d a peer "health" Hd Hsplit Hpeer).
  by rewrite (bind_Some _ _ _ _ _ _ (kind_health_unparsed pub i peer _ w Hph)).
Qed.

Lemma on_message_presence i d w a peer msg :
  devices w !! i = Some d ->
  split "/" (topic msg) = [a; peer; "presence"] ->
  peer <> id d ->
  let d1 := set_friend_last_presence_ts (presence_ts (payload msg)) d in
  CompanionDevice__on_message pub i msg w
  = Some (tt, upd i (led_after (time_time w) d1) w,
          led_notifications i (fallback_presence (time_time w) d1)).
Proof.
  intros Hd Hsplit Hpeer d1.
  rewrite (on_message_handled pub i msg w d a peer "presence" Hd Hsplit Hpeer).
  rewrite (bind_Some _ _ _ _ _ _ (kind_presence pub i peer _ w d Hd)).
  rewrite (update_led_world i _ d1) by (by eapply lookup_upd_eq).
  by rewrite upd_upd.
Qed.

Lemma sensor_loop_body_own i d w :
  devices w !! i = Some d ->
  subscribers_exist w ->
  exists w' ev,
    CompanionDevice__sensor_loop_body pub i w = Some (tt, w', ev) /\
    devices w' !! i = Some (led_after (time_time w) (polled d)) /\
    published ev =
      (if negb (Bool.eqb (_presence (hw d)) (present d))
       then [(TOPIC_PRESENCE (id d),
              if _presence (hw d) then bytes_of_float (time_time w) else "0");
             (TOPIC_PRESENCE_BINARY (id d), if _presence (hw d) then "1" else "0")]
       else []) ++
      (if negb (_recovering d) then [(TOPIC_HEALTH (id d), bytes_of_float (_ph (hw d)))]
       else []).
Proof.
  intros Hd Hwf.
  destruct (sensor_loop_body_run pub pub_leaves i d w Hd Hwf)
    as (w1 & ev & Hq & Hd1 & Hwf1 & Hrun & Hpub).
  eexists _, _. split_and!; [exact Hrun|by eapply lookup_upd_eq|].
  by rewrite published_app, published_led, app_nil_r, Hpub.
Qed.

End Own2.

(** ** Example worlds *)

Lemma app_world_built : KompanionApp__build example_time = Some app_world.
Proof. reflexivity. Qed.

Lemma app_subscribers_exist now devs asleep :
  length devs = 2 -> subscribers_exist (mkWorld app_bus devs now asleep).
Proof.
  intros Hlen. unfold subscribers_exist. simpl. rewrite Hlen.
  repeat constructor; simpl; lia.
Qed.

Lemma app_world_subscribers : subscribers_exist app_world.
Proof. by apply app_subscribers_exist. Qed.

Lemma legacy_world_subscribers now : subscribers_exist (legacy_world now).
Proof. by apply app_subscribers_exist. Qed.

Lemma alerted_world_subscribers : subscribers_exist alerted_world.
Proof. by apply app_subscribers_exist. Qed.

Lemma no_feed_among_health l :
  Forall health_topic l -> List.filter feed_message l = [].
Proof.
  induction 1 as [|tp l Hh _ IH]; [done|]. simpl. rewrite IH.
  unfold feed_message, health_topic in *. rewrite Hh. by rewrite bool_decide_eq_false_2.
Qed.

Lemma recomputations_frozen i nows d :
  friend_binary_seen d = false ->
  truthy (friend_last_presence_ts d) = false ->
  exists d' ev,
    recomputations i nows d = Some (tt, d', ev) /\
    friend_present d' = friend_present d /\
    friend_last_presence_ts d' = friend_last_presence_ts d /\
    friend_binary_seen d' = false.
Proof.
  revert d. induction nows as [|now rest IH]; intros d Hseen Hts.
  - by exists d, [].
  - assert (Hfix : fallback_presence now d = d).
    { unfold fallback_presence. by rewrite Hseen, Hts. }
    destruct (led_after_fields now d) as (_ & _ & _ & Hts' & Hseen' & _ & _ & Hfp & _).
    rewrite Hfix in Hfp.
    destruct (IH (led_after now d)) as (d' & ev & Hrun & H1 & H2 & H3).
    { by rewrite Hseen'. }
    { by rewrite Hts'. }
    eexists d', _. split_and!; [|congruence..].
    simpl. rewrite (bind_Some _ _ _ _ _ _ (update_led_run i now d)). by rewrite Hrun.
Qed.

(** C3: a health message of a peer whose payload reads as the float [ph]
    leaves [friend_unhealthy] equal to [not (4.0 <= ph <= 8.0)], bounds
    included (3.99 and 8.01 are out of range, 4.00 and 8.00 are not); one
    whose payload does not read as a float changes nothing and logs
    nothing; a message of any other kind and a turn of the sensor loop
    leave [friend_unhealthy] as it is. *)
Theorem health_threshold {text : FloatText} (fuel i : nat) (d : CompanionDevice)
    (w : World) (msg : _Msg) :
  devices w !! i = Some d ->
  subscribers_exist w ->
  (forall a peer ph,
     split "/" (topic msg) = [a; peer; "health"] -> peer <> id d ->
     float_of_bytes (payload msg) = Some ph ->
     exists w' ev d',
       CompanionDevice__on_message (bus_publish (S fuel)) i msg w = Some (tt, w', ev) /\
       devices w' !! i = Some d' /\
       friend_unhealthy d' = negb (fleb PH_SAFE_LOW ph && fleb ph PH_SAFE_HIGH)) /\
  (forall a peer,
     split "/" (topic msg) = [a; peer; "health"] -> peer <> id d ->
     float_of_bytes (payload msg) = None ->
     CompanionDevice__on_message (bus_publish (S fuel)) i msg w = Some (tt, w, [])) /\
  (kind_of (topic msg) <> Some "health" ->
     exists w' ev d',
       CompanionDevice__on_message (bus_publish (S fuel)) i msg w = Some (tt, w', ev) /\
       devices w' !! i = Some d' /\
       friend_unhealthy d' = friend_unhealthy d) /\
  (exists w' ev d',
     CompanionDevice__sensor_loop_body (bus_publish (S fuel)) i w = Some (tt, w', ev) /\
     devices w' !! i = Some d' /\
     friend_unhealthy d' = friend_unhealthy d) /\
  (out_of_range <$> decimal_float_of_bytes "3.99" = Some true /\
   out_of_range <$> decimal_float_of_bytes "4.00" = Some false /\
   out_of_range <$> decimal_float_of_bytes "8.00" = Some false /\
   out_of_range <$> decimal_float_of_bytes "8.01" = Some true).
Proof.
  intros Hd Hwf. split_and!; try reflexivity.
  - intros a peer ph Hsplit Hpeer Hph.
    eexists _, _, _. split_and!.
    + by eapply on_message_health.
    + by eapply lookup_upd_eq.
    + by destruct (led_after_fields (time_time w) (set_friend_unhealthy (out_of_range ph) d))
        as (_ & -> & _).
  - intros a peer Hsplit Hpeer Hph. by eapply on_message_health_unparsed.
  - intros Hkind.
    destruct (on_message_own _ (bus_publish_leaves fuel) i d w msg Hd Hwf)
      as (w' & ev & d' & Hrun & Hd' & Hfu & _).
    exists w', ev, d'. auto.
  - destruct (sensor_loop_body_own _ (bus_publish_leaves fuel) i d w Hd Hwf)
      as (w' & ev & Hrun & Hd' & _).
    eexists w', ev, _. split_and!; [done..|].
    by destruct (led_after_fields (time_time w) (polled d)) as (_ & -> & _).
Qed.

Lemma health_threshold_witness :
  devices app_world !! 1 = Some device_B /\
  subscribers_exist app_world /\
  exists w' ev d',
    @CompanionDevice__on_message decimal_text (@bus_publish decimal_text 1) 1
      (mkMsg "kompanion/A/health" "3.99") app_world = Some (tt, w', ev) /\
    devices w' !! 1 = Some d' /\
    friend_unhealthy d' = true.
Proof.
  split; [reflexivity|]. split; [exact app_world_subscribers|].
  destruct (@health_threshold decimal_text 0 1 device_B app_world
              (mkMsg "kompanion/A/health" "3.99") eq_refl
              app_world_subscribers) as (Hparsed & _).
  apply (Hparsed "kompanion" "A" (S754_finite false 8984681256604140 (-51))).
  - reflexivity.
  - discriminate.
  - reflexivity.
Defined.

(** C2, as stated, fails: with a peer that reports its presence by
    timestamp only, now stale, device B shows amber; a health message of
    the peer whose payload is not a float is dropped before the indicator
    is recomputed, so B shows amber still, where a recomputation at that
    time turns the indicator off. *)
Lemma indicator_recomputed_counterexample :
  @CompanionDevice__on_message decimal_text (@bus_publish decimal_text 1) 1
    (mkMsg "kompanion/A/health" "abc") (legacy_world (float_of_Z 1100))
    = Some (tt, legacy_world (float_of_Z 1100), []) /\
  devices (legacy_world (float_of_Z 1100)) !! 1 = Some device_B_legacy_peer /\
  led_state (hw device_B_legacy_peer) = "amber" /\
  exists d' ev,
    CompanionDevice__update_led 1 (float_of_Z 1100) device_B_legacy_peer = Some (tt, d', ev) /\
    led_state (hw d') = "off".
Proof.
  split_and!; [reflexivity..|]. eexists _, _. split; reflexivity.
Qed.

(** C2, amended: the indicator is a function of [friend_unhealthy],
    [present] and [friend_present], in the order alert (red), synced
    (amber), idle (off); it is recomputed at the end of every turn of the
    sensor loop and of every inbound message that the handler does not
    drop; a dropped message (topic not of three segments, the device's own
    id in the topic, health payload that is not a float) leaves the device,
    indicator included, as it is. *)
Theorem indicator_recomputed_when_handled {text : FloatText} (fuel i : nat)
    (d : CompanionDevice) (w : World) (msg : _Msg) :
  devices w !! i = Some d ->
  subscribers_exist w ->
  ((forall p fp, indicator true p fp = "red") /\
   indicator false true true = "amber" /\
   (forall p fp, p && fp = false -> indicator false p fp = "off")) /\
  (forall now, exists d' ev,
     CompanionDevice__update_led i now d = Some (tt, d', ev) /\ shows_indicator d') /\
  (exists w' ev d',
     CompanionDevice__sensor_loop_body (bus_publish (S fuel)) i w = Some (tt, w', ev) /\
     devices w' !! i = Some d' /\ shows_indicator d') /\
  (~ dropped d msg ->
   exists w' ev d',
     CompanionDevice__on_message (bus_publish (S fuel)) i msg w = Some (tt, w', ev) /\
     devices w' !! i = Some d' /\ shows_indicator d') /\
  (dropped d msg ->
   CompanionDevice__on_message (bus_publish (S fuel)) i msg w = Some (tt, w, [])).
Proof.
  intros Hd Hwf.
  assert (Hshows : forall now d0, shows_indicator (led_after now d0)).
  { intros now d0. by destruct (led_after_fields now d0) as (_ & _ & _ & _ & _ & _ & _ & _ & H). }
  split_and!.
  - done.
  - done.
  - intros p fp H. unfold indicator. by rewrite H.
  - intros now. eexists _, _. split; [apply update_led_run|apply Hshows].
  - destruct (sensor_loop_body_own _ (bus_publish_leaves fuel) i d w Hd Hwf)
      as (w' & ev & Hrun & Hd' & _).
    eexists w', ev, _. split_and!; [done..|apply Hshows].
  - intros Hnot.
    destruct (on_message_own _ (bus_publish_leaves fuel) i d w msg Hd Hwf)
      as (w' & ev & d' & Hrun & Hd' & _ & [(Hdrop & _)|(_ & d1 & ->)]); [done|].
    exists w', ev, (led_after (time_time w) d1). split_and!; [done..|apply Hshows].
  - intros Hdrop.
    destruct (on_message_own _ (bus_publish_leaves fuel) i d w msg Hd Hwf)
      as (w' & ev & d' & Hrun & _ & _ & [(_ & -> & ->)|(Hnot & _)]); done.
Qed.

Lemma indicator_recomputed_when_handled_witness :
  devices (legacy_world (float_of_Z 1100)) !! 1 = Some device_B_legacy_peer /\
  subscribers_exist (legacy_world (float_of_Z 1100)) /\
  exists w' ev d',
    @CompanionDevice__sensor_loop_body decimal_text (@bus_publish decimal_text 1) 1
      (legacy_world (float_of_Z 1100)) = Some (tt, w', ev) /\
    devices w' !! 1 = Some d' /\ shows_indicator d'.
Proof.
  split; [reflexivity|]. split; [exact (legacy_world_subscribers _)|].
  exact (proj1 (proj2 (proj2
    (@indicator_recomputed_when_handled decimal_text 0 1 device_B_legacy_peer
       (legacy_world (float_of_Z 1100)) (mkMsg "kompanion/A/health" "abc")
       eq_refl (legacy_world_subscribers _))))).
Defined.

(** C5: while no [presence_binary] message was ever seen and the last
    presence timestamp is not zero, every recomputation of the indicator,
    a turn of the sensor loop included, sets [friend_present] to whether
    the time now minus that timestamp is below [PRESENCE_TIMEOUT], which
    is 10.0; once a [presence_binary] message was seen, a recomputation
    leaves [friend_present] as it is. *)
Theorem presence_fallback_timeout {text : FloatText} (fuel i : nat)
    (d : CompanionDevice) (w : World) :
  devices w !! i = Some d ->
  subscribers_exist w ->
  let recomputed now :=
    if friend_binary_seen d then friend_present d
    else if truthy (friend_last_presence_ts d)
         then fltb (fsub now (friend_last_presence_ts d)) PRESENCE_TIMEOUT
         else friend_present d in
  PRESENCE_TIMEOUT = float_of_Z 10 /\
  (forall now, exists d' ev,
     CompanionDevice__update_led i now d = Some (tt, d', ev) /\
     friend_present d' = recomputed now) /\
  (exists w' ev d',
     CompanionDevice__sensor_loop_body (bus_publish (S fuel)) i w = Some (tt, w', ev) /\
     devices w' !! i = Some d' /\
     friend_present d' = recomputed (time_time w)).
Proof.
  intros Hd Hwf recomputed.
  assert (Hfp : forall now d0,
    friend_binary_seen d0 = friend_binary_seen d ->
    friend_last_presence_ts d0 = friend_last_presence_ts d ->
    friend_present d0 = friend_present d ->
    friend_present (led_after now d0) = recomputed now).
  { intros now d0 Hseen Hts Hp.
    destruct (led_after_fields now d0) as (_ & _ & _ & _ & _ & _ & _ & -> & _).
    unfold fallback_presence, recomputed. rewrite Hseen, Hts.
    destruct (friend_binary_seen d), (truthy (friend_last_presence_ts d)); simpl; congruence. }
  split_and!.
  - reflexivity.
  - intros now. eexists _, _. split; [apply update_led_run|by apply Hfp].
  - destruct (sensor_loop_body_own _ (bus_publish_leaves fuel) i d w Hd Hwf)
      as (w' & ev & Hrun & Hd' & _).
    eexists w', ev, _. split_and!; [done..|by apply Hfp].
Qed.

Lemma presence_fallback_timeout_witness :
  devices (legacy_world (float_of_Z 1100)) !! 1 = Some device_B_legacy_peer /\
  subscribers_exist (legacy_world (float_of_Z 1100)) /\
  exists w' ev d',
    @CompanionDevice__sensor_loop_body decimal_text (@bus_publish decimal_text 1) 1
      (legacy_world (float_of_Z 1100)) = Some (tt, w', ev) /\
    devices w' !! 1 = Some d' /\
    friend_present d' = false.
Proof.
  split; [reflexivity|]. split; [exact (legacy_world_subscribers _)|].
  exact (proj2 (proj2
    (@presence_fallback_timeout decimal_text 0 1 device_B_legacy_peer
       (legacy_world (float_of_Z 1100)) eq_refl (legacy_world_subscribers _)))).
Defined.

(** C7: the button trigger of a device whose friend is unhealthy publishes
    one feed message, on the topic of [friend_id] and with an empty
    payload, and no other feed message is published in its course; when
    the friend is healthy the trigger returns at once: nothing is
    published or logged and the world is as before. *)
Theorem button_guard {text : FloatText} (fuel i : nat) (d : CompanionDevice) (w : World) :
  devices w !! i = Some d ->
  subscribers_exist w ->
  (friend_unhealthy d = true ->
   exists w' inner,
     CompanionDevice__on_button (bus_publish (S (S fuel))) i w
       = Some (tt, w',
               log_events i d ("tapping — sending feed to " +:+ friend_id d) ++
               [EvPublish (TOPIC_FEED (friend_id d)) EmptyString inner]) /\
     List.filter feed_message
       (published (log_events i d ("tapping — sending feed to " +:+ friend_id d) ++
                   [EvPublish (TOPIC_FEED (friend_id d)) EmptyString inner]))
       = [(TOPIC_FEED (friend_id d), EmptyString)]) /\
  (friend_unhealthy d = false ->
   forall pub, CompanionDevice__on_button pub i w = Some (tt, w, [])).
Proof.
  intros Hd Hwf. split.
  - intros Hfu.
    destruct (on_button_unhealthy fuel i d w Hd Hwf Hfu) as (w' & inner & Hrun & _ & Hpub).
    exists w', inner. split; [done|].
    rewrite published_app, published_log, published_publish. simpl.
    rewrite (no_feed_among_health _ Hpub).
    unfold feed_message. simpl.
    change (TOPIC_FEED (friend_id d)) with (topic_of (friend_id d) "feed").
    rewrite kind_of_topic_of by done. by rewrite bool_decide_eq_true_2.
  - intros Hfu pub. by apply on_button_healthy with d.
Qed.

Lemma button_guard_witness :
  devices alerted_world !! 0 = Some device_A_alerted /\
  subscribers_exist alerted_world /\
  exists w' inner,
    CompanionDevice__on_button (@bus_publish decimal_text 2) 0 alerted_world
      = Some (tt, w',
              log_events 0 device_A_alerted "tapping — sending feed to B" ++
              [EvPublish "kompanion/B/feed" EmptyString inner]) /\
    List.filter feed_message
      (published (log_events 0 device_A_alerted "tapping — sending feed to B" ++
                  [EvPublish "kompanion/B/feed" EmptyString inner]))
      = [("kompanion/B/feed", EmptyString)].
Proof.
  split; [reflexivity|]. split; [exact alerted_world_subscribers|].
  exact (proj1 (@button_guard decimal_text 0 0 device_A_alerted alerted_world
                  eq_refl alerted_world_subscribers) eq_refl).
Defined.

(** C10: while no [presence_binary] message was ever seen, a presence
    message of a peer whose payload is the departure report (it reads as
    0.0, as the payload 0 does) or does not read as a float sets
    [friend_last_presence_ts] to 0.0 and leaves [friend_present] as it
    was, and so does every recomputation of the indicator that follows,
    whatever the time: the departure never makes [friend_present]
    false. *)
Theorem departure_freezes_presence {text : FloatText}
    (pub : string -> string -> nat -> bool -> M World unit)
    (i : nat) (d : CompanionDevice) (w : World) (a peer : string) (msg : _Msg) :
  devices w !! i = Some d ->
  friend_binary_seen d = false ->
  split "/" (topic msg) = [a; peer; "presence"] ->
  peer <> id d ->
  float_of_bytes (payload msg) = None \/ float_of_bytes (payload msg) = Some (S754_zero false) ->
  decimal_float_of_bytes "0" = Some (S754_zero false) /\
  exists w' ev d',
    CompanionDevice__on_message pub i msg w = Some (tt, w', ev) /\
    devices w' !! i = Some d' /\
    friend_last_presence_ts d' = S754_zero false /\
    friend_present d' = friend_present d /\
    forall nows, exists d'' ev',
      recomputations i nows d' = Some (tt, d'', ev') /\
      friend_present d'' = friend_present d.
Proof.
  intros Hd Hseen Hsplit Hpeer Hpayload. split; [reflexivity|].
  set (d1 := set_friend_last_presence_ts (presence_ts (payload msg)) d).
  assert (Hts : friend_last_presence_ts d1 = S754_zero false).
  { unfold d1, presence_ts. simpl. by destruct Hpayload as [-> | ->]. }
  assert (Hfix : fallback_presence (time_time w) d1 = d1).
  { unfold fallback_presence. by rewrite Hts, andb_false_r. }
  destruct (led_after_fields (time_time w) d1) as (_ & _ & _ & Hts' & Hseen' & _ & _ & Hfp & _).
  rewrite Hfix in Hfp. change (friend_present d1) with (friend_present d) in Hfp.
  exists (upd i (led_after (time_time w) d1) w),
    (led_notifications i (fallback_presence (time_time w) d1)), (led_after (time_time w) d1).
  split_and!.
  - exact (on_message_presence pub i d w a peer msg Hd Hsplit Hpeer).
  - by eapply lookup_upd_eq.
  - congruence.
  - done.
  - intros nows.
    destruct (recomputations_frozen i nows (led_after (time_time w) d1))
      as (d'' & ev' & Hrun & Hp & _).
    { by rewrite Hseen'. }
    { by rewrite Hts', Hts. }
    exists d'', ev'. split; [done|congruence].
Qed.

Lemma departure_freezes_presence_witness :
  devices (legacy_world example_time) !! 1 = Some device_B_legacy_peer /\
  exists w' ev d',
    @CompanionDevice__on_message decimal_text (@bus_publish decimal_text 1) 1
      (mkMsg "kompanion/A/presence" "0") (legacy_world example_time) = Some (tt, w', ev) /\
    devices w' !! 1 = Some d' /\
    friend_last_presence_ts d' = S754_zero false /\
    friend_present d' = true /\
    forall nows, exists d'' ev',
      recomputations 1 nows d' = Some (tt, d'', ev') /\
      friend_present d'' = true.
Proof.
  split; [reflexivity|].
  refine (proj2 (@departure_freezes_presence decimal_text (@bus_publish decimal_text 1) 1
                   device_B_legacy_peer (legacy_world example_time) "kompanion" "A"
                   (mkMsg "kompanion/A/presence" "0") eq_refl eq_refl eq_refl _
                   (or_intror eq_refl))).
  discriminate.
Defined.

(** C1: in the application as built, B's pH is set to 3.0, so that A sees
    its friend unhealthy, and A's button is tapped.  The feed message goes
    out on B's topic; B drops it, because the topic carries B's own id,
    and A handles it: A's pH is reset to 6.0, A publishes health 6.0
    under its own id, A dispenses and recovers, and A keeps seeing its
    friend unhealthy, while B's pH stays 3.0 and B is not recovering. *)
Theorem feed_handled_by_sender :
  KompanionApp__build example_time = Some app_world /\
  exists w a b ev,
    @run decimal_text 2 [ApplyPh 1 (float_of_Z 3); Tap 0] app_world = Some (tt, w, ev) /\
    devices w = [a; b] /\
    published ev = [("kompanion/B/health", "3.0");
                    ("kompanion/B/feed", EmptyString);
                    ("kompanion/A/health", "6.0")] /\
    dispensed ev = [0] /\
    _ph (hw a) = float_of_Z 6 /\ _recovering a = true /\
    friend_unhealthy a = true /\ led_state (hw a) = "red" /\
    _ph (hw b) = float_of_Z 3 /\ _recovering b = false.
Proof.
  split; [reflexivity|].
  set (r := @run decimal_text 2 [ApplyPh 1 (float_of_Z 3); Tap 0] app_world).
  vm_compute in r. subst r.
  eexists _, _, _, _. split; [reflexivity|]. split; [reflexivity|].
  split_and!; vm_compute; reflexivity.
Qed.

(** ** The turn of the sensor loop and the other threads *)

Lemma bind_assoc {S A B C} (m : M S A) (k : A -> M S B) (h : B -> M S C) s :
  bind (bind m k) h s = bind m (fun a => bind (k a) h) s.
Proof.
  unfold bind. destruct (m s) as [[[a s1] ev1]|]; [|done].
  destruct (k a s1) as [[[b s2] ev2]|]; [|done].
  destruct (h b s2) as [[[c s3] ev3]|]; [|done]. by rewrite app_assoc.
Qed.

Lemma bind_ext {S A B} (m : M S A) (k k' : A -> M S B) s :
  (forall a s1, k a s1 = k' a s1) -> bind m k s = bind m k' s.
Proof.
  intros H. unfold bind. destruct (m s) as [[[a s1] ev1]|]; [|done]. by rewrite H.
Qed.

Lemma bind_ret_l {S A B} (a : A) (k : A -> M S B) s : bind (ret a) k s = k a s.
Proof. unfold bind, ret. by destruct (k a s) as [[[b s2] ev2]|]. Qed.

Lemma get_then {A} i (k : CompanionDevice -> M World A) w d :
  devices w !! i = Some d -> (let! self := on_device i get in k self) w = k d w.
Proof.
  intros Hd. rewrite (bind_Some _ _ _ _ _ _ (on_device_get i w d Hd)).
  by destruct (k d w) as [[[b s2] ev2]|].
Qed.

(** The two parts, one after the other, are the turn. *)
Lemma sensor_loop_body_split {text : FloatText}
    (pub : string -> string -> nat -> bool -> M World unit) i w :
  CompanionDevice__sensor_loop_body pub i w
  = (let! ph := CompanionDevice__sensor_loop_read pub i in
     CompanionDevice__sensor_loop_publish pub i ph) w.
Proof.
  unfold CompanionDevice__sensor_loop_body, CompanionDevice__sensor_loop_read. cbv zeta.
  rewrite bind_assoc. apply bind_ext. intros self0 w1.
  rewrite bind_assoc. apply bind_ext. intros [] w2.
  rewrite bind_assoc. apply bind_ext. intros self1 w3.
  rewrite bind_assoc. apply bind_ext. intros [] w4.
  rewrite bind_assoc.
  destruct (devices w4 !! i) as [d|] eqn:Hd.
  - rewrite !(get_then i _ w4 d Hd).
    unfold CompanionDevice__sensor_loop_publish.
    destruct (negb (_recovering d)); rewrite !bind_ret_l; [|done].
    by rewrite (bind_assoc (on_device i get)), (get_then i _ w4 d Hd).
  - unfold bind, on_device. by rewrite Hd.
Qed.

Ltac run_concrete :=
  match goal with
  | |- ?l = Some _ /\ _ =>
      let r := fresh "r" in
      set (r := l); vm_compute in r; subst r; split; [reflexivity|]
  end.

(** C6: the flag does not keep a turn of the sensor loop that is under
    way from publishing.  The turn tests [_recovering] and reads the pH
    in two statements and publishes in a third, on the thread of the
    loop; the feed sequence runs on the thread of whoever delivers the
    feed message; nothing locks the device.  In the application as built,
    with the pH of both devices at 3.0: the loop of A passes the test and
    reads 3.0; A's button is tapped, and the feed sequence runs on A to
    its end, sets [_recovering], resets the pH to 6.0 and publishes 6.0,
    so that B sees A recovered; the loop of A goes on and publishes 3.0
    while A is recovering with a pH of 6.0, and B sees A unhealthy
    again.  The two parts of the turn, run one after the other, are the
    turn of [_sensor_loop]. *)
Theorem stale_health_while_recovering :
  (forall (text : FloatText) pub i w,
     CompanionDevice__sensor_loop_body pub i w
     = (let! ph := CompanionDevice__sensor_loop_read pub i in
        CompanionDevice__sensor_loop_publish pub i ph) w) /\
  KompanionApp__build example_time = Some app_world /\
  exists w0 ev0 w1 ev1 w2 ev2 a2 b2 w3 ev3 a3 b3,
    @run decimal_text 2 [ApplyPh 0 (float_of_Z 3); ApplyPh 1 (float_of_Z 3)] app_world
      = Some (tt, w0, ev0) /\
    @CompanionDevice__sensor_loop_read decimal_text (@bus_publish decimal_text 2) 0 w0
      = Some (Some (float_of_Z 3), w1, ev1) /\
    Hardware_trigger_tap (@bus_publish decimal_text 2) 0 w1 = Some (tt, w2, ev2) /\
    @CompanionDevice__sensor_loop_publish decimal_text (@bus_publish decimal_text 2) 0
      (Some (float_of_Z 3)) w2 = Some (tt, w3, ev3) /\
    published ev1 = [] /\
    published ev2 = [("kompanion/B/feed", EmptyString); ("kompanion/A/health", "6.0")] /\
    devices w2 = [a2; b2] /\
    _recovering a2 = true /\ _ph (hw a2) = float_of_Z 6 /\ friend_unhealthy b2 = false /\
    published ev3 = [("kompanion/A/health", "3.0")] /\
    devices w3 = [a3; b3] /\
    _recovering a3 = true /\ _ph (hw a3) = float_of_Z 6 /\ friend_unhealthy b3 = true.
Proof.
  split; [intros; apply sensor_loop_body_split|]. split; [reflexivity|].
  eexists _, _, _, _, _, _, _, _, _, _, _, _.
  do 4 run_concrete.
  split; [vm_compute; reflexivity|]. split; [vm_compute; reflexivity|].
  split; [reflexivity|]. do 3 (split; [vm_compute; reflexivity|]).
  split; [vm_compute; reflexivity|]. split; [reflexivity|].
  split; [vm_compute; reflexivity|]. split; vm_compute; reflexivity.
Qed.

(** * Further properties of the code *)

(** ** Topics and patterns *)

Lemma join_cons_char sep c seg segs :
  join sep (String c seg :: segs) = String c (join sep (seg :: segs)).
Proof. by destruct segs. Qed.

Lemma join_split sep s : join sep (split sep s) = s.
Proof.
  induction s as [|c s IH]; [done|]. simpl.
  destruct (Ascii.eqb_spec c sep) as [->|Hne].
  - pose proof (split_nonempty sep s) as Hne.
    destruct (split sep s) as [|seg segs] eqn:Hs; [done|].
    change (join sep (EmptyString :: seg :: segs)) with (String sep (join sep (seg :: segs))).
    by rewrite IH.
  - pose proof (split_nonempty sep s) as Hnil.
    destruct (split sep s) as [|seg segs] eqn:Hs; [done|].
    by rewrite join_cons_char, IH.
Qed.

Lemma split_inj sep s t : split sep s = split sep t -> s = t.
Proof. intros H. by rewrite <- (join_split sep s), <- (join_split sep t), H. Qed.

Lemma segments_match_refl pp : segments_match pp pp = true.
Proof.
  apply segments_match_true; [done|]. intros i p t Hp Ht. right. congruence.
Qed.

(** X1: a pattern none of whose segments is the wildcard matches one
    topic only, the pattern itself. *)
Theorem match_without_wildcard (pattern topic : string) :
  Forall (fun p => p <> "+") (split "/" pattern) ->
  _match pattern topic = true <-> topic = pattern.
Proof.
  intros Hplain. split.
  - unfold _match.
    destruct (Nat.eqb_spec (length (split "/" pattern)) (length (split "/" topic)))
      as [Hlen|Hlen]; [|done].
    simpl. intros Hm. apply (split_inj "/"). symmetry.
    apply list_eq_same_length with (length (split "/" topic)); [done..|].
    intros i p t _ Hp Ht.
    destruct (proj1 (segments_match_true _ _ Hlen) Hm i p t Hp Ht) as [Hp1 | Hp1]; [subst p|done].
    rewrite Forall_forall in Hplain.
    by destruct (Hplain "+" (list_elem_of_lookup_2 _ _ _ Hp)).
  - intros ->. unfold _match. rewrite Nat.eqb_refl. apply segments_match_refl.
Qed.

Lemma match_without_wildcard_witness :
  Forall (fun p => p <> "+") (split "/" "kompanion/A/health") /\
  (_match "kompanion/A/health" "kompanion/A/health" = true <->
   "kompanion/A/health" = "kompanion/A/health").
Proof.
  assert (H : Forall (fun p => p <> "+") (split "/" "kompanion/A/health")).
  { repeat constructor; discriminate. }
  split; [exact H|]. exact (match_without_wildcard _ _ H).
Defined.

Lemma match_device_pattern t :
  _match "kompanion/+/+" t = true <->
  exists peer kind, split "/" t = ["kompanion"; peer; kind].
Proof.
  unfold _match. change (split "/" "kompanion/+/+") with ["kompanion"; "+"; "+"].
  split.
  - destruct (split "/" t) as [|a [|peer [|kind [|]]]];
      cbn [length Nat.eqb negb]; try done.
    unfold segments_match. cbn [combine forallb]. intros H.
    apply andb_true_iff in H as [H _]. apply orb_true_iff in H as [H|H].
    + by vm_compute in H.
    + apply String.eqb_eq in H. subst a. by exists peer, kind.
  - by intros (peer & kind & ->).
Qed.

Lemma match_topic_of x k :
  split "/" k = [k] ->
  _match "kompanion/+/+" (topic_of x k) = true <-> split "/" x = [x].
Proof.
  intros Hk. rewrite match_device_pattern, split_topic_of, Hk. split.
  - intros (peer & kind & H).
    destruct (split "/" x) as [|s [|]] eqn:Hx; simplify_eq/=.
    + by rewrite (split_single _ _ _ Hx).
    + by destruct l.
  - intros ->. by eexists _, _.
Qed.

(** X2: the pattern the devices subscribe to, kompanion/+/+, matches the
    topics of three segments that begin with kompanion and no other; hence
    the four topics of a device are delivered to the devices exactly when
    the id of the device has no slash in it. *)
Theorem device_pattern_reach (t id : string) :
  (_match "kompanion/+/+" t = true <->
   exists peer kind, split "/" t = ["kompanion"; peer; kind]) /\
  (_match "kompanion/+/+" (TOPIC_PRESENCE id) = true <-> split "/" id = [id]) /\
  (_match "kompanion/+/+" (TOPIC_PRESENCE_BINARY id) = true <-> split "/" id = [id]) /\
  (_match "kompanion/+/+" (TOPIC_HEALTH id) = true <-> split "/" id = [id]) /\
  (_match "kompanion/+/+" (TOPIC_FEED id) = true <-> split "/" id = [id]).
Proof.
  split_and!.
  - apply match_device_pattern.
  - by apply (match_topic_of id "presence").
  - by apply (match_topic_of id "presence_binary").
  - by apply (match_topic_of id "health").
  - by apply (match_topic_of id "feed").
Qed.

(** ** Subscribing and publishing *)

Lemma matching_app t subs1 subs2 :
  matching t (subs1 ++ subs2) = matching t subs1 ++ matching t subs2.
Proof. unfold matching. apply List.filter_app. Qed.

(** X3: a subscription is served from the next publish on: the publish
    that follows a [subscribe] calls the subscriptions that matched before,
    in their order, and then the new callback if its pattern matches; a
    callback that is subscribed already is not merged with its earlier
    subscription and is called once more. *)
Theorem subscribe_then_publish (run : callbacks) (pattern : string) (cb : nat)
    (topic payload : string) (qos : nat) (retain : bool) (w : World) :
  (forall cb msg w, is_Some (run cb msg w)) ->
  exists w' inner,
    (InProcessBus_subscribe pattern cb >>
     InProcessBus_publish run topic payload qos retain) w
      = Some (tt, w', [EvPublish topic payload inner]) /\
    calls inner = (matching topic (_subs (bus w))).*2 ++
                  (if _match pattern topic then [cb] else []).
Proof.
  intros Htotal.
  set (w1 := set__subs (_subs (bus w) ++ [(pattern, cb)]) w).
  destruct (publish_calls run Htotal topic payload qos retain w1) as (w' & results & Hpub & Hall).
  eexists w', _. split.
  - unfold bind at 1, InProcessBus_subscribe, modify. fold w1. by rewrite Hpub.
  - destruct (calls_call_events (matching topic (_subs (bus w1))).*2 results) as [Hcalls _].
    { by eapply Forall2_length. }
    unfold calls in *. rewrite omap_app, Hcalls.
    replace (omap _ (bus_log_events w1 topic payload)) with (@nil nat)
      by (unfold bus_log_events; by destruct (_log_cb (bus w1))).
    simpl. rewrite matching_app, fmap_app. f_equal.
    unfold matching. simpl. by destruct (_match pattern topic).
Qed.

Lemma subscribe_then_publish_witness :
  (forall cb msg w, is_Some (example_run cb msg w)) /\
  exists w' inner,
    (InProcessBus_subscribe "kompanion/+/health" 0 >>
     InProcessBus_publish example_run "kompanion/A/health" "3.0" 1 true) example_bus_world
      = Some (tt, w', [EvPublish "kompanion/A/health" "3.0" inner]) /\
    calls inner = [0; 1; 3; 0].
Proof.
  assert (Htotal : forall cb msg w, is_Some (example_run cb msg w)) by (intros; by eexists).
  split; [exact Htotal|].
  exact (subscribe_then_publish example_run "kompanion/+/health" 0 "kompanion/A/health" "3.0"
           1 true example_bus_world Htotal).
Defined.

(** ** The handler of inbound messages *)

Lemma device_logs_app evs1 evs2 :
  device_logs (evs1 ++ evs2) = device_logs evs1 ++ device_logs evs2.
Proof. apply omap_app. Qed.

Lemma device_logs_led i d : device_logs (led_notifications i d) = [].
Proof.
  unfold led_notifications. by destruct (on_led_change (hw d)), (hw_log_cb (hw d)).
Qed.

Lemma device_logs_log i d msg :
  log_cb d = true -> device_logs (log_events i d msg) <> [].
Proof. unfold log_events. by intros ->. Qed.

Lemma led_after_idem now d :
  fallback_presence now (led_after now d) = led_after now d /\
  led_after now (led_after now d) = led_after now d.
Proof.
  destruct d as [x fx h p fp fu ts seen lg rc]. destruct h.
  unfold led_after, fallback_presence, show_indicator.
  destruct seen; [simpl; split; reflexivity|].
  destruct (truthy ts) eqn:Hts;
    do 3 (cbn -[truthy fltb fsub indicator]; rewrite ?Hts); simpl; split; reflexivity.
Qed.

Lemma set_friend_unhealthy_same d : set_friend_unhealthy (friend_unhealthy d) d = d.
Proof. by destruct d. Qed.

Lemma recomputations_binary i nows d :
  friend_binary_seen d = true ->
  exists d' ev,
    recomputations i nows d = Some (tt, d', ev) /\
    friend_present d' = friend_present d /\
    friend_binary_seen d' = true.
Proof.
  revert d. induction nows as [|now rest IH]; intros d Hseen.
  - by exists d, [].
  - assert (Hfix : fallback_presence now d = d).
    { unfold fallback_presence. by rewrite Hseen. }
    destruct (led_after_fields now d) as (_ & _ & _ & _ & Hseen' & _ & _ & Hfp & _).
    rewrite Hfix in Hfp.
    destruct (IH (led_after now d)) as (d' & ev & Hrun & H1 & H2).
    { by rewrite Hseen'. }
    eexists d', _. split_and!; [|congruence..].
    simpl. rewrite (bind_Some _ _ _ _ _ _ (update_led_run i now d)). by rewrite Hrun.
Qed.

Section Handler.

Context {text : FloatText}.
Variable pub : string -> string -> nat -> bool -> M World unit.

Lemma on_message_kind_any_peer i peer1 peer2 kind pl :
  kind <> "feed" ->
  CompanionDevice__on_message_kind pub i peer1 kind pl
  = CompanionDevice__on_message_kind pub i peer2 kind pl.
Proof.
  intros Hkind. unfold CompanionDevice__on_message_kind.
  destruct (String.eqb kind "presence"); [done|].
  destruct (String.eqb kind "presence_binary"); [done|].
  destruct (String.eqb kind "health"); [done|].
  by destruct (String.eqb_spec kind "feed").
Qed.

Lemma on_message_presence_binary i d w a peer msg :
  devices w !! i = Some d ->
  split "/" (topic msg) = [a; peer; "presence_binary"] ->
  peer <> id d ->
  let d1 := set_friend_binary_seen true
              (set_friend_present (String.eqb (payload msg) "1") d) in
  CompanionDevice__on_message pub i msg w
  = Some (tt, upd i (led_after (time_time w) d1) w,
          log_events i d1
            ("friend " +:+ (if String.eqb (payload msg) "1" then "present" else "away")) ++
          led_notifications i (fallback_presence (time_time w) d1)).
Proof.
  intros Hd Hsplit Hpeer d1.
  rewrite (on_message_handled pub i msg w d a peer "presence_binary" Hd Hsplit Hpeer).
  rewrite (bind_Some _ _ _ _ _ _ (kind_presence_binary pub i peer _ w d Hd)).
  rewrite (update_led_world i _ d1) by (by eapply lookup_upd_eq).
  by rewrite upd_upd.
Qed.

End Handler.

(** X4: the handler does not look at who sent a message beyond the test
    against its own id: two messages of the same kind, not feed, with the
    same payload have the same effect on a device whatever their first
    segments and whatever ids other than the device's own they carry; the
    id need not be the one of the friend. *)
Theorem handler_ignores_sender {text : FloatText}
    (pub : string -> string -> nat -> bool -> M World unit)
    (i : nat) (d : CompanionDevice) (w : World) (m1 m2 : _Msg)
    (a1 peer1 a2 peer2 kind : string) :
  devices w !! i = Some d ->
  split "/" (topic m1) = [a1; peer1; kind] ->
  split "/" (topic m2) = [a2; peer2; kind] ->
  payload m1 = payload m2 ->
  peer1 <> id d -> peer2 <> id d -> kind <> "feed" ->
  CompanionDevice__on_message pub i m1 w = CompanionDevice__on_message pub i m2 w.
Proof.
  intros Hd H1 H2 Hpl Hp1 Hp2 Hkind.
  rewrite (on_message_handled pub i m1 w d a1 peer1 kind Hd H1 Hp1).
  rewrite (on_message_handled pub i m2 w d a2 peer2 kind Hd H2 Hp2).
  by rewrite Hpl, (on_message_kind_any_peer pub i peer1 peer2 kind _ Hkind).
Qed.

Lemma handler_ignores_sender_witness :
  @CompanionDevice__on_message decimal_text (@bus_publish decimal_text 1) 0
    (mkMsg "kompanion/B/health" "3.0") app_world
  = @CompanionDevice__on_message decimal_text (@bus_publish decimal_text 1) 0
      (mkMsg "garden/C/health" "3.0") app_world.
Proof.
  apply (@handler_ignores_sender decimal_text (@bus_publish decimal_text 1) 0 device_A
           app_world (mkMsg "kompanion/B/health" "3.0") (mkMsg "garden/C/health" "3.0")
           "kompanion" "B" "garden" "C" "health");
    [reflexivity..|discriminate|discriminate|discriminate].
Defined.

(** X5: a health message of a peer that reads as a float is logged by a
    device with a log sink exactly when it moves [friend_unhealthy] across
    the threshold; delivered a second time at the same clock reading it
    logs nothing and leaves the world as it is, and the indicator hooks
    are notified once more all the same. *)
Theorem health_logged_on_crossing {text : FloatText}
    (pub : string -> string -> nat -> bool -> M World unit)
    (i : nat) (d : CompanionDevice) (w : World) (a peer : string) (msg : _Msg) (ph : float) :
  devices w !! i = Some d ->
  split "/" (topic msg) = [a; peer; "health"] ->
  peer <> id d ->
  float_of_bytes (payload msg) = Some ph ->
  log_cb d = true ->
  exists w1 ev1 d1,
    CompanionDevice__on_message pub i msg w = Some (tt, w1, ev1) /\
    devices w1 !! i = Some d1 /\
    (device_logs ev1 = [] <-> friend_unhealthy d = out_of_range ph) /\
    CompanionDevice__on_message pub i msg w1 = Some (tt, w1, led_notifications i d1).
Proof.
  intros Hd Hsplit Hpeer Hph Hlog.
  set (now := time_time w).
  set (d1 := led_after now (set_friend_unhealthy (out_of_range ph) d)).
  assert (Hd1 : devices (upd i d1 w) !! i = Some d1) by (by eapply lookup_upd_eq).
  assert (Hid : id d1 = id d).
  { unfold d1.
    by destruct (led_after_fields now (set_friend_unhealthy (out_of_range ph) d)) as (-> & _). }
  assert (Hfu : friend_unhealthy d1 = out_of_range ph).
  { unfold d1.
    by destruct (led_after_fields now (set_friend_unhealthy (out_of_range ph) d))
      as (_ & -> & _). }
  destruct (led_after_idem now (set_friend_unhealthy (out_of_range ph) d)) as [Hfix Hidem].
  fold d1 in Hfix, Hidem.
  exists (upd i d1 w),
    (health_log i d ph ++
     led_notifications i (fallback_presence now (set_friend_unhealthy (out_of_range ph) d))),
    d1.
  split_and!.
  - exact (on_message_health pub i d w a peer msg ph Hd Hsplit Hpeer Hph).
  - exact Hd1.
  - rewrite device_logs_app, device_logs_led, app_nil_r. unfold health_log.
    destruct (out_of_range ph), (friend_unhealthy d); simpl; split; try done.
    + intros H. by destruct (device_logs_log i d _ Hlog H).
    + intros H. by destruct (device_logs_log i d _ Hlog H).
  - assert (Hpeer1 : peer <> id d1) by (by rewrite Hid).
    rewrite (on_message_health pub i d1 (upd i d1 w) a peer msg ph Hd1 Hsplit Hpeer1 Hph).
    change (time_time (upd i d1 w)) with now.
    assert (Hsame : set_friend_unhealthy (out_of_range ph) d1 = d1).
    { rewrite <- Hfu. apply set_friend_unhealthy_same. }
    rewrite Hsame, Hidem, Hfix, upd_upd.
    unfold health_log. rewrite Hfu.
    by destruct (out_of_range ph).
Qed.

Lemma health_logged_on_crossing_witness :
  exists w1 ev1 d1,
    @CompanionDevice__on_message decimal_text (@bus_publish decimal_text 1) 0
      (mkMsg "kompanion/B/health" "3.0") app_world = Some (tt, w1, ev1) /\
    devices w1 !! 0 = Some d1 /\
    (device_logs ev1 = [] <-> friend_unhealthy device_A = out_of_range (float_of_Z 3)) /\
    @CompanionDevice__on_message decimal_text (@bus_publish decimal_text 1) 0
      (mkMsg "kompanion/B/health" "3.0") w1 = Some (tt, w1, led_notifications 0 d1).
Proof.
  apply (@health_logged_on_crossing decimal_text (@bus_publish decimal_text 1) 0 device_A
           app_world "kompanion" "B" (mkMsg "kompanion/B/health" "3.0") (float_of_Z 3));
    [reflexivity|reflexivity|discriminate|vm_compute; reflexivity|reflexivity].
Defined.

(** X6: once a device has handled a [presence_binary] message of a peer,
    that message decides: [friend_present] is true exactly when the payload
    is the one byte 1, and neither a recomputation of the indicator at any
    later time nor a later timestamp message of a peer changes it. *)
Theorem binary_presence_decides {text : FloatText}
    (pub : string -> string -> nat -> bool -> M World unit)
    (i : nat) (d : CompanionDevice) (w : World) (a peer : string) (msg : _Msg) :
  devices w !! i = Some d ->
  split "/" (topic msg) = [a; peer; "presence_binary"] ->
  peer <> id d ->
  exists w1 ev d1,
    CompanionDevice__on_message pub i msg w = Some (tt, w1, ev) /\
    devices w1 !! i = Some d1 /\
    friend_binary_seen d1 = true /\
    friend_present d1 = String.eqb (payload msg) "1" /\
    (forall nows, exists d2 ev2,
       recomputations i nows d1 = Some (tt, d2, ev2) /\
       friend_present d2 = friend_present d1) /\
    (forall a' peer' msg',
       split "/" (topic msg') = [a'; peer'; "presence"] -> peer' <> id d ->
       exists w2 ev2 d2,
         CompanionDevice__on_message pub i msg' w1 = Some (tt, w2, ev2) /\
         devices w2 !! i = Some d2 /\
         friend_binary_seen d2 = true /\
         friend_present d2 = friend_present d1).
Proof.
  intros Hd Hsplit Hpeer.
  set (now := time_time w).
  set (d0 := set_friend_binary_seen true
               (set_friend_present (String.eqb (payload msg) "1") d)).
  assert (Hfix : fallback_presence now d0 = d0) by done.
  destruct (led_after_fields now d0) as (Hid & _ & _ & _ & Hseen & _ & _ & Hfp & _).
  rewrite Hfix in Hfp.
  change (id d0) with (id d) in Hid.
  change (friend_binary_seen d0) with true in Hseen.
  change (friend_present d0) with (String.eqb (payload msg) "1") in Hfp.
  assert (Hd1 : devices (upd i (led_after now d0) w) !! i = Some (led_after now d0))
    by (by eapply lookup_upd_eq).
  eexists _, _, (led_after now d0). split_and!.
  - exact (on_message_presence_binary pub i d w a peer msg Hd Hsplit Hpeer).
  - exact Hd1.
  - done.
  - done.
  - intros nows.
    destruct (recomputations_binary i nows (led_after now d0) Hseen) as (d2 & ev2 & Hrun & H1 & _).
    by exists d2, ev2.
  - intros a' peer' msg' Hsplit' Hpeer'.
    set (d2 := set_friend_last_presence_ts (presence_ts (payload msg')) (led_after now d0)).
    assert (Hfix2 : fallback_presence now d2 = d2).
    { unfold fallback_presence.
      change (friend_binary_seen d2) with (friend_binary_seen (led_after now d0)).
      by rewrite Hseen. }
    destruct (led_after_fields now d2) as (_ & _ & _ & _ & Hseen2 & _ & _ & Hfp2 & _).
    rewrite Hfix2 in Hfp2.
    change (friend_binary_seen d2) with (friend_binary_seen (led_after now d0)) in Hseen2.
    change (friend_present d2) with (friend_present (led_after now d0)) in Hfp2.
    eexists _, _, (led_after now d2). split_and!.
    + apply (on_message_presence pub i (led_after now d0) _ a' peer' msg' Hd1 Hsplit').
      by rewrite Hid.
    + by eapply lookup_upd_eq.
    + by rewrite Hseen2.
    + exact Hfp2.
Qed.

Lemma binary_presence_decides_witness :
  exists w1 ev d1,
    @CompanionDevice__on_message decimal_text (@bus_publish decimal_text 1) 1
      (mkMsg "kompanion/A/presence_binary" "0") (legacy_world example_time)
      = Some (tt, w1, ev) /\
    devices w1 !! 1 = Some d1 /\
    friend_binary_seen d1 = true /\
    friend_present d1 = false /\
    (forall nows, exists d2 ev2,
       recomputations 1 nows d1 = Some (tt, d2, ev2) /\
       friend_present d2 = friend_present d1) /\
    (forall a' peer' msg',
       split "/" (topic msg') = [a'; peer'; "presence"] -> peer' <> "B" ->
       exists w2 ev2 d2,
         @CompanionDevice__on_message decimal_text (@bus_publish decimal_text 1) 1 msg' w1
           = Some (tt, w2, ev2) /\
         devices w2 !! 1 = Some d2 /\
         friend_binary_seen d2 = true /\
         friend_present d2 = friend_present d1).
Proof.
  apply (@binary_presence_decides decimal_text (@bus_publish decimal_text 1) 1
           device_B_legacy_peer (legacy_world example_time) "kompanion" "A"
           (mkMsg "kompanion/A/presence_binary" "0"));
    [reflexivity|reflexivity|discriminate].
Defined.

(** ** From one device to the others *)

Lemma leaf_world_lookup msg w w' i d :
  leaf_world msg w w' -> devices w !! i = Some d ->
  exists d', devices w' !! i = Some d' /\ leaf_dev msg d d'.
Proof.
  intros (_ & _ & _ & Hall) Hd.
  destruct (Forall2_lookup_l _ _ _ _ _ Hall Hd) as (d' & Hd' & Hrel). by exists d'.
Qed.

Lemma upd_inj i d1 d2 d0 w :
  devices w !! i = Some d0 -> upd i d1 w = upd i d2 w -> d1 = d2.
Proof.
  intros Hd Heq.
  pose proof (lookup_upd_eq i d1 d0 w Hd) as H1.
  pose proof (lookup_upd_eq i d2 d0 w Hd) as H2.
  rewrite Heq in H1. congruence.
Qed.

Lemma shows_indicator_led_after now d : shows_indicator (led_after now d).
Proof. unfold shows_indicator. by destruct (led_after_fields now d) as (_&_&_&_&_&_&_&_&->). Qed.

Section Reach.

Context {text : FloatText}.
Variable pub : string -> string -> nat -> bool -> M World unit.
Variable msg : _Msg.
Variable i : nat.
Variable x : string.
Variable now : float.
Variable Q : CompanionDevice -> Prop.

Hypothesis msg_kind : kind_of (topic msg) <> Some "feed".

(** Device [i], whose id is [x], handles [msg] at the time [now], and is
    left in a state that satisfies [Q]. *)
Hypothesis handled :
  forall w0 d0,
    devices w0 !! i = Some d0 -> id d0 = x -> time_time w0 = now ->
    exists d1 ev,
      CompanionDevice__on_message pub i msg w0 = Some (tt, upd i d1 w0, ev) /\ Q d1.

Lemma deliver_reaches matched w d :
  Forall (fun s => s.2 < length (devices w)) matched ->
  devices w !! i = Some d -> id d = x -> time_time w = now ->
  exists w' ev d',
    deliver (MockMQTTClient__dispatch pub) msg matched w = Some (tt, w', ev) /\
    leaf_world msg w w' /\ devices w' !! i = Some d' /\
    (Q d \/ i ∈ matched.*2 -> Q d').
Proof.
  revert w d. induction matched as [|[p cb] rest IH]; intros w d Hall Hd Hid Hnow.
  - exists w, [], d. split_and!; [done|apply leaf_world_refl|done|].
    intros [H|H]; [done|]. by inversion H.
  - apply Forall_cons in Hall as [Hcb Hrest]. simpl in Hcb.
    destruct (lookup_lt_is_Some_2 _ _ Hcb) as [dcb Hdcb].
    destruct (on_message_leaf pub cb msg w dcb Hdcb msg_kind)
      as (d' & ev & Hrun & Hrel & _).
    assert (Hlen : length (devices (upd cb d' w)) = length (devices w)).
    { unfold upd. simpl. by rewrite length_insert. }
    assert (Hi : exists di, devices (upd cb d' w) !! i = Some di /\ id di = x /\
                            (Q d \/ i = cb -> Q di)).
    { destruct (decide (cb = i)) as [->|Hne].
      - exists d'. assert (dcb = d) as -> by congruence.
        split_and!; [by eapply lookup_upd_eq|destruct Hrel as (-> & _); done|].
        intros _. destruct (handled w d Hd Hid Hnow) as (d1 & ev1 & Hrun1 & HQ).
        assert (Hw : upd i d' w = upd i d1 w) by congruence.
        by rewrite (upd_inj i d' d1 d w Hd Hw).
      - exists d. split_and!; [by rewrite lookup_upd_ne|done|].
        intros [H|H]; [done|]. by destruct Hne. }
    destruct Hi as (di & Hdi & Hidi & HQi).
    destruct (IH (upd cb d' w) di) as (w' & ev' & d'' & Hrest' & Hrel' & Hd'' & HQ'); try done.
    { by rewrite Hlen. }
    exists w', (EvCall cb ev Returned :: ev'), d''. split_and!.
    + simpl. unfold MockMQTTClient__dispatch in *.
      assert (Hcall : scope (EvCall cb) (CompanionDevice__on_message pub cb msg >> ret Returned) w
                      = Some (Returned, upd cb d' w, [EvCall cb ev Returned])).
      { unfold scope. by rewrite (then_ret _ Returned _ _ _ _ Hrun). }
      rewrite (bind_Some _ _ _ _ _ _ Hcall).
      rewrite (bind_Some _ _ _ tt (upd cb d' w) [] eq_refl).
      by rewrite Hrest'.
    + eapply leaf_world_trans; [|exact Hrel']. by apply leaf_world_upd with dcb.
    + done.
    + intros [H|H]; apply HQ'.
      * left. apply HQi. by left.
      * simpl in H. apply elem_of_cons in H as [->|H]; [|by right].
        left. apply HQi. by right.
Qed.

Lemma publish_reaches qos retain w d :
  subscribers_exist w ->
  devices w !! i = Some d -> id d = x -> time_time w = now ->
  exists w' inner d',
    InProcessBus_publish (MockMQTTClient__dispatch pub) (topic msg) (payload msg) qos retain w
      = Some (tt, w', [EvPublish (topic msg) (payload msg) inner]) /\
    leaf_world msg w w' /\ devices w' !! i = Some d' /\
    ((exists pattern, (pattern, i) ∈ _subs (bus w) /\ _match pattern (topic msg) = true) ->
     Q d').
Proof.
  intros Hwf Hd Hid Hnow.
  destruct (deliver_reaches (matching (topic msg) (_subs (bus w))) w d
              (matching_subscribers_exist _ w Hwf) Hd Hid Hnow)
    as (w' & ev & d' & Hrun & Hrel & Hd' & HQ).
  exists w', (bus_log_events w (topic msg) (payload msg) ++ ev), d'. split_and!; [|done..|].
  - unfold InProcessBus_publish, scope, bus_log_events.
    unfold bind at 1, get. unfold bind at 1.
    fold (matching (topic msg) (_subs (bus w))).
    replace (mkMsg (topic msg) (payload msg)) with msg by (by destruct msg).
    destruct (_log_cb (bus w)); simpl; unfold ret, emit; by rewrite Hrun.
  - intros (pattern & Hin & Hm). apply HQ. right.
    apply (list_elem_of_fmap_2 snd _ (pattern, i)).
    unfold matching. apply list_elem_of_In, filter_In. split; [by apply list_elem_of_In|done].
Qed.

End Reach.

(** X7: the pH set on the slider of one device reaches every other
    device that is subscribed as [_on_connect] subscribes it, whether or
    not the two are declared friends: once [_apply_ph] has returned, the
    other device's [friend_unhealthy] tells whether that pH is outside the
    safe range, and its indicator shows it.  The id of the publishing
    device must have no slash, and the text of the pH must read back as
    the pH. *)
Theorem health_reaches_peers {text : FloatText} (fuel i j : nat)
    (di dj : CompanionDevice) (w : World) (ph : float) :
  devices w !! i = Some di ->
  devices w !! j = Some dj ->
  subscribers_exist w ->
  id di <> id dj ->
  split "/" (id dj) = [id dj] ->
  ("kompanion/+/+", i) ∈ _subs (bus w) ->
  float_of_bytes (bytes_of_float ph) = Some ph ->
  exists w' ev di',
    DevicePanel__apply_ph (bus_publish (S fuel)) j ph w = Some (tt, w', ev) /\
    devices w' !! i = Some di' /\
    friend_unhealthy di' = out_of_range ph /\
    shows_indicator di'.
Proof.
  intros Hdi Hdj Hwf Hids Hslash Hsub Hround.
  assert (Hij : j <> i) by (intros ->; congruence).
  set (dj0 := set_hw (set__ph ph (hw dj)) dj).
  set (msg := mkMsg (TOPIC_HEALTH (id dj)) (bytes_of_float ph)).
  assert (Hsplit : split "/" (topic msg) = ["kompanion"; id dj; "health"]).
  { unfold msg. cbn [topic]. change (TOPIC_HEALTH (id dj)) with (topic_of (id dj) "health").
    by rewrite split_topic_of, Hslash. }
  destruct (publish_reaches (bus_publish fuel) msg i (id di) (time_time w)
              (fun d => friend_unhealthy d = out_of_range ph /\ shows_indicator d))
    with (qos := 1) (retain := true) (w := upd j dj0 w) (d := di)
    as (w' & inner & di' & Hrun & _ & Hdi' & HQ); try done.
  - rewrite (kind_of_three _ _ _ _ Hsplit). discriminate.
  - intros w0 d0 Hd0 Hid0 Hnow0. eexists _, _. split.
    + eapply (on_message_health (bus_publish fuel) i d0 w0 _ _ msg ph Hd0 Hsplit);
        [congruence|done].
    + rewrite Hnow0. split; [|apply shows_indicator_led_after].
      by destruct (led_after_fields (time_time w) (set_friend_unhealthy (out_of_range ph) d0))
        as (_ & -> & _).
  - by apply subscribers_exist_upd.
  - by rewrite lookup_upd_ne.
  - destruct HQ as [Hfu Hled].
    { exists "kompanion/+/+". split; [done|].
      by apply (match_topic_of (id dj) "health"). }
    exists w', [EvPublish (topic msg) (payload msg) inner], di'. split_and!; try done.
    unfold DevicePanel__apply_ph.
    rewrite (bind_Some _ _ _ _ _ _ (on_device_get j w dj Hdj)).
    erewrite bind_Some; cycle 1.
    { by eapply (on_device_run j _ w dj tt dj0 []). }
    change (CompanionDevice__publish (bus_publish (S fuel)) (TOPIC_HEALTH (id dj))
              (bytes_of_float ph))
      with (InProcessBus_publish (MockMQTTClient__dispatch (bus_publish fuel))
              (topic msg) (payload msg) 1 true).
    by rewrite Hrun.
Qed.

Lemma health_reaches_peers_witness :
  exists w' ev di',
    @DevicePanel__apply_ph decimal_text (@bus_publish decimal_text 1) 1 (float_of_Z 3) app_world
      = Some (tt, w', ev) /\
    devices w' !! 0 = Some di' /\
    friend_unhealthy di' = out_of_range (float_of_Z 3) /\
    shows_indicator di'.
Proof.
  apply (@health_reaches_peers decimal_text 0 0 1 device_A device_B app_world (float_of_Z 3));
    [reflexivity|reflexivity|apply app_world_subscribers|discriminate|reflexivity|
     apply list_elem_of_here|vm_compute; reflexivity].
Defined.

(** X8: the presence toggled on the panel of one device reaches every
    other subscribed device: once [_toggle_presence] has returned, the
    other device has seen a [presence_binary] message, its
    [friend_present] is the new presence, and its indicator shows it. *)
Theorem presence_reaches_peers {text : FloatText} (fuel i j : nat)
    (di dj : CompanionDevice) (w : World) :
  devices w !! i = Some di ->
  devices w !! j = Some dj ->
  subscribers_exist w ->
  id di <> id dj ->
  split "/" (id dj) = [id dj] ->
  ("kompanion/+/+", i) ∈ _subs (bus w) ->
  exists w' ev di',
    DevicePanel__toggle_presence (bus_publish (S fuel)) j w = Some (tt, w', ev) /\
    devices w' !! i = Some di' /\
    friend_binary_seen di' = true /\
    friend_present di' = negb (_presence (hw dj)) /\
    shows_indicator di'.
Proof.
  intros Hdi Hdj Hwf Hids Hslash Hsub.
  assert (Hij : j <> i) by (intros ->; congruence).
  set (new := negb (_presence (hw dj))).
  set (dj0 := set_present new (set_hw (set__presence new (hw dj)) dj)).
  set (w0 := upd j dj0 w).
  set (t1 := TOPIC_PRESENCE (id dj)).
  set (p1 := if new then bytes_of_float (time_time w) else "0").
  set (msg := mkMsg (TOPIC_PRESENCE_BINARY (id dj)) (if new then "1" else "0")).
  assert (Hwf0 : subscribers_exist w0) by (by apply subscribers_exist_upd).
  assert (Hk1 : kind_of t1 <> Some "feed").
  { unfold t1. change (TOPIC_PRESENCE (id dj)) with (topic_of (id dj) "presence").
    by rewrite kind_of_topic_of. }
  destruct (bus_publish_leaf fuel t1 p1 1 true w0 Hk1 Hwf0)
    as (w1 & inner1 & Hrun1 & Hrel1 & _).
  destruct (leaf_world_lookup _ w0 w1 i di Hrel1) as (di1 & Hdi1 & Hleaf1).
  { unfold w0. by rewrite lookup_upd_ne. }
  assert (Hsplit : split "/" (topic msg) = ["kompanion"; id dj; "presence_binary"]).
  { unfold msg. cbn [topic].
    change (TOPIC_PRESENCE_BINARY (id dj)) with (topic_of (id dj) "presence_binary").
    by rewrite split_topic_of, Hslash. }
  destruct (publish_reaches (bus_publish fuel) msg i (id di) (time_time w)
              (fun d => friend_binary_seen d = true /\ friend_present d = new /\
                        shows_indicator d))
    with (qos := 1) (retain := true) (w := w1) (d := di1)
    as (w' & inner & di' & Hrun & _ & Hdi' & HQ); try done.
  - rewrite (kind_of_three _ _ _ _ Hsplit). discriminate.
  - intros w2 d2 Hd2 Hid2 Hnow2. eexists _, _. split.
    + eapply (on_message_presence_binary (bus_publish fuel) i d2 w2 _ _ msg Hd2 Hsplit).
      congruence.
    + set (d3 := set_friend_binary_seen true
                   (set_friend_present (String.eqb (payload msg) "1") d2)).
      assert (Hfix : fallback_presence (time_time w2) d3 = d3) by done.
      destruct (led_after_fields (time_time w2) d3) as (_ & _ & _ & _ & Hseen & _ & _ & Hfp & _).
      rewrite Hfix in Hfp. split_and!; [done| |apply shows_indicator_led_after].
      rewrite Hfp. unfold d3, msg. simpl. by destruct new.
  - by eapply subscribers_exist_leaf.
  - by destruct Hleaf1 as (-> & _).
  - by destruct Hrel1 as (_ & -> & _).
  - destruct HQ as (Hseen & Hfp & Hled).
    { exists "kompanion/+/+". split.
      - destruct Hrel1 as (-> & _). done.
      - by apply (match_topic_of (id dj) "presence_binary"). }
    exists w', [EvPublish t1 p1 inner1; EvPublish (topic msg) (payload msg) inner], di'.
    split_and!; try done.
    unfold DevicePanel__toggle_presence.
    rewrite (bind_Some _ _ _ _ _ _ (on_device_get j w dj Hdj)).
    erewrite bind_Some; cycle 1.
    { by eapply (on_device_run j _ w dj tt dj0 []). }
    unfold bind at 1, clock.
    change (time_time (upd j dj0 w)) with (time_time w). fold new w0 t1 p1.
    change (CompanionDevice__publish (bus_publish (S fuel)) t1 p1)
      with (bus_publish (S fuel) t1 p1 1 true).
    rewrite (bind_Some _ _ _ _ _ _ Hrun1).
    change (CompanionDevice__publish (bus_publish (S fuel)) (TOPIC_PRESENCE_BINARY (id dj))
              (if new then "1" else "0"))
      with (InProcessBus_publish (MockMQTTClient__dispatch (bus_publish fuel))
              (topic msg) (payload msg) 1 true).
    by rewrite Hrun.
Qed.

Lemma presence_reaches_peers_witness :
  exists w' ev di',
    @DevicePanel__toggle_presence decimal_text (@bus_publish decimal_text 1) 1 app_world
      = Some (tt, w', ev) /\
    devices w' !! 0 = Some di' /\
    friend_binary_seen di' = true /\
    friend_present di' = negb (_presence (hw device_B)) /\
    shows_indicator di'.
Proof.
  apply (@presence_reaches_peers decimal_text 0 0 1 device_A device_B app_world);
    [reflexivity|reflexivity|apply app_world_subscribers|discriminate|reflexivity|
     apply list_elem_of_here].
Defined.

(** ** The sensor loop and the panel *)

Lemma led_after_presence now d :
  _presence (hw (led_after now d)) = _presence (hw d) /\
  _btn_cb (hw (led_after now d)) = _btn_cb (hw d).
Proof.
  unfold led_after, fallback_presence, show_indicator.
  by destruct (negb (friend_binary_seen d) && truthy (friend_last_presence_ts d)).
Qed.

Lemma eqb_same b : negb (Bool.eqb b b) = false.
Proof. by destruct b. Qed.

(** X9: a change of presence is announced once.  The turn of the sensor
    loop that follows another turn, and the turn that follows the toggle
    of the panel, publish no presence message: they publish the health
    message alone, or nothing while the device is recovering. *)
Theorem presence_announced_once {text : FloatText} (fuel i : nat)
    (d : CompanionDevice) (w : World) :
  devices w !! i = Some d ->
  subscribers_exist w ->
  let health :=
    if negb (_recovering d) then [(TOPIC_HEALTH (id d), bytes_of_float (_ph (hw d)))]
    else [] in
  (exists w1 ev1 w2 ev2,
     CompanionDevice__sensor_loop_body (bus_publish (S fuel)) i w = Some (tt, w1, ev1) /\
     CompanionDevice__sensor_loop_body (bus_publish (S fuel)) i w1 = Some (tt, w2, ev2) /\
     published ev2 = health) /\
  (exists w1 ev1 w2 ev2,
     DevicePanel__toggle_presence (bus_publish (S fuel)) i w = Some (tt, w1, ev1) /\
     CompanionDevice__sensor_loop_body (bus_publish (S fuel)) i w1 = Some (tt, w2, ev2) /\
     published ev2 = health).
Proof.
  intros Hd Hwf health. split.
  - destruct (sensor_loop_body_run (bus_publish (S fuel)) (bus_publish_leaves fuel) i d w Hd Hwf)
      as (w0 & ev1 & _ & Hd0 & Hwf0 & Hrun1 & _).
    set (d1 := led_after (time_time w) (polled d)) in *.
    assert (Hd1 : devices (upd i d1 w0) !! i = Some d1) by (by eapply lookup_upd_eq).
    destruct (sensor_loop_body_own (bus_publish (S fuel)) (bus_publish_leaves fuel) i d1
                (upd i d1 w0) Hd1 (subscribers_exist_upd i d1 w0 Hwf0))
      as (w2 & ev2 & Hrun2 & _ & Hpub2).
    eexists _, _, w2, ev2. split_and!; [exact Hrun1|exact Hrun2|].
    rewrite Hpub2. unfold d1.
    destruct (led_after_fields (time_time w) (polled d))
      as (-> & _ & -> & _ & _ & -> & -> & _).
    destruct (led_after_presence (time_time w) (polled d)) as [-> _].
    change (present (polled d)) with (_presence (hw d)).
    change (_presence (hw (polled d))) with (_presence (hw d)).
    by rewrite eqb_same.
  - destruct (toggle_presence_run (bus_publish (S fuel)) (bus_publish_leaves fuel) i d w Hd Hwf)
      as (w1 & ev1 & Hrun1 & Hev & Hd1).
    destruct (sensor_loop_body_own (bus_publish (S fuel)) (bus_publish_leaves fuel) i _
                w1 Hd1 (subscribers_exist_evolves w w1 Hev Hwf))
      as (w2 & ev2 & Hrun2 & _ & Hpub2).
    exists w1, ev1, w2, ev2. split_and!; [done..|].
    rewrite Hpub2. simpl. by rewrite eqb_same.
Qed.

Lemma presence_announced_once_witness :
  exists w1 ev1 w2 ev2,
    @DevicePanel__toggle_presence decimal_text (@bus_publish decimal_text 1) 0 app_world
      = Some (tt, w1, ev1) /\
    @CompanionDevice__sensor_loop_body decimal_text (@bus_publish decimal_text 1) 0 w1
      = Some (tt, w2, ev2) /\
    published ev2 = [(TOPIC_HEALTH "A", @bytes_of_float decimal_text (float_of_Z 7))].
Proof.
  exact (proj2 (@presence_announced_once decimal_text 0 0 device_A app_world eq_refl
                  app_world_subscribers)).
Defined.

(** X10: the button does nothing before [start] has registered the
    handler.  [start] adds one subscription, to kompanion/+/+, at the end
    of the list, starts the sensor loop and registers [_on_button]; from
    then on a tap runs [_on_button]. *)
Theorem tap_needs_start (pub : string -> string -> nat -> bool -> M World unit)
    (i : nat) (d : CompanionDevice) (w : World) :
  devices w !! i = Some d ->
  (_btn_cb (hw d) = false -> Hardware_trigger_tap pub i w = Some (tt, w, [])) /\
  exists w1 ev,
    CompanionDevice_start i w = Some (tt, w1, ev) /\
    _subs (bus w1) = _subs (bus w) ++ [("kompanion/+/+", i)] /\
    sleeping w1 = sleeping w ++ [(SensorLoop i, 0%Q)] /\
    devices w1 = <[i := set_hw (set__btn_cb true (hw d)) d]> (devices w) /\
    Hardware_trigger_tap pub i w1 = CompanionDevice__on_button pub i w1.
Proof.
  intros Hd. split.
  - intros Hcb. unfold Hardware_trigger_tap.
    rewrite (bind_Some _ _ _ _ _ _ (on_device_get i w d Hd)). by rewrite Hcb.
  - set (d1 := set_hw (set__btn_cb true (hw d)) d).
    set (w0 := spawned (SensorLoop i) 0 (set__subs (_subs (bus w) ++ [("kompanion/+/+", i)]) w)).
    assert (Hd0 : devices w0 !! i = Some d) by done.
    assert (Hstart : CompanionDevice_start i w
                     = Some (tt, upd i d1 w0, log_events i d "connected to broker")).
    { unfold CompanionDevice_start, MockMQTTClient_connect, CompanionDevice__on_connect.
      erewrite bind_Some; cycle 1.
      { erewrite bind_Some; cycle 1.
        { eapply on_device_run; [exact Hd|apply log_run]. }
        rewrite upd_same by done. reflexivity. }
      unfold bind at 1, spawn, modify. fold w0.
      erewrite (on_device_run i _ w0 d tt d1 []); [|done|done].
      by rewrite !app_nil_r. }
    eexists _, _. split_and!; [exact Hstart|done..|].
    unfold Hardware_trigger_tap.
    rewrite (bind_Some _ _ _ _ _ _ (on_device_get i _ d1 (lookup_upd_eq i d1 d w0 Hd0))).
    change (_btn_cb (hw d1)) with true. cbv iota.
    by destruct (CompanionDevice__on_button pub i (upd i d1 w0)) as [[[[] ?] ?]|].
Qed.

Lemma tap_needs_start_witness :
  Hardware_trigger_tap (@bus_publish decimal_text 2) 0 unstarted_world
  = Some (tt, unstarted_world, []).
Proof.
  exact (proj1 (tap_needs_start (@bus_publish decimal_text 2) 0
                  (set_friend_unhealthy true (KompanionApp_device "A" "B"))
                  unstarted_world eq_refl) eq_refl).
Defined.

(** ** The label of the slider *)

Lemma SFcompare_antisym x y : SFcompare y x = option_map CompOpp (SFcompare x y).
Proof.
  destruct x as [sx|sx| |sx mx ex], y as [sy|sy| |sy my ey]; simpl;
    try reflexivity; try (by destruct sx, sy); try (by destruct sx); try (by destruct sy).
  f_equal. destruct sx, sy; try reflexivity.
  - rewrite (Z.compare_antisym ex ey). destruct (ex ?= ey)%Z; simpl; try reflexivity.
    by rewrite (Pos.compare_cont_antisym mx my Eq).
  - rewrite (Z.compare_antisym ex ey). destruct (ex ?= ey)%Z; simpl; try reflexivity.
    by rewrite (Pos.compare_cont_antisym mx my Eq).
Qed.

Lemma SFcompare_nan x y : x <> S754_nan -> y <> S754_nan -> SFcompare x y <> None.
Proof. destruct x, y; simpl; try done; by destruct s; try destruct s0. Qed.

Lemma fltb_not_fleb x y : x <> S754_nan -> y <> S754_nan -> fltb x y = negb (fleb y x).
Proof.
  intros Hx Hy. unfold fltb, fleb, SFltb, SFleb. rewrite (SFcompare_antisym x y).
  pose proof (SFcompare_nan x y Hx Hy).
  by destruct (SFcompare x y) as [[]|].
Qed.

(** X11: the label of the slider and the devices draw the same line: for
    every pH that is a number the label has the colour of a sick culture
    exactly when a device that receives that pH sets [friend_unhealthy].
    They differ on a NaN, which the label shows as healthy. *)
Theorem ph_label_agrees_with_threshold {text : FloatText} (ph : float) :
  ph <> S754_nan ->
  (DevicePanel__refresh_ph_label ph).2 = (if out_of_range ph then C_SICK else C_HEALTHY) /\
  (DevicePanel__refresh_ph_label S754_nan).2 = C_HEALTHY /\
  out_of_range S754_nan = true.
Proof.
  intros Hph. split; [|done].
  unfold DevicePanel__refresh_ph_label, out_of_range.
  rewrite (fltb_not_fleb ph PH_SAFE_LOW), (fltb_not_fleb PH_SAFE_HIGH ph) by done.
  by destruct (fleb PH_SAFE_LOW ph), (fleb ph PH_SAFE_HIGH).
Qed.

Lemma ph_label_agrees_with_threshold_witness :
  (@DevicePanel__refresh_ph_label decimal_text (float_of_Z 3)).2 = C_SICK.
Proof.
  refine (proj1 (@ph_label_agrees_with_threshold decimal_text (float_of_Z 3) _)).
  discriminate.
Defined.

(** ** The end of the recovery window *)

Lemma Thread_eqb_refl t : Thread_eqb t t = true.
Proof. destruct t; simpl; apply Nat.eqb_refl. Qed.

Lemma wake_up_ready t r asleep :
  (t, r) ∈ asleep -> (r <= 0)%Q -> is_Some (wake_up t asleep).
Proof.
  intros Hin Hr. induction asleep as [|[t' r'] rest IH]; [by inversion Hin|].
  simpl. destruct (Thread_eqb t t' && Qle_bool r' 0) eqn:Htest; [done|].
  apply elem_of_cons in Hin as [Heq|Hin].
  - injection Heq as <- <-.
    rewrite Thread_eqb_refl in Htest. simpl in Htest.
    apply Qle_bool_iff in Hr. congruence.
  - destruct (IH Hin) as [asleep' ->]. done.
Qed.

Lemma wake_up_keeps t asleep asleep' e :
  wake_up t asleep = Some asleep' ->
  e ∈ asleep -> ~ (e.2 <= 0)%Q -> e ∈ asleep'.
Proof.
  revert asleep'. induction asleep as [|[t' r'] rest IH]; intros asleep' Hw Hin Hr.
  - by inversion Hin.
  - simpl in Hw. destruct (Thread_eqb t t' && Qle_bool r' 0) eqn:Htest.
    + injection Hw as <-. apply elem_of_cons in Hin as [->|Hin]; [|done].
      apply andb_true_iff in Htest as [_ Htest]. apply Qle_bool_iff in Htest. done.
    + destruct (wake_up t rest) as [rest'|]; [|done]. injection Hw as <-.
      apply elem_of_cons in Hin as [->|Hin]; [apply list_elem_of_here|].
      apply list_elem_of_further. by apply IH.
Qed.

Lemma subscribers_exist_same w w' :
  bus w' = bus w -> length (devices w') = length (devices w) ->
  subscribers_exist w -> subscribers_exist w'.
Proof. unfold subscribers_exist. by intros -> ->. Qed.

Lemma elapse_run dt now w :
  (0 <= dt)%Q ->
  elapse dt now w
  = Some (tt, set_time_time now
                (set_sleeping (List.map (fun tr => (tr.1, tr.2 - dt)%Q) (sleeping w)) w), []).
Proof. intros Hdt. unfold elapse. apply Qle_bool_iff in Hdt. by rewrite Hdt. Qed.

Lemma elapse_asleep dt t r (asleep : list (Thread * Q)) :
  (t, r) ∈ asleep -> (t, (r - dt)%Q) ∈ List.map (fun tr => (tr.1, tr.2 - dt)%Q) asleep.
Proof.
  intros Hin. apply list_elem_of_In. apply list_elem_of_In in Hin.
  exact (in_map (fun tr => (tr.1, tr.2 - dt)%Q) asleep (t, r) Hin).
Qed.

Lemma finish_run i d :
  CompanionDevice__finish i d
  = Some (tt, set__recovering false d,
          log_events i (set__recovering false d) "dispenser sequence complete").
Proof.
  unfold CompanionDevice__finish, bind, modify.
  by rewrite (log_run i _ (set__recovering false d)).
Qed.

Section WindowEnd.

Context {text : FloatText}.
Variable fuel : nat.

Lemma feed_received_world i d w :
  devices w !! i = Some d ->
  subscribers_exist w ->
  exists w1 ev,
    CompanionDevice__on_feed_received (bus_publish (S fuel)) i w = Some (tt, w1, ev) /\
    subscribers_exist w1 /\
    devices w1 !! i = Some (led_after (time_time w) (dispensing d)) /\
    sleeping w1 = sleeping w ++ [(FinishThread i, RECOVERY_WINDOW)].
Proof.
  intros Hd Hwf.
  destruct (feed_received_run (bus_publish (S fuel)) (bus_publish_leaves fuel) i d w Hd Hwf)
    as (w1 & inner & _ & Hq & Hd1 & Hwf1 & _ & Hrun).
  eexists _, _. split_and!; [exact Hrun| | |].
  - apply subscribers_exist_same with w1; [done| |done].
    unfold spawned, upd. simpl. by rewrite length_insert.
  - unfold spawned. simpl. apply list_lookup_insert_eq. by eapply lookup_lt_Some.
  - unfold spawned. simpl. by destruct Hq as (_ & _ & -> & _).
Qed.

Lemma finish_step i d r w :
  devices w !! i = Some d ->
  (FinishThread i, r) ∈ sleeping w -> (r <= 0)%Q ->
  exists w' ev,
    step (S (S fuel)) (RunFinish i) w = Some (tt, w', ev) /\
    bus w' = bus w /\
    devices w' = <[i := set__recovering false d]> (devices w) /\
    (forall e, e ∈ sleeping w -> ~ (e.2 <= 0)%Q -> e ∈ sleeping w').
Proof.
  intros Hd Hin Hr.
  destruct (wake_up_ready _ _ _ Hin Hr) as [asleep Hwake].
  assert (Hawake : awake (FinishThread i) w = Some (tt, set_sleeping asleep w, [])).
  { unfold awake. by rewrite Hwake. }
  eexists _, _. split_and!.
  - cbn [step]. rewrite (bind_Some _ _ _ _ _ _ Hawake).
    erewrite (on_device_run i _ (set_sleeping asleep w) d); [reflexivity|done|apply finish_run].
  - done.
  - done.
  - intros e He Hpos. simpl. by eapply wake_up_keeps.
Qed.

End WindowEnd.

(** X12: the recovery window ends.  When the 2.5 seconds have passed
    after [_on_feed_received], a [_finish] thread of the device can run,
    whatever else is asleep; it clears [_recovering], and the next turn of
    the sensor loop publishes the health message again, with the pH that
    the sequence has written over the sensor's value. *)
Theorem recovery_window_ends {text : FloatText} (fuel i : nat)
    (d : CompanionDevice) (w : World) (now' : float) :
  devices w !! i = Some d ->
  subscribers_exist w ->
  exists w1 ev1 w2 ev2 d2 w3 ev3,
    CompanionDevice__on_feed_received (bus_publish (S fuel)) i w = Some (tt, w1, ev1) /\
    run (S (S fuel)) [Elapse RECOVERY_WINDOW now'; RunFinish i] w1 = Some (tt, w2, ev2) /\
    devices w2 !! i = Some d2 /\
    _recovering d2 = false /\
    CompanionDevice__sensor_loop_body (bus_publish (S fuel)) i w2 = Some (tt, w3, ev3) /\
    (TOPIC_HEALTH (id d), bytes_of_float recovered_ph) ∈ published ev3.
Proof.
  intros Hd Hwf.
  destruct (feed_received_world fuel i d w Hd Hwf) as (w1 & ev1 & Hrun1 & Hwf1 & Hd1 & Hsl1).
  set (dL := led_after (time_time w) (dispensing d)) in *.
  set (wE := set_time_time now'
               (set_sleeping (List.map (fun tr => (tr.1, tr.2 - RECOVERY_WINDOW)%Q)
                                (sleeping w1)) w1)).
  assert (HrunE : elapse RECOVERY_WINDOW now' w1 = Some (tt, wE, [])) by (by apply elapse_run).
  destruct (finish_step fuel i dL (RECOVERY_WINDOW - RECOVERY_WINDOW)%Q wE)
    as (w2 & ev2 & Hrun2 & Hbus2 & Hdev2 & _); [done| |done|].
  { unfold wE. simpl. apply elapse_asleep. rewrite Hsl1.
    apply elem_of_app. right. apply list_elem_of_here. }
  assert (Hd2 : devices w2 !! i = Some (set__recovering false dL)).
  { rewrite Hdev2. apply list_lookup_insert_eq. by eapply lookup_lt_Some. }
  assert (Hwf2 : subscribers_exist w2).
  { apply subscribers_exist_same with w1; [done| |done].
    rewrite Hdev2. by rewrite length_insert. }
  destruct (sensor_loop_body_own (bus_publish (S fuel)) (bus_publish_leaves fuel) i _ w2
              Hd2 Hwf2) as (w3 & ev3 & Hrun3 & _ & Hpub3).
  exists w1, ev1, w2, ([] ++ ev2 ++ []), (set__recovering false dL), w3, ev3.
  split_and!; try done.
  - cbn [run]. change (step (S (S fuel)) (Elapse RECOVERY_WINDOW now')) with
      (elapse RECOVERY_WINDOW now').
    rewrite (bind_Some _ _ _ _ _ _ HrunE).
    by rewrite (bind_Some _ _ _ _ _ _ Hrun2).
  - rewrite Hpub3. apply elem_of_app. right.
    change (_recovering (set__recovering false dL)) with false.
    change (id (set__recovering false dL)) with (id dL).
    change (_ph (hw (set__recovering false dL))) with (_ph (hw dL)).
    unfold dL.
    destruct (led_after_fields (time_time w) (dispensing d))
      as (-> & _ & _ & _ & _ & _ & -> & _).
    apply list_elem_of_here.
Qed.

Lemma recovery_window_ends_witness :
  exists w1 ev1 w2 ev2 d2 w3 ev3,
    @CompanionDevice__on_feed_received decimal_text (@bus_publish decimal_text 1) 0 app_world
      = Some (tt, w1, ev1) /\
    @run decimal_text 2 [Elapse RECOVERY_WINDOW (float_of_Z 1003); RunFinish 0] w1
      = Some (tt, w2, ev2) /\
    devices w2 !! 0 = Some d2 /\
    _recovering d2 = false /\
    @CompanionDevice__sensor_loop_body decimal_text (@bus_publish decimal_text 1) 0 w2
      = Some (tt, w3, ev3) /\
    (TOPIC_HEALTH "A", @bytes_of_float decimal_text recovered_ph) ∈ published ev3.
Proof.
  exact (@recovery_window_ends decimal_text 0 0 device_A app_world (float_of_Z 1003)
           eq_refl app_world_subscribers).
Defined.

(** X13: the recovery windows of two feed sequences do not add up.  When
    a second sequence starts [dt] seconds after the first, with [dt] less
    than 2.5, the [_finish] thread of the first clears [_recovering] 2.5
    seconds after the first sequence began, while the thread of the second
    has [dt] seconds left to sleep: the flag is down before the window of
    the second sequence is over. *)
Theorem overlapping_windows {text : FloatText} (fuel i : nat)
    (d : CompanionDevice) (w : World) (dt : Q) (now1 now2 : float) :
  devices w !! i = Some d ->
  subscribers_exist w ->
  (0 < dt)%Q -> (dt < RECOVERY_WINDOW)%Q ->
  exists w1 ev1 w2 ev2 w3 ev3 w4 ev4 d4 r,
    CompanionDevice__on_feed_received (bus_publish (S fuel)) i w = Some (tt, w1, ev1) /\
    run (S (S fuel)) [Elapse dt now1] w1 = Some (tt, w2, ev2) /\
    CompanionDevice__on_feed_received (bus_publish (S fuel)) i w2 = Some (tt, w3, ev3) /\
    run (S (S fuel)) [Elapse (RECOVERY_WINDOW - dt) now2; RunFinish i] w3
      = Some (tt, w4, ev4) /\
    devices w4 !! i = Some d4 /\
    _recovering d4 = false /\
    (FinishThread i, r) ∈ sleeping w4 /\ (r == dt)%Q.
Proof.
  intros Hd Hwf Hdt0 Hdt1.
  destruct (feed_received_world fuel i d w Hd Hwf) as (w1 & ev1 & Hrun1 & Hwf1 & Hd1 & Hsl1).
  set (dL := led_after (time_time w) (dispensing d)) in *.
  set (w2 := set_time_time now1
               (set_sleeping (List.map (fun tr => (tr.1, tr.2 - dt)%Q) (sleeping w1)) w1)).
  assert (Hrun2 : elapse dt now1 w1 = Some (tt, w2, [])) by (apply elapse_run; lra).
  assert (Hd2 : devices w2 !! i = Some dL) by done.
  assert (Hwf2 : subscribers_exist w2) by done.
  destruct (feed_received_world fuel i dL w2 Hd2 Hwf2) as (w3 & ev3 & Hrun3 & Hwf3 & Hd3 & Hsl3).
  set (dL3 := led_after (time_time w2) (dispensing dL)) in *.
  set (wE := set_time_time now2
               (set_sleeping (List.map (fun tr => (tr.1, tr.2 - (RECOVERY_WINDOW - dt))%Q)
                                (sleeping w3)) w3)).
  assert (HrunE : elapse (RECOVERY_WINDOW - dt) now2 w3 = Some (tt, wE, []))
    by (apply elapse_run; lra).
  assert (Hfirst : (FinishThread i, (RECOVERY_WINDOW - dt - (RECOVERY_WINDOW - dt))%Q)
                   ∈ sleeping wE).
  { unfold wE. simpl. apply elapse_asleep. rewrite Hsl3. apply elem_of_app. left.
    unfold w2. simpl. apply elapse_asleep. rewrite Hsl1.
    apply elem_of_app. right. apply list_elem_of_here. }
  assert (Hsecond : (FinishThread i, (RECOVERY_WINDOW - (RECOVERY_WINDOW - dt))%Q)
                    ∈ sleeping wE).
  { unfold wE. simpl. apply elapse_asleep. rewrite Hsl3.
    apply elem_of_app. right. apply list_elem_of_here. }
  destruct (finish_step fuel i dL3 (RECOVERY_WINDOW - dt - (RECOVERY_WINDOW - dt))%Q wE)
    as (w4 & ev4 & Hrun4 & Hbus4 & Hdev4 & Hkeep); [done|done|lra|].
  exists w1, ev1, w2, ([] ++ []), w3, ev3, w4, ([] ++ ev4 ++ []),
    (set__recovering false dL3), (RECOVERY_WINDOW - (RECOVERY_WINDOW - dt))%Q.
  split_and!; try done.
  - cbn [run]. change (step (S (S fuel)) (Elapse dt now1)) with (elapse dt now1).
    by rewrite (bind_Some _ _ _ _ _ _ Hrun2).
  - cbn [run]. change (step (S (S fuel)) (Elapse (RECOVERY_WINDOW - dt) now2)) with
      (elapse (RECOVERY_WINDOW - dt) now2).
    rewrite (bind_Some _ _ _ _ _ _ HrunE).
    by rewrite (bind_Some _ _ _ _ _ _ Hrun4).
  - rewrite Hdev4. apply list_lookup_insert_eq. by eapply lookup_lt_Some.
  - apply Hkeep; [done|]. simpl. lra.
  - lra.
Qed.

Lemma overlapping_windows_witness :
  exists w1 ev1 w2 ev2 w3 ev3 w4 ev4 d4 r,
    @CompanionDevice__on_feed_received decimal_text (@bus_publish decimal_text 1) 0 app_world
      = Some (tt, w1, ev1) /\
    @run decimal_text 2 [Elapse 1 (float_of_Z 1001)] w1 = Some (tt, w2, ev2) /\
    @CompanionDevice__on_feed_received decimal_text (@bus_publish decimal_text 1) 0 w2
      = Some (tt, w3, ev3) /\
    @run decimal_text 2 [Elapse (RECOVERY_WINDOW - 1) (float_of_Z 1002); RunFinish 0] w3
      = Some (tt, w4, ev4) /\
    devices w4 !! 0 = Some d4 /\
    _recovering d4 = false /\
    (FinishThread 0, r) ∈ sleeping w4 /\ (r == 1)%Q.
Proof.
  apply (@overlapping_windows decimal_text 0 0 device_A app_world 1 (float_of_Z 1001)
           (float_of_Z 1002) eq_refl app_world_subscribers); reflexivity.
Defined.

(** ** The indicator as an invariant *)

Lemma keeps_but_refl skip w : keeps_but skip w w.
Proof. split; [done|]. intros j d d' _ Hd Hd'. congruence. Qed.

Lemma keeps_but_trans skip w1 w2 w3 :
  keeps_but skip w1 w2 -> keeps_but skip w2 w3 -> keeps_but skip w1 w3.
Proof.
  intros [Hlen1 H1] [Hlen2 H2]. split; [congruence|].
  intros j d d' Hj Hd Hd' Hshows.
  destruct (lookup_lt_is_Some_2 (devices w2) j) as [d2 Hd2].
  { rewrite Hlen1. by eapply lookup_lt_Some. }
  eauto.
Qed.

Lemma keeps_but_weaken skip w w' : keeps_but None w w' -> keeps_but skip w w'.
Proof. intros [Hlen H]. split; [done|]. intros j d d' _. by apply H. Qed.

Lemma keeps_but_devices skip w w' : devices w' = devices w -> keeps_but skip w w'.
Proof. intros Heq. split; [by rewrite Heq|]. intros j d d' _. rewrite Heq. congruence. Qed.

Lemma keeps_but_upd i d w : keeps_but (Some i) w (upd i d w).
Proof.
  split; [unfold upd; simpl; by rewrite length_insert|].
  intros j d1 d2 Hj Hd1 Hd2. rewrite lookup_upd_ne in Hd2 by congruence. congruence.
Qed.

Lemma keeps_but_close i w w' :
  keeps_but (Some i) w w' ->
  (forall d', devices w' !! i = Some d' -> shows_indicator d') ->
  keeps_but None w w'.
Proof.
  intros [Hlen H] Hi. split; [done|]. intros j d d' _ Hd Hd' Hshows.
  destruct (decide (j = i)) as [->|Hne]; [by apply Hi|].
  apply (H j d d'); [congruence|done..].
Qed.

Lemma keeps_but_show w w' :
  keeps_but None w w' ->
  Forall shows_indicator (devices w) -> Forall shows_indicator (devices w').
Proof.
  intros [Hlen H] Hall. apply Forall_lookup. intros j d' Hd'.
  destruct (lookup_lt_is_Some_2 (devices w) j) as [d Hd].
  { rewrite <- Hlen. by eapply lookup_lt_Some. }
  apply (H j d d'); [done..|]. by eapply Forall_lookup_1.
Qed.

Lemma keeps_ret {A} skip (a : A) : keeps_indicators skip (ret a).
Proof. intros w a' w' ev [= _ <- _]. apply keeps_but_refl. Qed.

Lemma keeps_bind {A B} skip (m : M World A) (k : A -> M World B) :
  keeps_indicators skip m -> (forall a, keeps_indicators skip (k a)) ->
  keeps_indicators skip (bind m k).
Proof.
  intros Hm Hk w b w' ev H.
  apply bind_inv in H as (a & w1 & ev1 & ev2 & H1 & H2 & _).
  eapply keeps_but_trans; [by eapply Hm|by eapply Hk].
Qed.

Lemma keeps_weaken {A} skip (m : M World A) :
  keeps_indicators None m -> keeps_indicators skip m.
Proof. intros Hm w a w' ev H. eapply keeps_but_weaken, Hm, H. Qed.

Lemma keeps_same {A} skip (m : M World A) :
  (forall w a w' ev, m w = Some (a, w', ev) -> devices w' = devices w) ->
  keeps_indicators skip m.
Proof. intros Hm w a w' ev H. eapply keeps_but_devices, Hm, H. Qed.

Lemma on_device_inv {A} i (m : M CompanionDevice A) w a w' ev :
  on_device i m w = Some (a, w', ev) ->
  exists d d', devices w !! i = Some d /\ m d = Some (a, d', ev) /\ w' = upd i d' w.
Proof.
  unfold on_device. destruct (devices w !! i) as [d|]; [|done].
  destruct (m d) as [[[a' d'] ev']|] eqn:Hm; [|done].
  intros [= <- <- <-]. by exists d, d'.
Qed.

Lemma keeps_on_device {A} i (m : M CompanionDevice A) :
  keeps_indicators (Some i) (on_device i m).
Proof.
  intros w a w' ev H. apply on_device_inv in H as (d & d' & _ & _ & ->).
  apply keeps_but_upd.
Qed.

Lemma keeps_on_device_all {A} i (m : M CompanionDevice A) :
  (forall d a d' ev, m d = Some (a, d', ev) -> shows_indicator d -> shows_indicator d') ->
  keeps_indicators None (on_device i m).
Proof.
  intros Hm w a w' ev H. apply on_device_inv in H as (d & d' & Hd & Hrun & ->).
  split; [unfold upd; simpl; by rewrite length_insert|].
  intros j d1 d2 _ Hd1 Hd2. destruct (decide (j = i)) as [->|Hne].
  - rewrite (lookup_upd_eq i d' d w Hd) in Hd2. injection Hd2 as <-.
    assert (d1 = d) as -> by congruence. by eapply Hm.
  - rewrite lookup_upd_ne in Hd2 by done. congruence.
Qed.

Lemma keeps_on_device_get i : keeps_indicators None (on_device i get).
Proof. apply keeps_on_device_all. by intros d a d' ev [= _ <- _]. Qed.

Lemma keeps_on_device_log i msg :
  keeps_indicators None (on_device i (CompanionDevice__log i msg)).
Proof.
  apply keeps_on_device_all. intros d a d' ev. rewrite log_run. by intros [= _ <- _].
Qed.

Lemma keeps_scope {A} skip (node : list Event -> A -> Event) (m : M World A) :
  keeps_indicators skip m -> keeps_indicators skip (scope node m).
Proof.
  intros Hm w a w' ev. unfold scope.
  destruct (m w) as [[[a1 w1] ev1]|] eqn:H; [|done].
  intros [= <- <- <-]. by eapply Hm.
Qed.

Lemma keeps_close {A} i (m : M World A) :
  keeps_indicators (Some i) m -> restores_indicator i m -> keeps_indicators None m.
Proof.
  intros Hk Hr w a w' ev H. apply keeps_but_close with i; [by eapply Hk|by eapply Hr].
Qed.

Lemma restores_bind {A B} i (m : M World A) (k : A -> M World B) :
  (forall a, restores_indicator i (k a)) -> restores_indicator i (bind m k).
Proof.
  intros Hk w b w' ev H.
  apply bind_inv in H as (a & w1 & ev1 & ev2 & H1 & H2 & _). by eapply Hk.
Qed.

Lemma update_led_inv i w w' ev :
  update_led i w = Some (tt, w', ev) ->
  exists d, devices w !! i = Some d /\ w' = upd i (led_after (time_time w) d) w.
Proof.
  intros H. destruct (devices w !! i) as [d|] eqn:Hd.
  - rewrite (update_led_world i w d Hd) in H. injection H as <- _. by exists d.
  - unfold update_led, bind, clock, on_device in H. by rewrite Hd in H.
Qed.

Lemma keeps_update_led i : keeps_indicators (Some i) (update_led i).
Proof.
  intros w [] w' ev H. apply update_led_inv in H as (d & _ & ->). apply keeps_but_upd.
Qed.

Lemma restores_update_led i : restores_indicator i (update_led i).
Proof.
  intros w [] w' ev H d' Hd'. apply update_led_inv in H as (d & Hd & ->).
  rewrite (lookup_upd_eq i _ d w Hd) in Hd'. injection Hd' as <-.
  apply shows_indicator_led_after.
Qed.

Lemma keeps_spawn skip t q : keeps_indicators skip (spawn t q).
Proof. apply keeps_same. by intros w a w' ev [= _ <- _]. Qed.

Lemma keeps_clock skip : keeps_indicators skip clock.
Proof. apply keeps_same. by intros w a w' ev [= _ <- _]. Qed.

Section Invariant.

Context {text : FloatText}.
Variable pub : string -> string -> nat -> bool -> M World unit.
Hypothesis pub_keeps : forall t p qos retain, keeps_indicators None (pub t p qos retain).

Lemma keeps_publish skip t p : keeps_indicators skip (CompanionDevice__publish pub t p).
Proof. apply keeps_weaken, pub_keeps. Qed.

Lemma keeps_feed_received i :
  keeps_indicators (Some i) (CompanionDevice__on_feed_received pub i).
Proof.
  unfold CompanionDevice__on_feed_received. cbv zeta.
  apply keeps_bind; [apply keeps_on_device|intros self].
  apply keeps_bind; [apply keeps_on_device|intros _].
  apply keeps_bind; [apply keeps_publish|intros _].
  apply keeps_bind; [apply keeps_update_led|intros _].
  apply keeps_bind; [apply keeps_on_device|intros _].
  apply keeps_spawn.
Qed.

Lemma keeps_on_message_kind i peer kind pl :
  keeps_indicators (Some i) (CompanionDevice__on_message_kind pub i peer kind pl).
Proof.
  unfold CompanionDevice__on_message_kind.
  destruct (String.eqb kind "presence");
    [apply keeps_bind; [apply keeps_on_device|intros; apply keeps_ret]|].
  destruct (String.eqb kind "presence_binary");
    [apply keeps_bind; [apply keeps_on_device|intros; apply keeps_ret]|].
  destruct (String.eqb kind "health").
  { destruct (float_of_bytes pl); [|apply keeps_ret].
    apply keeps_bind; [apply keeps_on_device|intros; apply keeps_ret]. }
  destruct (String.eqb kind "feed"); [|apply keeps_ret].
  apply keeps_bind; [apply keeps_on_device|intros ?].
  apply keeps_bind; [apply keeps_feed_received|intros; apply keeps_ret].
Qed.

Lemma then_ret_inv {A B} (m : M World A) (b b' : B) w w' ev :
  (m >> ret b) w = Some (b', w', ev) -> b' = b.
Proof.
  intros H. apply bind_inv in H as (a & w1 & ev1 & ev2 & _ & H2 & _).
  by injection H2 as <- _ _.
Qed.

Lemma on_message_kind_false i peer kind pl w w' ev :
  CompanionDevice__on_message_kind pub i peer kind pl w = Some (false, w', ev) -> w' = w.
Proof.
  unfold CompanionDevice__on_message_kind.
  destruct (String.eqb kind "presence"); [by intros H%then_ret_inv|].
  destruct (String.eqb kind "presence_binary"); [by intros H%then_ret_inv|].
  destruct (String.eqb kind "health").
  { destruct (float_of_bytes pl); [by intros H%then_ret_inv|]. by intros [= <- _]. }
  destruct (String.eqb kind "feed"); [|done].
  intros H. apply bind_inv in H as (a & w1 & ev1 & ev2 & _ & H2 & _).
  by apply then_ret_inv in H2.
Qed.

Lemma keeps_on_message i msg :
  keeps_indicators None (CompanionDevice__on_message pub i msg).
Proof.
  unfold CompanionDevice__on_message.
  destruct (split "/" (topic msg)) as [|a [|peer [|kind [|]]]]; try apply keeps_ret.
  apply keeps_bind; [apply keeps_on_device_get|intros self].
  destruct (String.eqb peer (id self)); [apply keeps_ret|].
  intros w [] w' ev H.
  apply bind_inv in H as (go_on & w1 & ev1 & ev2 & H1 & H2 & _).
  destruct go_on.
  - apply keeps_but_close with i.
    + eapply keeps_but_trans; [by eapply keeps_on_message_kind|by eapply keeps_update_led].
    + by eapply restores_update_led.
  - injection H2 as <- _. apply on_message_kind_false in H1 as ->. apply keeps_but_refl.
Qed.

Lemma keeps_sensor_loop_body i :
  keeps_indicators None (CompanionDevice__sensor_loop_body pub i).
Proof.
  apply keeps_close with i; unfold CompanionDevice__sensor_loop_body.
  - apply keeps_bind; [apply keeps_on_device|intros self0].
    apply keeps_bind; [apply keeps_on_device|intros _].
    apply keeps_bind; [apply keeps_on_device|intros self1].
    apply keeps_bind.
    { destruct (negb (Bool.eqb (present self1) (present self0))); [|apply keeps_ret].
      apply keeps_bind; [apply keeps_clock|intros now].
      apply keeps_bind; [apply keeps_publish|intros _]. apply keeps_publish. }
    intros _. apply keeps_bind; [apply keeps_on_device|intros self2].
    apply keeps_bind; [|intros _; apply keeps_update_led].
    destruct (negb (_recovering self2)); [apply keeps_publish|apply keeps_ret].
  - do 6 (apply restores_bind; intros ?). apply restores_update_led.
Qed.

Lemma keeps_on_button i : keeps_indicators None (CompanionDevice__on_button pub i).
Proof.
  unfold CompanionDevice__on_button.
  apply keeps_bind; [apply keeps_on_device_get|intros self].
  destruct (friend_unhealthy self); [|apply keeps_ret].
  apply keeps_bind; [apply keeps_on_device_log|intros _]. apply keeps_publish.
Qed.

Lemma keeps_trigger_tap i : keeps_indicators None (Hardware_trigger_tap pub i).
Proof.
  unfold Hardware_trigger_tap.
  apply keeps_bind; [apply keeps_on_device_get|intros self].
  destruct (_btn_cb (hw self)); [apply keeps_on_button|apply keeps_ret].
Qed.

Lemma keeps_apply_ph i ph : keeps_indicators None (DevicePanel__apply_ph pub i ph).
Proof.
  unfold DevicePanel__apply_ph.
  apply keeps_bind; [apply keeps_on_device_get|intros self].
  apply keeps_bind; [|intros _; apply keeps_publish].
  apply keeps_on_device_all. by intros d a d' ev [= _ <- _].
Qed.

Lemma keeps_toggle_presence i :
  keeps_indicators (Some i) (DevicePanel__toggle_presence pub i).
Proof.
  unfold DevicePanel__toggle_presence.
  apply keeps_bind; [apply keeps_on_device|intros self].
  apply keeps_bind; [apply keeps_on_device|intros _].
  apply keeps_bind; [apply keeps_clock|intros now].
  apply keeps_bind; [apply keeps_publish|intros _]. apply keeps_publish.
Qed.

Lemma keeps_dispatch i msg :
  keeps_indicators None (MockMQTTClient__dispatch pub i msg).
Proof.
  unfold MockMQTTClient__dispatch.
  apply keeps_bind; [apply keeps_on_message|intros; apply keeps_ret].
Qed.

End Invariant.

Lemma keeps_deliver (run : callbacks) msg matched :
  (forall cb, keeps_indicators None (run cb msg)) ->
  keeps_indicators None (deliver run msg matched).
Proof.
  intros Hrun. induction matched as [|[p cb] rest IH]; simpl; [apply keeps_ret|].
  apply keeps_bind; [apply keeps_scope, Hrun|intros result].
  apply keeps_bind; [|intros _; exact IH].
  destruct result; [apply keeps_ret|].
  apply keeps_same. by intros w a w' ev [= _ <- _].
Qed.

Lemma keeps_bus_publish (run : callbacks) t p qos retain :
  (forall cb msg, keeps_indicators None (run cb msg)) ->
  keeps_indicators None (InProcessBus_publish run t p qos retain).
Proof.
  intros Hrun. unfold InProcessBus_publish. apply keeps_scope.
  apply keeps_bind; [apply keeps_same; by intros w a w' ev [= _ <- _]|intros w0].
  apply keeps_bind; [|intros _; by apply keeps_deliver].
  apply keeps_same. unfold when, emit, ret.
  intros w a w' ev. by destruct (_log_cb (bus w0)); intros [= _ <- _].
Qed.

Lemma keeps_publish_fuel {text : FloatText} fuel t p qos retain :
  keeps_indicators None (bus_publish fuel t p qos retain).
Proof.
  revert t p qos retain. induction fuel as [|fuel IH]; intros t p qos retain.
  - intros w a w' ev H. done.
  - simpl. apply keeps_bus_publish. intros cb msg. by apply keeps_dispatch.
Qed.

Lemma keeps_finish i : keeps_indicators None (on_device i (CompanionDevice__finish i)).
Proof.
  apply keeps_on_device_all. intros d a d' ev. rewrite finish_run. by intros [= _ <- _].
Qed.

(** X14: every call keeps the indicator, when no other thread acts while
    the call runs.  A device whose [led_state] is the indicator of its
    flags before the handler of a message, a turn of the sensor loop, a
    tap, a move of the slider or the end of a [_finish] thread still has
    it when the call returns, and so has every other device, those that
    handled a message of the call included; the toggle of a panel keeps
    it for every device except the one of the panel, whose [present] it
    sets without recomputing the indicator.  With fuel for the publishes
    inside them, the turn, the tap and the move of the slider do
    return. *)
Theorem indicator_kept_by_each_call {text : FloatText} (fuel i : nat) :
  (forall msg, keeps_indicators None (CompanionDevice__on_message (bus_publish fuel) i msg)) /\
  keeps_indicators None (CompanionDevice__sensor_loop_body (bus_publish fuel) i) /\
  keeps_indicators None (Hardware_trigger_tap (bus_publish fuel) i) /\
  (forall ph, keeps_indicators None (DevicePanel__apply_ph (bus_publish fuel) i ph)) /\
  keeps_indicators None (on_device i (CompanionDevice__finish i)) /\
  keeps_indicators (Some i) (DevicePanel__toggle_presence (bus_publish fuel) i) /\
  (forall w ph, subscribers_exist w -> i < length (devices w) ->
     is_Some (CompanionDevice__sensor_loop_body (bus_publish (S fuel)) i w) /\
     is_Some (Hardware_trigger_tap (bus_publish (S (S fuel))) i w) /\
     is_Some (DevicePanel__apply_ph (bus_publish (S fuel)) i ph w)).
Proof.
  pose proof (keeps_publish_fuel fuel) as Hpub. split_and!.
  - intros msg. by apply keeps_on_message.
  - by apply keeps_sensor_loop_body.
  - by apply keeps_trigger_tap.
  - intros ph. by apply keeps_apply_ph.
  - apply keeps_finish.
  - by apply keeps_toggle_presence.
  - intros w ph Hwf Hi. destruct (lookup_lt_is_Some_2 _ _ Hi) as [d Hd]. split_and!.
    + destruct (sensor_loop_body_own (bus_publish (S fuel)) (bus_publish_leaves fuel)
                  i d w Hd Hwf) as (w' & ev & H & _).
      by rewrite H.
    + destruct (trigger_tap_run fuel i d w Hd Hwf) as (w' & ev & H & _). by rewrite H.
    + destruct (apply_ph_run (bus_publish (S fuel)) (bus_publish_leaves fuel)
                  i d ph w Hd Hwf) as (w' & ev & H & _).
      by rewrite H.
Qed.

(** ** The sensor loop seen from the other devices *)

Section TickReach.

Context {text : FloatText}.
Variable fuel : nat.

(** The presence messages of a turn of the loop of device [j], seen from
    another device [i]: it stays in place, with its id. *)
Lemma presence_part_leaves j dj i di (changed : bool) w :
  devices w !! j = Some dj ->
  devices w !! i = Some di ->
  subscribers_exist w ->
  exists w1 ev1 di1,
    (if changed
     then let! now := clock in
          let ts_payload := if present dj then bytes_of_float now else "0" in
          let bin_payload := if present dj then "1" else "0" in
          CompanionDevice__publish (bus_publish (S fuel)) (TOPIC_PRESENCE (id dj)) ts_payload >>
          CompanionDevice__publish (bus_publish (S fuel)) (TOPIC_PRESENCE_BINARY (id dj))
            bin_payload
     else ret tt) w = Some (tt, w1, ev1) /\
    subscribers_exist w1 /\ bus w1 = bus w /\ time_time w1 = time_time w /\
    devices w1 !! j = Some dj /\
    devices w1 !! i = Some di1 /\ id di1 = id di.
Proof.
  intros Hdj Hdi Hwf. destruct changed.
  - set (p1 := if present dj then bytes_of_float (time_time w) else "0").
    set (p2 := if present dj then "1" else "0").
    destruct (bus_publish_leaf fuel (topic_of (id dj) "presence") p1 1 true w)
      as (wa & inner1 & Hrun1 & Hrel1 & _); [by rewrite kind_of_topic_of|done|].
    pose proof (subscribers_exist_leaf _ _ _ Hrel1 Hwf) as Hwfa.
    destruct (bus_publish_leaf fuel (topic_of (id dj) "presence_binary") p2 1 true wa)
      as (wb & inner2 & Hrun2 & Hrel2 & _); [by rewrite kind_of_topic_of|done|].
    destruct (leaf_world_lookup _ _ _ i di Hrel1 Hdi) as (dia & Hdia & Hleafa).
    destruct (leaf_world_lookup _ _ _ i dia Hrel2 Hdia) as (dib & Hdib & Hleafb).
    exists wb, [EvPublish (topic_of (id dj) "presence") p1 inner1;
                EvPublish (topic_of (id dj) "presence_binary") p2 inner2], dib.
    split_and!.
    + unfold bind at 1, clock. fold p1 p2.
      change (CompanionDevice__publish (bus_publish (S fuel)) (TOPIC_PRESENCE (id dj)) p1)
        with (bus_publish (S fuel) (topic_of (id dj) "presence") p1 1 true).
      rewrite (bind_Some _ _ _ _ _ _ Hrun1).
      change (CompanionDevice__publish (bus_publish (S fuel)) (TOPIC_PRESENCE_BINARY (id dj)) p2)
        with (bus_publish (S fuel) (topic_of (id dj) "presence_binary") p2 1 true).
      by rewrite Hrun2.
    + by eapply subscribers_exist_leaf.
    + destruct Hrel2 as (-> & _). by destruct Hrel1 as (-> & _).
    + destruct Hrel2 as (_ & -> & _). by destruct Hrel1 as (_ & -> & _).
    + eapply leaf_world_own; [exact Hrel2| |by apply topic_of_own_id].
      eapply leaf_world_own; [exact Hrel1|done|by apply topic_of_own_id].
    + done.
    + destruct Hleafb as (-> & _). by destruct Hleafa as (-> & _).
  - by exists w, [], di.
Qed.

End TickReach.

(** X15: the turn of the sensor loop of a device that is not recovering
    tells every other subscribed device the pH it reads: once the turn has
    returned, the other device's [friend_unhealthy] tells whether that pH
    is outside the safe range, and its indicator shows it.  The turn of a
    recovering device whose presence has not changed publishes nothing
    and leaves every other device as it is. *)
Theorem tick_reaches_peers {text : FloatText} (fuel i j : nat)
    (di dj : CompanionDevice) (w : World) :
  devices w !! i = Some di ->
  devices w !! j = Some dj ->
  subscribers_exist w ->
  id di <> id dj ->
  split "/" (id dj) = [id dj] ->
  ("kompanion/+/+", i) ∈ _subs (bus w) ->
  (_recovering dj = false ->
   float_of_bytes (bytes_of_float (_ph (hw dj))) = Some (_ph (hw dj)) ->
   exists w' ev di',
     CompanionDevice__sensor_loop_body (bus_publish (S fuel)) j w = Some (tt, w', ev) /\
     devices w' !! i = Some di' /\
     friend_unhealthy di' = out_of_range (_ph (hw dj)) /\
     shows_indicator di') /\
  (_recovering dj = true -> present dj = _presence (hw dj) ->
   exists w' ev,
     CompanionDevice__sensor_loop_body (bus_publish (S fuel)) j w = Some (tt, w', ev) /\
     devices w' !! i = Some di /\ published ev = []).
Proof.
  intros Hdi Hdj Hwf Hids Hslash Hsub.
  assert (Hij : j <> i) by (intros ->; congruence).
  set (d0 := polled dj).
  set (w0 := upd j d0 w).
  assert (Hd0 : devices w0 !! j = Some d0) by (by eapply lookup_upd_eq).
  assert (Hdi0 : devices w0 !! i = Some di) by (unfold w0; by rewrite lookup_upd_ne).
  assert (Hwf0 : subscribers_exist w0) by (by apply subscribers_exist_upd).
  assert (Hpoll : on_device j (modify (fun d => set_present (_presence (hw d)) d)) w
                  = Some (tt, w0, [])).
  { by eapply on_device_run. }
  split.
  - intros Hrec Hround.
    destruct (presence_part_leaves fuel j d0 i di
                (negb (Bool.eqb (present d0) (present dj))) w0 Hd0 Hdi0 Hwf0)
      as (w1 & ev1 & di1 & Hrun1 & Hwf1 & Hbus1 & Hnow1 & Hd1 & Hdi1 & Hid1).
    set (ph := _ph (hw dj)) in *.
    set (msg := mkMsg (TOPIC_HEALTH (id dj)) (bytes_of_float ph)).
    assert (Hsplit : split "/" (topic msg) = ["kompanion"; id dj; "health"]).
    { unfold msg. cbn [topic]. change (TOPIC_HEALTH (id dj)) with (topic_of (id dj) "health").
      by rewrite split_topic_of, Hslash. }
    destruct (publish_reaches (bus_publish fuel) msg i (id di) (time_time w)
                (fun d => friend_unhealthy d = out_of_range ph /\ shows_indicator d))
      with (qos := 1) (retain := true) (w := w1) (d := di1)
      as (w2 & inner & di2 & Hrun2 & Hrel2 & Hdi2 & HQ); try done.
    { rewrite (kind_of_three _ _ _ _ Hsplit). discriminate. }
    { intros wx dx Hdx Hidx Hnowx. eexists _, _. split.
      - eapply (on_message_health (bus_publish fuel) i dx wx _ _ msg ph Hdx Hsplit);
          [congruence|done].
      - rewrite Hnowx. split; [|apply shows_indicator_led_after].
        by destruct (led_after_fields (time_time w) (set_friend_unhealthy (out_of_range ph) dx))
          as (_ & -> & _). }
    destruct HQ as [Hfu Hled].
    { exists "kompanion/+/+". split; [by rewrite Hbus1|].
      by apply (match_topic_of (id dj) "health"). }
    assert (Hd2 : devices w2 !! j = Some d0).
    { eapply leaf_world_own; [exact Hrel2|done|].
      unfold msg. change (TOPIC_HEALTH (id dj)) with (topic_of (id d0) "health").
      by apply topic_of_own_id. }
    eexists _, _, di2. split_and!; [|by rewrite lookup_upd_ne|done|done].
    unfold CompanionDevice__sensor_loop_body.
    rewrite (bind_Some _ _ _ _ _ _ (on_device_get j w dj Hdj)).
    rewrite (bind_Some _ _ _ _ _ _ Hpoll).
    rewrite (bind_Some _ _ _ _ _ _ (on_device_get j _ d0 Hd0)).
    rewrite (bind_Some _ _ _ _ _ _ Hrun1).
    rewrite (bind_Some _ _ _ _ _ _ (on_device_get j _ d0 Hd1)).
    change (_recovering d0) with (_recovering dj). rewrite Hrec. cbn [negb].
    change (CompanionDevice__publish (bus_publish (S fuel)) (TOPIC_HEALTH (id d0))
              (bytes_of_float (_ph (hw d0))))
      with (InProcessBus_publish (MockMQTTClient__dispatch (bus_publish fuel))
              (topic msg) (payload msg) 1 true).
    rewrite (bind_Some _ _ _ _ _ _ Hrun2).
    rewrite (update_led_world j w2 d0 Hd2). reflexivity.
  - intros Hrec Hsame.
    eexists _, _. split_and!; [|by rewrite lookup_upd_ne|].
    + unfold CompanionDevice__sensor_loop_body.
      rewrite (bind_Some _ _ _ _ _ _ (on_device_get j w dj Hdj)).
      rewrite (bind_Some _ _ _ _ _ _ Hpoll).
      rewrite (bind_Some _ _ _ _ _ _ (on_device_get j _ d0 Hd0)).
      change (present d0) with (_presence (hw dj)). rewrite Hsame, eqb_same.
      rewrite (bind_Some _ _ _ tt w0 [] eq_refl).
      rewrite (bind_Some _ _ _ _ _ _ (on_device_get j _ d0 Hd0)).
      change (_recovering d0) with (_recovering dj). rewrite Hrec. cbn [negb].
      rewrite (bind_Some _ _ _ tt w0 [] eq_refl).
      rewrite (update_led_world j w0 d0 Hd0). reflexivity.
    + simpl. apply published_led.
Qed.

Lemma tick_reaches_peers_witness :
  exists w' ev di',
    @CompanionDevice__sensor_loop_body decimal_text (@bus_publish decimal_text 1) 1 app_world
      = Some (tt, w', ev) /\
    devices w' !! 0 = Some di' /\
    friend_unhealthy di' = out_of_range (_ph (hw device_B)) /\
    shows_indicator di'.
Proof.
  refine (proj1 (@tick_reaches_peers decimal_text 0 0 1 device_A device_B app_world
                   eq_refl eq_refl app_world_subscribers _ eq_refl _) eq_refl _).
  - discriminate.
  - apply list_elem_of_here.
  - vm_compute. reflexivity.
Defined.

(** ** The log of the bus *)

(** X16: once a log sink is set, every publish logs its topic and
    payload first, before any subscriber is called and whether or not a
    subscription matches; setting the sink leaves the subscriptions as
    they are. *)
Theorem bus_log_first (run : callbacks) (topic payload : string)
    (qos : nat) (retain : bool) (w : World) :
  (forall cb msg w, is_Some (run cb msg w)) ->
  exists w' rest,
    (InProcessBus_set_log >> InProcessBus_publish run topic payload qos retain) w
      = Some (tt, w', [EvPublish topic payload (EvBusLog topic payload :: rest)]) /\
    calls rest = (matching topic (_subs (bus w))).*2 /\
    ((matching topic (_subs (bus w))) = [] -> rest = []).
Proof.
  intros Htotal.
  set (w1 := mkWorld (mkBus (_subs (bus w)) true) (devices w) (time_time w) (sleeping w)).
  destruct (publish_calls run Htotal topic payload qos retain w1) as (w' & results & Hpub & Hall).
  exists w', (concat (zip_with call_events (matching topic (_subs (bus w))).*2 results)).
  split_and!.
  - unfold bind at 1, InProcessBus_set_log, modify. fold w1. by rewrite Hpub.
  - apply calls_call_events. by eapply Forall2_length.
  - intros Hnone. by rewrite Hnone.
Qed.

Lemma bus_log_first_witness :
  exists w' rest,
    (InProcessBus_set_log >>
     InProcessBus_publish example_run "kompanion/A/health" "3.0" 1 true) example_bus_world
      = Some (tt, w', [EvPublish "kompanion/A/health" "3.0"
                         (EvBusLog "kompanion/A/health" "3.0" :: rest)]) /\
    calls rest = [0; 1; 3] /\
    ((matching "kompanion/A/health" (_subs (bus example_bus_world))) = [] -> rest = []).
Proof.
  assert (Htotal : forall cb msg w, is_Some (example_run cb msg w)) by (intros; by eexists).
  exact (bus_log_first example_run "kompanion/A/health" "3.0" 1 true example_bus_world Htotal).
Defined.
